(** * The adaptive learning engine: mastery tracking and difficulty bandit

    A shallow embedding of three services of the backend,

      - [MasteryService]  (backend/src/adaptive/mastery.service.ts),
      - [BanditService]   (backend/src/adaptive/bandit.service.ts),
      - [AdaptiveService] (backend/src/adaptive/adaptive.service.ts),

    followed by the properties the specification states about them.

    Modelling conventions.

      - A JavaScript number is an exact rational [Q]: the IEEE rounding of
        the individual operations is not modelled, the explicit rounding
        the code performs ([Math.round (x * 10000) / 10000]) is.  Several
        of the further properties are stated with a margin, where the
        exact statement over [Q] would hang on the last binary digit of a
        double (a value exactly on a bound, an identity between sums).
        Division
        never raises in JavaScript; where the source divides by a value
        that can be zero the quotient is a [JsNumber], which keeps the
        infinities and NaN apart from the finite results.
      - The Supabase tables are finite maps, keyed the way the queries
        select rows.  A query on a reliable connection fails only for a
        reason visible in the table (no row for [.single()], a duplicate
        key on insert); such a failure is what makes the services throw.
      - [new Date()] is an argument [now], in milliseconds; a timestamp
        column holds [Some] instant or [None] for SQL NULL.
      - [async] functions run to completion one after the other. *)

From Stdlib Require Import QArith Qround Qminmax Lqa ZArith Lia List.
From stdpp Require Import gmap strings.
Import ListNotations.

Open Scope Q_scope.

(** ** JavaScript numbers *)

Definition Qlt_bool (a b : Q) : bool := negb (Qle_bool b a).

Notation "a <? b" := (Qlt_bool a b) (at level 70, no associativity) : Q_scope.
Notation "a <=? b" := (Qle_bool a b) (at level 70, no associativity) : Q_scope.
Notation "a >? b" := (Qlt_bool b a) (at level 70, no associativity) : Q_scope.
Notation "a >=? b" := (Qle_bool b a) (at level 70, no associativity) : Q_scope.

Module Math.

Definition max (a b : Q) : Q := Qmax a b.

Definition min (a b : Q) : Q := Qmin a b.

(** [Math.round] rounds to the nearest integer, a tie towards +infinity. *)
Definition round (x : Q) : Q := inject_Z (Qfloor (x + 0.5)).

Definition ceil (x : Q) : Q := inject_Z (Qceiling x).

End Math.

(** The result of a JavaScript division whose divisor may be zero. *)
Inductive JsNumber : Type :=
| Finite (q : Q)
| PosInfinity
| NegInfinity
| NaN.

Definition js_div (a b : Q) : JsNumber :=
  if Qeq_bool b 0 then
    if Qeq_bool a 0 then NaN
    else if 0 <? a then PosInfinity else NegInfinity
  else Finite (a / b).

(** [x >= q] and [x < q] for such a quotient; a comparison with NaN is false. *)
Definition js_geb (x : JsNumber) (q : Q) : bool :=
  match x with
  | Finite p => p >=? q
  | PosInfinity => true
  | NegInfinity => false
  | NaN => false
  end.

Definition js_ltb (x : JsNumber) (q : Q) : bool :=
  match x with
  | Finite p => p <? q
  | PosInfinity => false
  | NegInfinity => true
  | NaN => false
  end.

(** [Math.round(x * 10000) / 10000], the rounding to four decimal places. *)
Definition round4 (x : Q) : Q := Math.round (x * 10000) / 10000.

(** ** Exceptions *)

Inductive Result (A : Type) : Type :=
| Ok (a : A)
| Throw (msg : string).

Arguments Ok {A} a.
Arguments Throw {A} msg.

#[global] Instance Result_ret : MRet Result := fun _ a => Ok a.

#[global] Instance Result_bind : MBind Result := fun _ _ k r =>
  match r with
  | Ok a => k a
  | Throw msg => Throw msg
  end.

(** ** The tables *)

(** A row of [user_topic_mastery]; the engine reads and writes these columns. *)
Record MasteryRow : Type := {
  mastery_score : Q;
  attempts_count : Z;
  correct_answers : Z;
  time_spent_seconds : Q;
  learning_rate : Q;
  forgetting_rate : Q;
  confidence_interval : Q;
  last_attempt_at : option Z;
  mastery_achieved_at : option Z;
}.

(** The exported interface [MasteryState]: what [applyBKTUpdate] returns. *)
Module MasteryState.
Record t : Type := {
  mastery_score : Q;
  learning_rate : Q;
  forgetting_rate : Q;
  confidence_interval : Q;
}.
End MasteryState.

Record ArmParameters : Type := {
  alpha : Q;
  beta : Q;
}.

(** An object with the three keys [easy], [medium] and [hard], in that order. *)
Record Arms (A : Type) : Type := {
  easy : A;
  medium : A;
  hard : A;
}.

Arguments easy {A} _.
Arguments medium {A} _.
Arguments hard {A} _.

(** The key [getDifficultyArm] returns. *)
Inductive Arm : Type := ArmEasy | ArmMedium | ArmHard.

(** The context object: [BanditContext], with the two fields
    [AdaptiveService] adds ([confidence_interval], and [timeTaken] which is
    absent until the caller spreads it in). *)
Module UserContext.
Record t : Type := {
  topic_mastery : Q;
  recent_accuracy : Q;
  avg_time_per_question : Q;
  total_attempts : Z;
  time_of_day : Z;
  engagement_level : Q;
  streak_days : Z;
  confidence_interval : Q;
  timeTaken : option Q;
}.
End UserContext.

(** A row of [bandit_models] with [model_type = 'thompson_sampling'];
    [context_features] is [{}] until the first update. *)
Record BanditModel : Type := {
  arm_parameters : Arms ArmParameters;
  context_features : option UserContext.t;
  total_interactions : Z;
  last_updated : Z;
}.

Record QuestionAttempt : Type := {
  is_correct : bool;
  time_taken_seconds : Q;
}.

Record UserProfile : Type := {
  current_streak : Z;
}.

(** [user_topic_mastery] is keyed by (user_id, topic_id), [bandit_models] by
    user_id (the model type is fixed), [question_attempts] holds each user's
    attempts, the most recent first, and [user_profiles] is keyed by
    user_id. *)
Record Database : Type := {
  user_topic_mastery : gmap (string * string) MasteryRow;
  bandit_models : gmap string BanditModel;
  question_attempts : gmap string (list QuestionAttempt);
  user_profiles : gmap string UserProfile;
}.

Definition with_user_topic_mastery (db : Database)
    (tbl : gmap (string * string) MasteryRow) : Database :=
  {| user_topic_mastery := tbl;
     bandit_models := bandit_models db;
     question_attempts := question_attempts db;
     user_profiles := user_profiles db |}.

Definition with_bandit_models (db : Database)
    (tbl : gmap string BanditModel) : Database :=
  {| user_topic_mastery := user_topic_mastery db;
     bandit_models := tbl;
     question_attempts := question_attempts db;
     user_profiles := user_profiles db |}.

(** [!x] for a nullable column [x]. *)
Definition is_null {A : Type} (x : option A) : bool :=
  match x with
  | None => true
  | Some _ => false
  end.

(** ** MasteryService *)

Module MasteryService.

(** The row [initializeMastery] inserts; the timestamp columns take their
    SQL default, NULL. *)
Definition initialMastery : MasteryRow :=
  {| mastery_score := 0.1;
     attempts_count := 0;
     correct_answers := 0;
     time_spent_seconds := 0;
     learning_rate := 0.15;
     forgetting_rate := 0.05;
     confidence_interval := 0.3;
     last_attempt_at := None;
     mastery_achieved_at := None |}.

(** The insert violates UNIQUE(user_id, topic_id) when the row exists. *)
Definition initializeMastery (db : Database) (userId topicId : string)
    : Result (Database * MasteryRow) :=
  match user_topic_mastery db !! (userId, topicId) with
  | Some _ => Throw "Failed to initialize mastery"
  | None =>
      Ok (with_user_topic_mastery db
            (<[(userId, topicId) := initialMastery]> (user_topic_mastery db)),
          initialMastery)
  end.

(** [Date.now() - new Date(lastAttemptAt).getTime()], in milliseconds. *)
Definition getTimeSinceLastAttempt (now : Z) (lastAttemptAt : option Z) : Q :=
  match lastAttemptAt with
  | None => 0
  | Some t => inject_Z (now - t)
  end.

(** [Math.max(0.5, Math.min(1.5, 30 / timeTaken))]; [30 / 0] is [Infinity]
    in JavaScript, which [Math.min] caps at 1.5.  The dividend is not
    zero, so the quotient is never NaN, and never [-Infinity]. *)
Definition timeAdjustment (timeTaken : Q) : Q :=
  match js_div 30 timeTaken with
  | Finite q => Math.max 0.5 (Math.min 1.5 q)
  | PosInfinity => Math.max 0.5 1.5
  | NegInfinity => 0.5
  | NaN => 0.5
  end.

Definition applyBKTUpdate (now : Z) (currentMastery : MasteryRow)
    (isCorrect : bool) (difficulty timeTaken : Q) : MasteryState.t :=
  let mastery_score0 := mastery_score currentMastery in
  let learning_rate0 := learning_rate currentMastery in
  let forgetting_rate0 := forgetting_rate currentMastery in
  let confidence_interval0 := confidence_interval currentMastery in
  let difficultyAdjustment := 1 + (difficulty - 0.5) * 0.3 in
  let adjustedLearningRate :=
    learning_rate0 * difficultyAdjustment * timeAdjustment timeTaken in
  let '(mastery_score1, confidence_interval1, learning_rate1) :=
    if isCorrect then
      let evidence_strength := 1.0 - mastery_score0 in
      let learning_gain := adjustedLearningRate * evidence_strength in
      (Math.min 0.99 (mastery_score0 + learning_gain),
       Math.max 0.05 (confidence_interval0 * 0.95),
       Math.max 0.05 (learning_rate0 * 0.98))
    else
      let evidence_strength := mastery_score0 in
      let forgetting_loss := forgetting_rate0 * evidence_strength * 2 in
      (Math.max 0.01 (mastery_score0 - forgetting_loss),
       Math.min 0.5 (confidence_interval0 * 1.1),
       Math.min 0.3 (learning_rate0 * 1.02)) in
  let timeSinceLastAttempt :=
    getTimeSinceLastAttempt now (last_attempt_at currentMastery) in
  let timeBasedForgetting :=
    forgetting_rate0 * (timeSinceLastAttempt / (24 * 60 * 60 * 1000)) in
  let mastery_score2 := Math.max 0.01 (mastery_score1 - timeBasedForgetting) in
  {| MasteryState.mastery_score := round4 mastery_score2;
     MasteryState.learning_rate := round4 learning_rate1;
     MasteryState.forgetting_rate := forgetting_rate0;
     MasteryState.confidence_interval := round4 confidence_interval1 |}.

(** The row the [.update({...})] of [updateMastery] writes. *)
Definition updatedRow (now : Z) (mastery : MasteryRow)
    (updatedMastery : MasteryState.t) (isCorrect : bool) (timeTaken : Q)
    : MasteryRow :=
  {| mastery_score := MasteryState.mastery_score updatedMastery;
     learning_rate := MasteryState.learning_rate updatedMastery;
     forgetting_rate := MasteryState.forgetting_rate updatedMastery;
     confidence_interval := MasteryState.confidence_interval updatedMastery;
     attempts_count := (attempts_count mastery + 1)%Z;
     correct_answers :=
       (correct_answers mastery + (if isCorrect then 1 else 0))%Z;
     time_spent_seconds := time_spent_seconds mastery + timeTaken;
     last_attempt_at := Some now;
     mastery_achieved_at :=
       if (MasteryState.mastery_score updatedMastery >=? 0.8)
          && is_null (mastery_achieved_at mastery)
       then Some now
       else mastery_achieved_at mastery |}.

Definition updateMastery (db : Database) (now : Z) (userId topicId : string)
    (isCorrect : bool) (difficulty timeTaken : Q)
    : Result (Database * MasteryState.t) :=
  '(db, mastery) ←
    match user_topic_mastery db !! (userId, topicId) with
    | Some mastery => Ok (db, mastery)
    | None => initializeMastery db userId topicId
    end;
  let updatedMastery :=
    applyBKTUpdate now mastery isCorrect difficulty timeTaken in
  match user_topic_mastery db !! (userId, topicId) with
  | None => Throw "Failed to update mastery"
  | Some _ =>
      Ok (with_user_topic_mastery db
            (<[(userId, topicId) :=
                 updatedRow now mastery updatedMastery isCorrect timeTaken]>
               (user_topic_mastery db)),
          updatedMastery)
  end.

Record Insights : Type := {
  mastery_level : string;
  insight_mastery_score : Q;
  confidence : Q;
  accuracy : JsNumber;
  avg_time_per_question : JsNumber;
  total_attempts : Z;
  predicted_success_rate : Q;
  recommended_difficulty : Q;
  strengths : list string;
  improvement_areas : list string;
}.

Definition getMasteryLevel (score : Q) : string :=
  if score >=? 0.8 then "Expert"
  else if score >=? 0.6 then "Proficient"
  else if score >=? 0.4 then "Developing"
  else if score >=? 0.2 then "Beginning"
  else "Novice".

Definition predictNextQuestionSuccess (mastery : MasteryRow) : Q :=
  let base_probability := mastery_score mastery in
  let confidence_adjustment := (1 - confidence_interval mastery) * 0.1 in
  Math.min 0.95 (base_probability + confidence_adjustment).

Definition recommendOptimalDifficulty (mastery : MasteryRow) : Q :=
  let base_difficulty := mastery_score mastery + 0.1 in
  let confidence_adjustment := confidence_interval mastery * 0.2 in
  Math.max 0.1 (Math.min 0.9 (base_difficulty - confidence_adjustment)).

(** [mastery.correct_answers / Math.max(1, mastery.attempts_count)], the
    quotient both rule sets below compute. *)
Definition ruleAccuracy (mastery : MasteryRow) : JsNumber :=
  js_div (inject_Z (correct_answers mastery))
         (inject_Z (Z.max 1 (attempts_count mastery))).

Definition identifyStrengths (mastery : MasteryRow) : list string :=
  let strengths := [] in
  let strengths :=
    if mastery_score mastery >=? 0.7
    then strengths ++ ["Strong understanding of core concepts"]
    else strengths in
  let accuracy := ruleAccuracy mastery in
  let strengths :=
    if js_geb accuracy 0.8
    then strengths ++ ["High accuracy in responses"]
    else strengths in
  let strengths :=
    if learning_rate mastery <=? 0.1
    then strengths ++ ["Consistent performance"]
    else strengths in
  strengths.

Definition identifyImprovementAreas (mastery : MasteryRow) : list string :=
  let areas := [] in
  let areas :=
    if mastery_score mastery <? 0.5
    then areas ++ ["Needs more practice with fundamental concepts"]
    else areas in
  let accuracy := ruleAccuracy mastery in
  let areas :=
    if js_ltb accuracy 0.6
    then areas ++ ["Focus on accuracy improvement"]
    else areas in
  let areas :=
    if confidence_interval mastery >? 0.3
    then areas ++ ["More practice needed to build confidence"]
    else areas in
  areas.

(** The object [getMasteryInsights] builds from a row it found. *)
Definition insightsOf (mastery : MasteryRow) : Insights :=
  let accuracy :=
    if (attempts_count mastery >? 0)%Z
    then js_div (inject_Z (correct_answers mastery))
                (inject_Z (attempts_count mastery))
    else Finite 0 in
  let avgTimePerQuestion :=
    if (attempts_count mastery >? 0)%Z
    then js_div (time_spent_seconds mastery)
                (inject_Z (attempts_count mastery))
    else Finite 0 in
  let nextQuestionSuccess := predictNextQuestionSuccess mastery in
  let optimalDifficulty := recommendOptimalDifficulty mastery in
  {| mastery_level := getMasteryLevel (mastery_score mastery);
     insight_mastery_score := mastery_score mastery;
     confidence := 1 - confidence_interval mastery;
     accuracy := accuracy;
     avg_time_per_question := avgTimePerQuestion;
     total_attempts := attempts_count mastery;
     predicted_success_rate := nextQuestionSuccess;
     recommended_difficulty := optimalDifficulty;
     strengths := identifyStrengths mastery;
     improvement_areas := identifyImprovementAreas mastery |}.

(** [None] is the [null] returned when the user has no row for the topic. *)
Definition getMasteryInsights (db : Database) (userId topicId : string)
    : option Insights :=
  match user_topic_mastery db !! (userId, topicId) with
  | None => None
  | Some mastery => Some (insightsOf mastery)
  end.









(** The row with [mastery_score] replaced: the [.update({ mastery_score })]
    of [updateMasteryWithTransfer] on a row it matches. *)
Definition withMasteryScore (score : Q) (row : MasteryRow) : MasteryRow :=
  {| mastery_score := score;
     attempts_count := attempts_count row;
     correct_answers := correct_answers row;
     time_spent_seconds := time_spent_seconds row;
     learning_rate := learning_rate row;
     forgetting_rate := forgetting_rate row;
     confidence_interval := confidence_interval row;
     last_attempt_at := last_attempt_at row;
     mastery_achieved_at := mastery_achieved_at row |}.

(** The result of the final update is not checked: it changes the rows it
    matches, here at most one. *)
Definition updateMasteryWithTransfer (db : Database)
    (userId topicId sourceTopicId : string) (transferStrength : Q)
    : Result (Database * MasteryState.t) :=
  match user_topic_mastery db !! (userId, sourceTopicId) with
  | None => Throw "Source topic mastery not found"
  | Some sourceMastery =>
      let transferBoost :=
        mastery_score sourceMastery * transferStrength * 0.3 in
      '(db, currentMastery) ←
        match user_topic_mastery db !! (userId, topicId) with
        | Some currentMastery => Ok (db, currentMastery)
        | None => initializeMastery db userId topicId
        end;
      let boostedMasteryScore :=
        Math.min 0.99 (mastery_score currentMastery + transferBoost) in
      Ok (with_user_topic_mastery db
            (alter (withMasteryScore boostedMasteryScore) (userId, topicId)
               (user_topic_mastery db)),
          {| MasteryState.mastery_score := boostedMasteryScore;
             MasteryState.learning_rate := learning_rate currentMastery;
             MasteryState.forgetting_rate := forgetting_rate currentMastery;
             MasteryState.confidence_interval :=
               confidence_interval currentMastery |})
  end.

End MasteryService.

(** ** BanditService *)

Module BanditService.

Import UserContext.

Definition initialArmParams : Arms ArmParameters :=
  {| easy := {| alpha := 2; beta := 1 |};
     medium := {| alpha := 1.5; beta := 1.5 |};
     hard := {| alpha := 1; beta := 2 |} |}.

(** The insert violates UNIQUE(user_id, model_type) when the row exists;
    [last_updated] takes its SQL default, NOW(). *)
Definition initializeBanditModel (db : Database) (now : Z) (userId : string)
    : Result (Database * BanditModel) :=
  match bandit_models db !! userId with
  | Some _ => Throw "Failed to initialize bandit model"
  | None =>
      let model :=
        {| arm_parameters := initialArmParams;
           context_features := None;
           total_interactions := 0;
           last_updated := now |} in
      Ok (with_bandit_models db (<[userId := model]> (bandit_models db)), model)
  end.

(** [adjustments.easy += de; adjustments.medium += dm; adjustments.hard += dh]. *)
Definition nudge (adjustments : Arms Q) (de dm dh : Q) : Arms Q :=
  {| easy := easy adjustments + de;
     medium := medium adjustments + dm;
     hard := hard adjustments + dh |}.

(** The sums are exact here; the code accumulates them in binary64, which
    leaves them within rounding of these values. *)
Definition calculateContextualAdjustments (context : UserContext.t) : Arms Q :=
  let adjustments := {| easy := 0; medium := 0; hard := 0 |} in
  (* Topic mastery influence *)
  let adjustments :=
    if topic_mastery context <? 0.3 then nudge adjustments 1.0 (-0.5) (-1.0)
    else if topic_mastery context >? 0.7 then nudge adjustments (-1.0) 0.5 1.0
    else adjustments in
  (* Recent performance influence *)
  let adjustments :=
    if recent_accuracy context <? 0.5 then nudge adjustments 0.8 (-0.3) (-0.8)
    else if recent_accuracy context >? 0.8 then nudge adjustments (-0.5) 0.3 0.7
    else adjustments in
  (* Time pressure *)
  let adjustments :=
    if avg_time_per_question context >? 45 then nudge adjustments 0.5 0 (-0.5)
    else adjustments in
  (* Engagement level *)
  let adjustments :=
    if engagement_level context <? 0.4 then nudge adjustments 0.7 (-0.2) (-0.7)
    else adjustments in
  (* Time of day *)
  let adjustments :=
    if (time_of_day context >=? 15)%Z then nudge adjustments 0.3 0 (-0.3)
    else adjustments in
  adjustments.

(** The [(alpha, beta)] pairs [recommendQuestion] passes to [sampleBeta],
    one call per arm. *)
Definition sampleBetaArguments (armParams : Arms ArmParameters)
    (contextualAdjustments : Arms Q) : Arms (Q * Q) :=
  {| easy := (alpha (easy armParams) + easy contextualAdjustments,
              beta (easy armParams));
     medium := (alpha (medium armParams) + medium contextualAdjustments,
                beta (medium armParams));
     hard := (alpha (hard armParams) + hard contextualAdjustments,
              beta (hard armParams)) |}.

Definition getArm {A : Type} (arm : Arm) (obj : Arms A) : A :=
  match arm with
  | ArmEasy => easy obj
  | ArmMedium => medium obj
  | ArmHard => hard obj
  end.

Definition difficultyMap : Arms Q := {| easy := 0.3; medium := 0.6; hard := 0.9 |}.

Section Sampling.

(** The samplers draw from [Math.random] and use square roots, logarithms
    and cosines; here they are functions of an entropy source that is
    passed along.  [sampleBeta] stands for the method of that name,
    [random] for [Math.random].  The rejection loop of [sampleGamma] need
    not end, and a call that does not return has no counterpart here:
    what is stated of [recommendQuestion] is stated of a call whose
    samplings have returned. *)
Variable Entropy : Type.
Variable sampleBeta : Q -> Q -> Entropy -> Q * Entropy.
Variable random : Entropy -> Q * Entropy.

Definition recommendQuestion (db : Database) (now : Z) (userId : string)
    (context : UserContext.t) (g : Entropy) : Result (Database * Q * Entropy) :=
  '(db, model) ←
    match bandit_models db !! userId with
    | Some model => Ok (db, model)
    | None => initializeBanditModel db now userId
    end;
  let armParams := arm_parameters model in
  let contextualAdjustments := calculateContextualAdjustments context in
  let args := sampleBetaArguments armParams contextualAdjustments in
  let '(sample_easy, g) := sampleBeta (fst (easy args)) (snd (easy args)) g in
  let '(sample_medium, g) := sampleBeta (fst (medium args)) (snd (medium args)) g in
  let '(sample_hard, g) := sampleBeta (fst (hard args)) (snd (hard args)) g in
  let samples :=
    {| easy := sample_easy; medium := sample_medium; hard := sample_hard |} in
  (* Object.keys(samples).reduce((a, b) => samples[a] > samples[b] ? a : b) *)
  let pick (a b : Arm) := if getArm a samples >? getArm b samples then a else b in
  let selectedArm := pick (pick ArmEasy ArmMedium) ArmHard in
  let baseDifficulty := getArm selectedArm difficultyMap in
  let '(u, g) := random g in
  let explorationNoise := (u - 0.5) * 0.2 in
  Ok (db, Math.max 0.1 (Math.min 1.0 (baseDifficulty + explorationNoise)), g).

End Sampling.

Definition getDifficultyArm (difficulty : Q) : Arm :=
  if difficulty <=? 0.4 then ArmEasy
  else if difficulty <=? 0.7 then ArmMedium
  else ArmHard.

(** [armParams[arm].alpha += 1] and [armParams[arm].beta += 1]. *)
Definition incrementAlpha (arm : Arm) (armParams : Arms ArmParameters)
    : Arms ArmParameters :=
  let bump p := {| alpha := alpha p + 1; beta := beta p |} in
  match arm with
  | ArmEasy =>
      {| easy := bump (easy armParams); medium := medium armParams;
         hard := hard armParams |}
  | ArmMedium =>
      {| easy := easy armParams; medium := bump (medium armParams);
         hard := hard armParams |}
  | ArmHard =>
      {| easy := easy armParams; medium := medium armParams;
         hard := bump (hard armParams) |}
  end.

Definition incrementBeta (arm : Arm) (armParams : Arms ArmParameters)
    : Arms ArmParameters :=
  let bump p := {| alpha := alpha p; beta := beta p + 1 |} in
  match arm with
  | ArmEasy =>
      {| easy := bump (easy armParams); medium := medium armParams;
         hard := hard armParams |}
  | ArmMedium =>
      {| easy := easy armParams; medium := bump (medium armParams);
         hard := hard armParams |}
  | ArmHard =>
      {| easy := easy armParams; medium := medium armParams;
         hard := bump (hard armParams) |}
  end.

(** The body of the [Object.keys(armParams).forEach] loop, for one key. *)
Definition decay (decayFactor : Q) (p : ArmParameters) : ArmParameters :=
  {| alpha := Math.max 1 (alpha p * decayFactor);
     beta := Math.max 1 (beta p * decayFactor) |}.

(** The arm parameters [updateModel] writes back. *)
Definition updatedArmParameters (armParams : Arms ArmParameters)
    (isCorrect : bool) (difficulty : Q) : Arms ArmParameters :=
  let arm := getDifficultyArm difficulty in
  let armParams :=
    if isCorrect then incrementAlpha arm armParams
    else incrementBeta arm armParams in
  let decayFactor := 0.995 in
  {| easy := decay decayFactor (easy armParams);
     medium := decay decayFactor (medium armParams);
     hard := decay decayFactor (hard armParams) |}.

Definition updateModel (db : Database) (now : Z) (userId : string)
    (isCorrect : bool) (difficulty : Q) (context : UserContext.t)
    : Result Database :=
  match bandit_models db !! userId with
  | None => Ok db
  | Some model =>
      let armParams :=
        updatedArmParameters (arm_parameters model) isCorrect difficulty in
      Ok (with_bandit_models db
            (<[userId :=
                 {| arm_parameters := armParams;
                    context_features := Some context;
                    total_interactions := (total_interactions model + 1)%Z;
                    last_updated := now |}]>
               (bandit_models db)))
  end.

End BanditService.

(** ** AdaptiveService *)

Module FeedbackData.
Record t : Type := {
  isCorrect : bool;
  difficulty : Q;
  timeTaken : Q;
  (* engagementSignals?.frustration_indicators *)
  frustration_indicators : option Z;
}.
End FeedbackData.

Module AdaptiveService.

(** [x || d] for a number [x]: zero is falsy. *)
Definition or_default (x : Q) (d : Q) : Q := if Qeq_bool x 0 then d else x.

(** [x?.f || d] for a field of a row that may be missing. *)
Definition field_or_default {A : Type} (row : option A) (f : A -> Q) (d : Q) : Q :=
  match row with
  | Some r => or_default (f r) d
  | None => d
  end.

Definition sumQ (l : list Q) : Q := fold_left Qplus l 0.

Definition buildUserContext (db : Database) (hour : Z) (userId topicId : string)
    : UserContext.t :=
  let mastery := user_topic_mastery db !! (userId, topicId) in
  let recentAttempts := take 10 (default [] (question_attempts db !! userId)) in
  let profile := user_profiles db !! userId in
  let n := inject_Z (Z.of_nat (length recentAttempts)) in
  let recentAccuracy :=
    match recentAttempts with
    | [] => 0.5
    | _ => inject_Z (Z.of_nat (length (filter (fun a => is_correct a = true)
                                              recentAttempts))) / n
    end in
  let avgTimePerQuestion :=
    match recentAttempts with
    | [] => 30
    | _ => sumQ (map time_taken_seconds recentAttempts) / n
    end in
  let streak :=
    match profile with
    | Some p => current_streak p
    | None => 0%Z
    end in
  let streakFactor := Math.min 1 (inject_Z streak / 7) in
  let timeFactor := Math.max 0 (1 - (avgTimePerQuestion - 20) / 40) in
  let accuracyFactor := recentAccuracy in
  let engagement_level := (streakFactor + timeFactor + accuracyFactor) / 3 in
  {| UserContext.topic_mastery := field_or_default mastery mastery_score 0;
     UserContext.recent_accuracy := recentAccuracy;
     UserContext.avg_time_per_question := avgTimePerQuestion;
     UserContext.total_attempts :=
       match mastery with
       | Some m => attempts_count m
       | None => 0%Z
       end;
     UserContext.time_of_day := hour;
     UserContext.engagement_level := engagement_level;
     UserContext.streak_days := streak;
     UserContext.confidence_interval :=
       field_or_default mastery confidence_interval 0.5;
     UserContext.timeTaken := None |}.

(** [{ ...context, timeTaken: t }]. *)
Definition withTimeTaken (context : UserContext.t) (t : Q) : UserContext.t :=
  {| UserContext.topic_mastery := UserContext.topic_mastery context;
     UserContext.recent_accuracy := UserContext.recent_accuracy context;
     UserContext.avg_time_per_question := UserContext.avg_time_per_question context;
     UserContext.total_attempts := UserContext.total_attempts context;
     UserContext.time_of_day := UserContext.time_of_day context;
     UserContext.engagement_level := UserContext.engagement_level context;
     UserContext.streak_days := UserContext.streak_days context;
     UserContext.confidence_interval := UserContext.confidence_interval context;
     UserContext.timeTaken := Some t |}.

(** [Promise.all] of the two updates; they touch different tables. *)
Definition updateModel (db : Database) (now : Z) (userId topicId : string)
    (isCorrect : bool) (difficulty : Q) (context : UserContext.t)
    : Result Database :=
  db ← BanditService.updateModel db now userId isCorrect difficulty context;
  '(db, _) ←
    MasteryService.updateMastery db now userId topicId isCorrect difficulty
      (match UserContext.timeTaken context with
       | Some t => or_default t 30
       | None => 30
       end);
  Ok db.

Record EngagementRecommendation : Type := {
  intervention_needed : bool;
  type : string;
  recommendation : string;
  estimated_recovery_time : option Z;
}.

Definition assessEngagementNeed (context : UserContext.t)
    (frustration : option Z) : EngagementRecommendation :=
  if (UserContext.avg_time_per_question context >? 60)
     || (UserContext.recent_accuracy context <? 0.3)
  then {| intervention_needed := true;
          type := "fatigue_detected";
          recommendation := "suggest_break_or_easier_content";
          estimated_recovery_time := Some 10%Z |}
  else if (UserContext.recent_accuracy context >? 0.9)
          && (UserContext.avg_time_per_question context <? 15)
  then {| intervention_needed := true;
          type := "boredom_detected";
          recommendation := "increase_difficulty_or_add_challenge";
          estimated_recovery_time := None |}
  else if match frustration with
          | Some k => (k >? 3)%Z
          | None => false
          end
  then {| intervention_needed := true;
          type := "frustration_detected";
          recommendation := "provide_hint_or_explanation";
          estimated_recovery_time := None |}
  else {| intervention_needed := false;
          type := "optimal_engagement";
          recommendation := "continue_current_approach";
          estimated_recovery_time := None |}.

(** The quotient is exact here.  In binary64 it can land just above a
    whole number ((0.8 - 0.5) / 0.05 is 6.000000000000001), and then
    [Math.ceil] gives one minute more. *)
Definition estimateTimeToMastery (currentMastery : Q) : Q :=
  let targetMastery := 0.8 in
  let masteryGap := targetMastery - currentMastery in
  if masteryGap <=? 0 then 0
  else
    let averageLearningRate := 0.05 in
    Math.ceil (masteryGap / averageLearningRate).

Definition calculateNextDifficultyTarget (context : UserContext.t)
    (masteryUpdate : MasteryState.t) : Q :=
  let baseDifficulty := MasteryState.mastery_score masteryUpdate + 0.1 in
  let confidenceAdjustment :=
    (1 - MasteryState.confidence_interval masteryUpdate) * 0.1 in
  let performanceAdjustment := (UserContext.recent_accuracy context - 0.5) * 0.2 in
  let targetDifficulty :=
    baseDifficulty + confidenceAdjustment + performanceAdjustment in
  Math.max 0.1 (Math.min 0.9 targetDifficulty).

Record NextSessionRecommendation : Type := {
  recommended_actions : list string;
  estimated_time_to_mastery : Q;
  next_difficulty_target : Q;
}.

Definition getNextSessionRecommendation (context : UserContext.t)
    (masteryUpdate : MasteryState.t) : NextSessionRecommendation :=
  let recommendations := [] in
  let recommendations :=
    if MasteryState.mastery_score masteryUpdate >=? 0.8
    then recommendations ++ ["topic_mastered_move_to_next"]
    else if MasteryState.mastery_score masteryUpdate <? 0.3
    then recommendations ++ ["review_fundamentals"]
    else recommendations in
  let recommendations :=
    if UserContext.engagement_level context <? 0.4
    then recommendations ++ ["try_story_mode_next_session"]
    else if UserContext.engagement_level context >? 0.8
    then recommendations ++ ["ready_for_challenge_mode"]
    else recommendations in
  {| recommended_actions := recommendations;
     estimated_time_to_mastery :=
       estimateTimeToMastery (MasteryState.mastery_score masteryUpdate);
     next_difficulty_target :=
       calculateNextDifficultyTarget context masteryUpdate |}.

Record Feedback : Type := {
  mastery_update : MasteryState.t;
  engagement_recommendation : EngagementRecommendation;
  next_session_recommendation : NextSessionRecommendation;
}.

(** [hour] and [now1] are the clock when the context is built and the two
    models are updated, [now2 >= now1] the clock at the later call of
    [masteryService.updateMastery]. *)
Definition processFeedback (db : Database) (hour now1 now2 : Z)
    (userId topicId : string) (feedbackData : FeedbackData.t)
    : Result (Database * Feedback) :=
  let isCorrect := FeedbackData.isCorrect feedbackData in
  let difficulty := FeedbackData.difficulty feedbackData in
  let timeTaken := FeedbackData.timeTaken feedbackData in
  let engagementSignals := FeedbackData.frustration_indicators feedbackData in
  let context := buildUserContext db hour userId topicId in
  let contextWithTiming := withTimeTaken context (or_default timeTaken 30) in
  db ← updateModel db now1 userId topicId isCorrect difficulty contextWithTiming;
  '(db, masteryUpdate) ←
    MasteryService.updateMastery db now2 userId topicId isCorrect difficulty
      timeTaken;
  let engagementRecommendation :=
    assessEngagementNeed contextWithTiming engagementSignals in
  Ok (db,
      {| mastery_update := masteryUpdate;
         engagement_recommendation := engagementRecommendation;
         next_session_recommendation :=
           getNextSessionRecommendation contextWithTiming masteryUpdate |}).

Definition calculateOptimalSessionLength (context : UserContext.t) : Z :=
  let optimalLength := 15%Z in
  (* Adjust based on engagement *)
  let optimalLength :=
    if UserContext.engagement_level context >? 0.8
    then (optimalLength + 10)%Z
    else if UserContext.engagement_level context <? 0.4
    then (optimalLength - 5)%Z
    else optimalLength in
  (* Adjust based on performance *)
  let optimalLength :=
    if UserContext.recent_accuracy context >? 0.8
    then (optimalLength + 5)%Z
    else optimalLength in
  (* Time of day adjustments *)
  let hour := UserContext.time_of_day context in
  let optimalLength :=
    if (hour >=? 15)%Z && (hour <=? 18)%Z then (optimalLength + 5)%Z
    else if (hour >=? 20)%Z || (hour <=? 7)%Z then (optimalLength - 5)%Z
    else optimalLength in
  Z.max 5 (Z.min 30 optimalLength).

Record ContextFactors : Type := {
  factor_engagement_level : Q;
  fatigue_detected : bool;
  optimal_session_length : Z;
}.

Record QuestionRecommendation : Type := {
  recommended_difficulty : Q;
  mastery_insights : option MasteryService.Insights;
  context_factors : ContextFactors;
}.

Definition getMasteryInsights (db : Database) (userId topicId : string)
    : option MasteryService.Insights :=
  MasteryService.getMasteryInsights db userId topicId.

Section Recommendation.

(** The sampler and [Math.random], as for [BanditService.recommendQuestion]. *)
Variable Entropy : Type.
Variable sampleBeta : Q -> Q -> Entropy -> Q * Entropy.
Variable random : Entropy -> Q * Entropy.

Definition recommendQuestion (db : Database) (now : Z) (userId : string)
    (context : UserContext.t) (g : Entropy) : Result (Database * Q * Entropy) :=
  BanditService.recommendQuestion Entropy sampleBeta random db now userId
    context g.

Definition getQuestionRecommendation (db : Database) (hour now : Z)
    (userId topicId : string) (g : Entropy)
    : Result (Database * QuestionRecommendation * Entropy) :=
  let context := buildUserContext db hour userId topicId in
  '(db, recommendedDifficulty, g) ← recommendQuestion db now userId context g;
  let masteryInsights := MasteryService.getMasteryInsights db userId topicId in
  Ok (db,
      {| recommended_difficulty := recommendedDifficulty;
         mastery_insights := masteryInsights;
         context_factors :=
           {| factor_engagement_level := UserContext.engagement_level context;
              fatigue_detected :=
                UserContext.avg_time_per_question context >? 45;
              optimal_session_length :=
                calculateOptimalSessionLength context |} |},
      g).

End Recommendation.

End AdaptiveService.

(** ** ProgressService *)

(** The columns [total_xp] and [current_level] of a row of [user_profiles];
    a level that was computed as NaN is stored as NULL. *)
Record XpProfile : Type := {
  total_xp : Z;
  current_level : option Z;
}.

Module TopicMasteryUpdate.
Record t : Type := {
  mastery_score : Q;
  attempts_count : Z;
  is_mastered : bool;
}.
End TopicMasteryUpdate.

Module XpUpdate.
Record t : Type := {
  new_xp : Z;
  new_level : option Z;
  leveled_up : bool;
  xp_gained : Z;
}.
End XpUpdate.

Module ProgressService.

Definition calculateNewMastery (currentMastery : Q) (isCorrect : bool)
    (learningRate forgettingRate : Q) : Q :=
  if isCorrect then
    let learningGain := learningRate * (1 - currentMastery) in
    Math.min 0.99 (currentMastery + learningGain)
  else
    let forgettingLoss := forgettingRate * currentMastery in
    Math.max 0.01 (currentMastery - forgettingLoss).

(** [Math.floor(Math.sqrt(totalXP / 100)) + 1] for an integer [totalXP]:
    the square root of a negative number is NaN, here [None]; otherwise
    the floor of the root of [totalXP / 100] is the integer square root of
    the integer quotient. *)
Definition calculateLevel (totalXP : Z) : option Z :=
  if (totalXP <? 0)%Z then None
  else Some (Z.sqrt (totalXP / 100) + 1)%Z.

(** The row the insert of [updateTopicMastery] creates. *)
Definition newMastery : MasteryRow :=
  {| mastery_score := 0.1;
     attempts_count := 0;
     correct_answers := 0;
     time_spent_seconds := 0;
     learning_rate := 0.15;
     forgetting_rate := 0.05;
     confidence_interval := 0.3;
     last_attempt_at := None;
     mastery_achieved_at := None |}.

(** The columns the [.update({...})] of [updateTopicMastery] writes, on the
    stored row; the other columns stay. *)
Definition updatedRow (now : Z) (mastery : MasteryRow) (newMasteryScore : Q)
    (isCorrect : bool) (timeTaken : Q) (stored : MasteryRow) : MasteryRow :=
  {| mastery_score := newMasteryScore;
     attempts_count := (attempts_count mastery + 1)%Z;
     correct_answers :=
       (correct_answers mastery + (if isCorrect then 1 else 0))%Z;
     time_spent_seconds := time_spent_seconds mastery + timeTaken;
     learning_rate := learning_rate stored;
     forgetting_rate := forgetting_rate stored;
     confidence_interval := confidence_interval stored;
     last_attempt_at := Some now;
     mastery_achieved_at :=
       if (newMasteryScore >=? 0.8) && is_null (mastery_achieved_at mastery)
       then Some now
       else mastery_achieved_at mastery |}.

(** No result of a query is checked and nothing is thrown. *)
Definition updateTopicMastery (db : Database) (now : Z)
    (userId topicId : string) (isCorrect : bool) (timeTaken : Q)
    : Database * TopicMasteryUpdate.t :=
  let '(db, mastery) :=
    match user_topic_mastery db !! (userId, topicId) with
    | Some mastery => (db, mastery)
    | None =>
        (with_user_topic_mastery db
           (<[(userId, topicId) := newMastery]> (user_topic_mastery db)),
         newMastery)
    end in
  let newMasteryScore :=
    calculateNewMastery (mastery_score mastery) isCorrect
      (learning_rate mastery) (forgetting_rate mastery) in
  (with_user_topic_mastery db
     (alter (updatedRow now mastery newMasteryScore isCorrect timeTaken)
        (userId, topicId) (user_topic_mastery db)),
   {| TopicMasteryUpdate.mastery_score := newMasteryScore;
      TopicMasteryUpdate.attempts_count := (attempts_count mastery + 1)%Z;
      TopicMasteryUpdate.is_mastered := newMasteryScore >=? 0.8 |}).

(** [newLevel > profile.current_level]: NaN is greater than nothing, and
    NULL compares as 0. *)
Definition levelGreater (newLevel currentLevel : option Z) : bool :=
  match newLevel, currentLevel with
  | Some n, Some c => (n >? c)%Z
  | Some n, None => (n >? 0)%Z
  | None, _ => false
  end.

Definition addXp (profiles : gmap string XpProfile) (userId : string)
    (xpAmount : Z) : Result (gmap string XpProfile * XpUpdate.t) :=
  match profiles !! userId with
  | None => Throw "User profile not found"
  | Some profile =>
      let newXP := (total_xp profile + xpAmount)%Z in
      let newLevel := calculateLevel newXP in
      let leveledUp := levelGreater newLevel (current_level profile) in
      Ok (<[userId := {| total_xp := newXP; current_level := newLevel |}]>
            profiles,
          {| XpUpdate.new_xp := newXP;
             XpUpdate.new_level := newLevel;
             XpUpdate.leveled_up := leveledUp;
             XpUpdate.xp_gained := xpAmount |})
  end.

End ProgressService.

(** ** QuizService *)

(** A row of [questions]; [correct_answer] is
    [question_data?.correct_answer]. *)
Record Question : Type := {
  question_id : string;
  question_topic_id : string;
  is_active : bool;
  difficulty_level : Q;
  correct_answer : option string;
  explanation : option string;
}.

(** The tables of the learning module: the ones of the adaptive engine,
    [questions] in the order the database lists its rows, and the
    experience columns of [user_profiles]. *)
Record LearningDatabase : Type := {
  engine : Database;
  questions : list Question;
  xp_profiles : gmap string XpProfile;
}.

(** [.single()]: the row when exactly one matches. *)
Definition single {A : Type} (rows : list A) : option A :=
  match rows with
  | [row] => Some row
  | _ => None
  end.

(** [rows[Math.floor(u * rows.length)]]; out of range it is [undefined]. *)
Definition pick {A : Type} (u : Q) (rows : list A) : option A :=
  let index := Qfloor (u * inject_Z (Z.of_nat (length rows))) in
  if (index <? 0)%Z then None else rows !! Z.to_nat index.

(** The body of a submission; an absent field is [undefined]. *)
Module AnswerData.
Record t : Type := {
  answer : option string;
  timeTaken : option Q;
  hintUsed : option bool;
}.
End AnswerData.

(** What [submitAnswer] returns. *)
Module Submission.
Record t : Type := {
  is_correct : bool;
  correct_answer : option string;
  explanation : option string;
  xp_earned : Z;
  feedback : string;
}.
End Submission.

Module QuizService.

(** [Math.round(basePoints * difficultyMultiplier)], an integer. *)
Definition calculateBaseXP (isCorrect : bool) (difficulty : Q) : Z :=
  if negb isCorrect then 10%Z
  else
    let basePoints := 50 in
    let difficultyMultiplier := 1 + difficulty in
    Qfloor (Math.round (basePoints * difficultyMultiplier)).

Definition calculateTimeBonus (timeTaken : Q) : Q :=
  if timeTaken <? 15 then 1.3
  else if timeTaken <? 30 then 1.5
  else if timeTaken <? 60 then 1.2
  else 1.0.

(** [Math.round(baseXP * timeBonus * hintPenalty)], an integer. *)
Definition xpEarned (isCorrect : bool) (difficulty timeTaken : Q)
    (hintUsed : bool) : Z :=
  let baseXP := calculateBaseXP isCorrect difficulty in
  let timeBonus := calculateTimeBonus timeTaken in
  let hintPenalty := if hintUsed then 0.8 else 1.0 in
  Qfloor (Math.round (inject_Z baseXP * timeBonus * hintPenalty)).

Definition generateFeedback (isCorrect : bool) (difficulty : Q) : string :=
  if isCorrect then
    if difficulty >? 0.7
    then "Outstanding! You mastered a challenging concept! 🌟"
    else if difficulty >? 0.4
    then "Excellent work! You're really getting it! 🎉"
    else "Great job! Keep up the good work! 👍"
  else
    if difficulty >? 0.7
    then "This was a tough one! Let's review and try again. 💪"
    else if difficulty >? 0.4
    then "Close! Let's think about this step by step. 🤔"
    else "No worries! Every mistake is a chance to learn. 😊".

Definition calculateEngagementLevel (accuracy avgTime : Q) : Q :=
  let accuracyFactor := accuracy in
  let timeFactor := Math.max 0 (1 - (avgTime - 20) / 40) in
  (accuracyFactor + timeFactor) / 2.

Definition buildUserContext (db : Database) (hour : Z) (userId topicId : string)
    : UserContext.t :=
  let recentAttempts := take 10 (default [] (question_attempts db !! userId)) in
  let mastery := user_topic_mastery db !! (userId, topicId) in
  let profile := user_profiles db !! userId in
  let n := inject_Z (Z.of_nat (length recentAttempts)) in
  let recentAccuracy :=
    match recentAttempts with
    | [] => 0.5
    | _ => inject_Z (Z.of_nat (length (filter (fun a => is_correct a = true)
                                              recentAttempts))) / n
    end in
  let avgTimePerQuestion :=
    match recentAttempts with
    | [] => 30
    | _ => AdaptiveService.sumQ (map time_taken_seconds recentAttempts) / n
    end in
  let engagementLevel :=
    calculateEngagementLevel recentAccuracy avgTimePerQuestion in
  {| UserContext.topic_mastery :=
       AdaptiveService.field_or_default mastery mastery_score 0;
     UserContext.recent_accuracy := recentAccuracy;
     UserContext.avg_time_per_question := avgTimePerQuestion;
     UserContext.total_attempts :=
       match mastery with
       | Some m => attempts_count m
       | None => 0%Z
       end;
     UserContext.time_of_day := hour;
     UserContext.engagement_level := engagementLevel;
     UserContext.streak_days :=
       match profile with
       | Some p => current_streak p
       | None => 0%Z
       end;
     UserContext.confidence_interval :=
       AdaptiveService.field_or_default mastery confidence_interval 0.5;
     UserContext.timeTaken := None |}.

(** [u] is the value [Math.random()] returns when an explanation is drawn. *)
Definition generateExplanation (isCorrect : bool) (u : Q) : option string :=
  if isCorrect
  then Some "Excellent! You understand this concept well. Keep up the great work!"
  else
    pick u
      ["Not quite right, but that's okay! Learning takes practice. Let's review this concept.";
       "Close, but let's think about this differently. Every mistake helps us learn!";
       "That's not the answer we're looking for. Let's break this down step by step."].

(** [hour], [now1] and [now2] are the clock when the context is built, when
    the progress service writes and when the adaptive service writes; [u]
    is the value of [Math.random()] if an explanation is drawn.  The two
    updates under [Promise.all] touch different tables. *)
Definition submitAnswer (ldb : LearningDatabase) (hour now1 now2 : Z)
    (userId questionId : string) (answerData : AnswerData.t) (u : Q)
    : Result (LearningDatabase * Submission.t) :=
  let answer := AnswerData.answer answerData in
  let timeTaken := default 30 (AnswerData.timeTaken answerData) in
  let hintUsed := default false (AnswerData.hintUsed answerData) in
  match
    single (filter (fun q => question_id q = questionId) (questions ldb))
  with
  | None => Throw "Question not found"
  | Some question =>
      let correctAnswer := correct_answer question in
      let isCorrect := bool_decide (answer = correctAnswer) in
      let xp :=
        xpEarned isCorrect (difficulty_level question) timeTaken hintUsed in
      (* Store the attempt: the insert names the columns user_answer,
         difficulty_level and xp_earned, which question_attempts does not
         have in schema.sql, and gives no answer_data, which is NOT NULL.
         The insert is refused, and its result is not read: the table is
         left as it is. *)
      let db := engine ldb in
      (* Update progress and XP *)
      let '(db, _) :=
        ProgressService.updateTopicMastery db now1 userId
          (question_topic_id question) isCorrect timeTaken in
      '(profiles, _) ← ProgressService.addXp (xp_profiles ldb) userId xp;
      (* Update adaptive model *)
      db ←
        AdaptiveService.updateModel db now2 userId (question_topic_id question)
          isCorrect (difficulty_level question)
          (AdaptiveService.withTimeTaken
             (buildUserContext db hour userId (question_topic_id question))
             timeTaken);
      Ok ({| engine := db;
             questions := questions ldb;
             xp_profiles := profiles |},
          {| Submission.is_correct := isCorrect;
             Submission.correct_answer := correctAnswer;
             Submission.explanation :=
               match explanation question with
               | Some text =>
                   if bool_decide (text = "")
                   then generateExplanation isCorrect u
                   else Some text
               | None => generateExplanation isCorrect u
               end;
             Submission.xp_earned := xp;
             Submission.feedback :=
               generateFeedback isCorrect (difficulty_level question) |})
  end.

(** The filters of the two queries of [getNextQuestion].  The bounds
    [recommendedDifficulty - 0.1] and [recommendedDifficulty + 0.1] are
    exact here; the code computes them in binary64, where they can be off
    in the last digit. *)
Definition isCandidate (topicId : string) (q : Question) : bool :=
  String.eqb (question_topic_id q) topicId && is_active q.

Definition isNear (recommendedDifficulty : Q) (q : Question) : bool :=
  (difficulty_level q >=? recommendedDifficulty - 0.1)
  && (difficulty_level q <=? recommendedDifficulty + 0.1).

Section NextQuestion.

(** The sampler and [Math.random], as for [BanditService.recommendQuestion]. *)
Variable Entropy : Type.
Variable sampleBeta : Q -> Q -> Entropy -> Q * Entropy.
Variable random : Entropy -> Q * Entropy.

(** The question returned is [None] when the index drawn is out of range,
    where JavaScript yields [undefined]. *)
Definition getNextQuestion (ldb : LearningDatabase) (hour now : Z)
    (userId topicId : string) (g : Entropy)
    : Result (LearningDatabase * option Question * Entropy) :=
  let context := buildUserContext (engine ldb) hour userId topicId in
  '(db, recommendedDifficulty, g) ←
    AdaptiveService.recommendQuestion Entropy sampleBeta random (engine ldb)
      now userId context g;
  let ldb :=
    {| engine := db;
       questions := questions ldb;
       xp_profiles := xp_profiles ldb |} in
  let matching :=
    take 5
      (filter
         (fun q => isCandidate topicId q && isNear recommendedDifficulty q = true)
         (questions ldb)) in
  match matching with
  | [] =>
      let fallbackQuestions :=
        take 5 (filter (fun q => isCandidate topicId q = true) (questions ldb)) in
      match fallbackQuestions with
      | [] => Throw "No questions available for this topic"
      | _ =>
          let '(u, g) := random g in
          Ok (ldb, pick u fallbackQuestions, g)
      end
  | _ =>
      let '(u, g) := random g in
      Ok (ldb, pick u matching, g)
  end.

End NextQuestion.

End QuizService.

(** ** Runs of updates *)

(** One observed answer, and the clock when it is processed. *)
Record Answer : Type := {
  answer_now : Z;
  answer_isCorrect : bool;
  answer_difficulty : Q;
  answer_timeTaken : Q;
}.

(** [MasteryService.updateMastery], once per answer, in order. *)
Fixpoint updateMasteryAll (db : Database) (userId topicId : string)
    (answers : list Answer) : Result Database :=
  match answers with
  | [] => Ok db
  | a :: answers =>
      '(db, _) ←
        MasteryService.updateMastery db (answer_now a) userId topicId
          (answer_isCorrect a) (answer_difficulty a) (answer_timeTaken a);
      updateMasteryAll db userId topicId answers
  end.

(** [BanditService.updateModel], once per answer, in order; each answer
    comes with the context the caller built for it. *)
Fixpoint updateModelAll (db : Database) (userId : string)
    (answers : list (Answer * UserContext.t)) : Result Database :=
  match answers with
  | [] => Ok db
  | (a, context) :: answers =>
      db ←
        BanditService.updateModel db (answer_now a) userId
          (answer_isCorrect a) (answer_difficulty a) context;
      updateModelAll db userId answers
  end.

(** ** The documented ranges *)

(** masteryScore in [0.01, 0.99], learningRate in [0.05, 0.3] and
    confidenceInterval in [0.05, 0.5]. *)
Record MasteryBounds (mastery_score learning_rate confidence_interval : Q)
    : Prop := {
  mastery_score_lower : 0.01 <= mastery_score;
  mastery_score_upper : mastery_score <= 0.99;
  learning_rate_lower : 0.05 <= learning_rate;
  learning_rate_upper : learning_rate <= 0.3;
  confidence_interval_lower : 0.05 <= confidence_interval;
  confidence_interval_upper : confidence_interval <= 0.5;
}.

Definition RowInRange (mastery : MasteryRow) : Prop :=
  MasteryBounds (mastery_score mastery) (learning_rate mastery)
    (confidence_interval mastery).

Definition StateInRange (state : MasteryState.t) : Prop :=
  MasteryBounds (MasteryState.mastery_score state)
    (MasteryState.learning_rate state)
    (MasteryState.confidence_interval state).

(** The row of the user and topic, when there is one, is in range. *)
Definition StoredInRange (db : Database) (userId topicId : string) : Prop :=
  forall mastery, user_topic_mastery db !! (userId, topicId) = Some mastery ->
    RowInRange mastery.

(** The forgetting rate is documented by its default only, 0.05, and no
    update changes it; as a rate it is not negative. *)
Definition ForgettingRateNonNegative (db : Database) (userId topicId : string)
    : Prop :=
  forall mastery, user_topic_mastery db !! (userId, topicId) = Some mastery ->
    0 <= forgetting_rate mastery.

(** alpha >= 1 and beta >= 1, for every arm. *)
Definition ArmInvariant (p : ArmParameters) : Prop := 1 <= alpha p /\ 1 <= beta p.

Definition BanditInvariant (armParams : Arms ArmParameters) : Prop :=
  ArmInvariant (easy armParams) /\ ArmInvariant (medium armParams)
  /\ ArmInvariant (hard armParams).

(** ** Reading the tables, and the clock *)

(** The row an update starts from: the stored one, or else the one
    [initializeMastery] creates. *)
Definition currentRow (db : Database) (userId topicId : string) : MasteryRow :=
  default MasteryService.initialMastery
    (user_topic_mastery db !! (userId, topicId)).

Definition lastAttempt (db : Database) (userId topicId : string) : option Z :=
  user_topic_mastery db !! (userId, topicId) ≫= last_attempt_at.

Definition masteryAchievedAt (db : Database) (userId topicId : string)
    : option Z :=
  user_topic_mastery db !! (userId, topicId) ≫= mastery_achieved_at.

(** The elapsed time since the last attempt is not negative at [now]. *)
Definition NotBefore (last : option Z) (now : Z) : Prop :=
  match last with
  | Some t => (t <= now)%Z
  | None => True
  end.

(** No time has elapsed since the last attempt at [now]. *)
Definition ZeroElapsed (last : option Z) (now : Z) : Prop :=
  match last with
  | Some t => t = now
  | None => True
  end.

(** The answers are processed in the order of their clocks, none before the
    last attempt on record. *)
Fixpoint Chronological (last : option Z) (answers : list Answer) : Prop :=
  match answers with
  | [] => True
  | a :: answers =>
      NotBefore last (answer_now a)
      /\ Chronological (Some (answer_now a)) answers
  end.

(** A streak: every answer is correct, its difficulty is in [0, 1], and no
    time elapses between the attempts. *)
Fixpoint SuccessStreak (last : option Z) (answers : list Answer) : Prop :=
  match answers with
  | [] => True
  | a :: answers =>
      answer_isCorrect a = true
      /\ 0 <= answer_difficulty a <= 1
      /\ ZeroElapsed last (answer_now a)
      /\ SuccessStreak (Some (answer_now a)) answers
  end.

(** ** The insights as the specification words them *)

Module Spec.

(** [clamp(x, lo, hi)]. *)
Definition clamp (x lo hi : Q) : Q :=
  if x <? lo then lo else if x >? hi then hi else x.

(** Novice (< 0.2), Beginning (< 0.4), Developing (< 0.6), Proficient
    (< 0.8), Expert (>= 0.8). *)
Definition level (masteryScore : Q) : string :=
  if masteryScore <? 0.2 then "Novice"
  else if masteryScore <? 0.4 then "Beginning"
  else if masteryScore <? 0.6 then "Developing"
  else if masteryScore <? 0.8 then "Proficient"
  else "Expert".

Definition predictedSuccessRate (masteryScore confidenceInterval : Q) : Q :=
  Qmin 0.95 (masteryScore + (1 - confidenceInterval) * 0.1).

Definition recommendedDifficulty (masteryScore confidenceInterval : Q) : Q :=
  clamp (masteryScore + 0.1 - confidenceInterval * 0.2) 0.1 0.9.

End Spec.

(** ** Example data *)

Definition alice : string := "alice".

Definition budgeting : string := "budgeting".

(** A learner with some practice on the topic, last seen at instant 1000. *)
Definition practised : MasteryRow :=
  {| mastery_score := 0.5;
     attempts_count := 4;
     correct_answers := 3;
     time_spent_seconds := 120;
     learning_rate := 0.2;
     forgetting_rate := 0.05;
     confidence_interval := 0.4;
     last_attempt_at := Some 1000%Z;
     mastery_achieved_at := None |}.

Definition freshModel : BanditModel :=
  {| arm_parameters := BanditService.initialArmParams;
     context_features := None;
     total_interactions := 0;
     last_updated := 0 |}.

Definition empty_db : Database :=
  {| user_topic_mastery := ∅;
     bandit_models := ∅;
     question_attempts := ∅;
     user_profiles := ∅ |}.

(** [alice] has a bandit model and a row for [budgeting]. *)
Definition practised_db : Database :=
  {| user_topic_mastery := {[ (alice, budgeting) := practised ]};
     bandit_models := {[ alice := freshModel ]};
     question_attempts := ∅;
     user_profiles := ∅ |}.

(** [alice] has the row [initializeMastery] creates, and no attempt yet. *)
Definition enrolled_db : Database :=
  {| user_topic_mastery :=
       {[ (alice, budgeting) := MasteryService.initialMastery ]};
     bandit_models := {[ alice := freshModel ]};
     question_attempts := ∅;
     user_profiles := ∅ |}.

(** [alice] is close to mastery on the topic, not reached so far. *)
Definition nearly_there_db : Database :=
  {| user_topic_mastery :=
       {[ (alice, budgeting) :=
            {| mastery_score := 0.78;
               attempts_count := 9;
               correct_answers := 7;
               time_spent_seconds := 300;
               learning_rate := 0.3;
               forgetting_rate := 0.05;
               confidence_interval := 0.2;
               last_attempt_at := Some 1000%Z;
               mastery_achieved_at := None |} ]};
     bandit_models := ∅;
     question_attempts := ∅;
     user_profiles := ∅ |}.

(** [alice] has a bandit model but has not met the topic yet. *)
Definition newcomer_db : Database :=
  {| user_topic_mastery := ∅;
     bandit_models := {[ alice := freshModel ]};
     question_attempts := ∅;
     user_profiles := ∅ |}.

Definition answer (now : Z) (isCorrect : bool) (difficulty timeTaken : Q)
    : Answer :=
  {| answer_now := now;
     answer_isCorrect := isCorrect;
     answer_difficulty := difficulty;
     answer_timeTaken := timeTaken |}.

(** A tired learner late in the day: every rule of
    [calculateContextualAdjustments] that penalises the hard arm fires. *)
Definition strugglingContext : UserContext.t :=
  {| UserContext.topic_mastery := 0.1;
     UserContext.recent_accuracy := 0.2;
     UserContext.avg_time_per_question := 50;
     UserContext.total_attempts := 12;
     UserContext.time_of_day := 16;
     UserContext.engagement_level := 0.2;
     UserContext.streak_days := 0;
     UserContext.confidence_interval := 0.5;
     UserContext.timeTaken := None |}.

(** The context of Scenario 2: no rule fires. *)
Definition neutralContext : UserContext.t :=
  {| UserContext.topic_mastery := 0.5;
     UserContext.recent_accuracy := 0.5;
     UserContext.avg_time_per_question := 30;
     UserContext.total_attempts := 12;
     UserContext.time_of_day := 10;
     UserContext.engagement_level := 0.5;
     UserContext.streak_days := 0;
     UserContext.confidence_interval := 0.5;
     UserContext.timeTaken := None |}.

(** A model with some history on every arm. *)
Definition seasonedModel : BanditModel :=
  {| arm_parameters :=
       {| easy := {| alpha := 6.2; beta := 1.4 |};
          medium := {| alpha := 4.5; beta := 2.1 |};
          hard := {| alpha := 3.8; beta := 3.3 |} |};
     context_features := Some neutralContext;
     total_interactions := 18;
     last_updated := 4000 |}.

Definition seasoned_db : Database :=
  {| user_topic_mastery := {[ (alice, budgeting) := practised ]};
     bandit_models := {[ alice := seasonedModel ]};
     question_attempts := ∅;
     user_profiles := ∅ |}.

(** ** The arguments of the Beta sampler *)

(** A sampler that keeps a record of the arguments of each call, in order,
    and answers 1/2: run with it, [recommendQuestion] shows the calls of
    [sampleBeta] it makes. *)
Definition recordingSampleBeta (a b : Q) (calls : list (Q * Q))
    : Q * list (Q * Q) :=
  (0.5, calls ++ [(a, b)]).

Definition recordingRandom (calls : list (Q * Q)) : Q * list (Q * Q) :=
  (0.5, calls).

Definition sampleBetaCalls (db : Database) (now : Z) (userId : string)
    (context : UserContext.t) : Result (list (Q * Q)) :=
  '(_, _, calls) ←
    BanditService.recommendQuestion (list (Q * Q)) recordingSampleBeta
      recordingRandom db now userId context [];
  Ok calls.

(** The parameters [recommendQuestion] samples from: the stored ones, or
    else the ones [initializeBanditModel] creates. *)
Definition currentArmParameters (db : Database) (userId : string)
    : Arms ArmParameters :=
  match bandit_models db !! userId with
  | Some model => arm_parameters model
  | None => BanditService.initialArmParams
  end.

(** [recommendQuestion] returns, and both arguments of every [sampleBeta]
    call it has made are positive. *)
Definition SamplerArgumentsPositive (db : Database) (now : Z)
    (userId : string) (context : UserContext.t) : Prop :=
  exists calls,
    sampleBetaCalls db now userId context = Ok calls
    /\ Forall (fun call => 0 < fst call /\ 0 < snd call) calls.

(** One correct answer of difficulty 0.5, given in 30 seconds. *)
Definition oneAnswer : FeedbackData.t :=
  {| FeedbackData.isCorrect := true;
     FeedbackData.difficulty := 0.5;
     FeedbackData.timeTaken := 30;
     FeedbackData.frustration_indicators := None |}.

(** ** Further predicates *)

(** No more correct answers than attempts, and neither negative. *)
Definition CountersConsistent (mastery : MasteryRow) : Prop :=
  (0 <= correct_answers mastery <= attempts_count mastery)%Z.

(** A value with at most four decimals: rounding leaves it as it is. *)
Definition FourDecimals (x : Q) : Prop := round4 x == x.

(** Membership of a text in a list of texts that is known. *)
Ltac list_membership :=
  rewrite ?list_elem_of_In; cbn;
  split; [intros H; repeat destruct H as [H|H]; try discriminate; try done
         | intros H; try discriminate; tauto].


(** [alice] has a row for [budgeting] and a very good one for [saving]. *)
Definition saving : string := "saving".

Definition accomplished : MasteryRow :=
  {| mastery_score := 0.95;
     attempts_count := 40;
     correct_answers := 36;
     time_spent_seconds := 900;
     learning_rate := 0.06;
     forgetting_rate := 0.05;
     confidence_interval := 0.07;
     last_attempt_at := Some 800%Z;
     mastery_achieved_at := Some 600%Z |}.

Definition two_topics_db : Database :=
  {| user_topic_mastery :=
       {[ (alice, budgeting) := practised; (alice, saving) := accomplished ]};
     bandit_models := {[ alice := freshModel ]};
     question_attempts := ∅;
     user_profiles := ∅ |}.

(** No pseudo-count above 199, the fixed point of x -> (x + 1) * 0.995. *)
Definition ArmCapped (p : ArmParameters) : Prop :=
  alpha p <= 199 /\ beta p <= 199.

Definition BanditCapped (armParams : Arms ArmParameters) : Prop :=
  ArmCapped (easy armParams) /\ ArmCapped (medium armParams)
  /\ ArmCapped (hard armParams).

(** The share of successes alpha / (alpha + beta) of [p] is at most that of
    [p'], the denominators cleared (they are positive under the
    invariant). *)
Definition ShareAtMost (p p' : ArmParameters) : Prop :=
  alpha p * (alpha p' + beta p') <= alpha p' * (alpha p + beta p).


(** The answers recorded for a user took no negative time, and the streak
    of the user's profile, if there is one, is not negative. *)
Definition TimesNonNegative (db : Database) (userId : string) : Prop :=
  Forall (fun a => 0 <= time_taken_seconds a)
    (default [] (question_attempts db !! userId)).

Definition StreakNonNegative (db : Database) (userId : string) : Prop :=
  forall p, user_profiles db !! userId = Some p -> (0 <= current_streak p)%Z.

(** [alice] answers fast and well: the last three answers were correct and
    took two seconds each, on a streak of nine days. *)
Definition quick_db : Database :=
  {| user_topic_mastery := {[ (alice, budgeting) := practised ]};
     bandit_models := {[ alice := seasonedModel ]};
     question_attempts :=
       {[ alice := [ {| is_correct := true; time_taken_seconds := 2 |};
                     {| is_correct := true; time_taken_seconds := 2 |};
                     {| is_correct := true; time_taken_seconds := 2 |} ] ]};
     user_profiles := {[ alice := {| current_streak := 9 |} ]} |}.

(** The level stored for a profile is the level of its total. *)
Definition LevelConsistent (profile : XpProfile) : Prop :=
  (0 <= total_xp profile)%Z
  /\ current_level profile = ProgressService.calculateLevel (total_xp profile).

(** A class with three questions on [budgeting], the last one retired;
    [alice] is 20 points short of level 3. *)
Definition needs_and_wants : Question :=
  {| question_id := "q1";
     question_topic_id := budgeting;
     is_active := true;
     difficulty_level := 0.6;
     correct_answer := Some "B";
     explanation := None |}.

Definition piggy_bank : Question :=
  {| question_id := "q2";
     question_topic_id := budgeting;
     is_active := true;
     difficulty_level := 0.3;
     correct_answer := Some "A";
     explanation := Some "Money that is put aside is there for later." |}.

Definition retired_question : Question :=
  {| question_id := "q3";
     question_topic_id := budgeting;
     is_active := false;
     difficulty_level := 0.9;
     correct_answer := Some "C";
     explanation := None |}.

Definition class_ldb : LearningDatabase :=
  {| engine := quick_db;
     questions := [needs_and_wants; piggy_bank; retired_question];
     xp_profiles := {[ alice := {| total_xp := 380; current_level := Some 2%Z |} ]} |}.

(** ** Proof automation *)

(** Case analysis on every [Math.max] and [Math.min] in sight. *)
Ltac minmax_on spec term :=
  let H := fresh "Hm" in
  let m := fresh "m" in
  destruct spec as [[? H]|[? H]];
  set (m := term) in *; clearbody m.

Ltac minmax :=
  unfold Math.max, Math.min in *;
  repeat match goal with
  | |- context [Qmax ?a ?b] => minmax_on (Q.max_spec a b) (Qmax a b)
  | |- context [Qmin ?a ?b] => minmax_on (Q.min_spec a b) (Qmin a b)
  | _ : context [Qmax ?a ?b] |- _ => minmax_on (Q.max_spec a b) (Qmax a b)
  | _ : context [Qmin ?a ?b] |- _ => minmax_on (Q.min_spec a b) (Qmin a b)
  end.

(** Case analysis on every comparison of the goal. *)
Ltac compare_cases :=
  unfold Qlt_bool;
  repeat match goal with
  | |- context [Qle_bool ?a ?b] =>
      let E := fresh "E" in
      destruct (Qle_bool a b) eqn:E; cbn [negb];
      [ apply Qle_bool_iff in E
      | assert (~ a <= b) by (rewrite <- Qle_bool_iff; congruence); clear E ]
  | |- context [Qeq_bool ?a ?b] =>
      let E := fresh "E" in
      destruct (Qeq_bool a b) eqn:E;
      [ apply Qeq_bool_iff in E | apply Qeq_bool_neq in E ]
  end.

(** * Verification *)

(** ** Comparisons, [Math.max], [Math.min] and rounding *)

Lemma Qle_bool_reflect a b : reflect (a <= b) (a <=? b).
Proof. apply iff_reflect. symmetry. apply Qle_bool_iff. Qed.

Lemma round_lower x : x - 0.5 < Math.round x.
Proof.
  unfold Math.round. pose proof (Qlt_floor (x + 0.5)) as H.
  rewrite inject_Z_plus in H. change (inject_Z 1) with 1 in H. lra.
Qed.

Lemma round_upper x : Math.round x <= x + 0.5.
Proof. unfold Math.round. apply Qfloor_le. Qed.

Lemma round_ge_Z k x : inject_Z k <= x -> inject_Z k <= Math.round x.
Proof.
  intros H. unfold Math.round. rewrite <- Zle_Qle.
  rewrite <- (Qfloor_Z k). apply Qfloor_resp_le. lra.
Qed.

Lemma round_le_Z k x : x <= inject_Z k -> Math.round x <= inject_Z k.
Proof.
  intros H. unfold Math.round. rewrite <- Zle_Qle.
  assert (Hk : (Qfloor (x + 0.5) < k + 1)%Z).
  { rewrite Zlt_Qlt. eapply Qle_lt_trans; [apply Qfloor_le|].
    rewrite inject_Z_plus. change (inject_Z 1) with 1. lra. }
  lia.
Qed.

Lemma round4_scaled x : round4 x == Math.round (x * 10000) * (1 # 10000).
Proof. reflexivity. Qed.

(** Rounding to four decimals moves a value by at most 0.00005. *)
Lemma round4_lower x : x - 0.00005 < round4 x.
Proof. rewrite round4_scaled. pose proof (round_lower (x * 10000)). lra. Qed.

Lemma round4_upper x : round4 x <= x + 0.00005.
Proof. rewrite round4_scaled. pose proof (round_upper (x * 10000)). lra. Qed.

(** Rounding does not cross a bound that has at most four decimals. *)
Lemma round4_ge k lo x :
  lo == inject_Z k * (1 # 10000) -> lo <= x -> lo <= round4 x.
Proof.
  intros -> H. rewrite round4_scaled.
  assert (H' : inject_Z k <= x * 10000) by lra.
  apply round_ge_Z in H'. lra.
Qed.

Lemma round4_le k hi x :
  hi == inject_Z k * (1 # 10000) -> x <= hi -> round4 x <= hi.
Proof.
  intros -> H. rewrite round4_scaled.
  assert (H' : x * 10000 <= inject_Z k) by lra.
  apply round_le_Z in H'. lra.
Qed.

Lemma round4_fixed k x : x == inject_Z k * (1 # 10000) -> round4 x == x.
Proof.
  intros H. apply Qle_antisym.
  - apply (round4_le k); [done | lra].
  - apply (round4_ge k); [done | lra].
Qed.

(** The six bounds of [MasteryBounds], for rounded values. *)
Lemma rounded_in_range mastery_score learning_rate confidence_interval :
  MasteryBounds mastery_score learning_rate confidence_interval ->
  MasteryBounds (round4 mastery_score) (round4 learning_rate)
    (round4 confidence_interval).
Proof.
  intros []. split;
    [ apply (round4_ge 100) | apply (round4_le 9900)
    | apply (round4_ge 500) | apply (round4_le 3000)
    | apply (round4_ge 500) | apply (round4_le 5000) ];
    first [reflexivity | assumption].
Qed.

(** ** MasteryService.applyBKTUpdate *)

Lemma timeAdjustment_bounds timeTaken :
  0.5 <= MasteryService.timeAdjustment timeTaken <= 1.5.
Proof.
  unfold MasteryService.timeAdjustment, js_div.
  compare_cases; minmax; lra.
Qed.

Lemma getTimeSinceLastAttempt_nonneg now last :
  NotBefore last now -> 0 <= MasteryService.getTimeSinceLastAttempt now last.
Proof.
  destruct last as [t|]; simpl; intros H; [|lra].
  change 0 with (inject_Z 0). rewrite <- Zle_Qle. lia.
Qed.

Lemma getTimeSinceLastAttempt_zero now last :
  ZeroElapsed last now -> MasteryService.getTimeSinceLastAttempt now last == 0.
Proof.
  destruct last as [t|]; cbn; [intros ->|reflexivity].
  by rewrite Z.sub_diag.
Qed.

Lemma applyBKTUpdate_forgetting_rate now mastery isCorrect difficulty timeTaken :
  MasteryState.forgetting_rate
    (MasteryService.applyBKTUpdate now mastery isCorrect difficulty timeTaken)
  = forgetting_rate mastery.
Proof. unfold MasteryService.applyBKTUpdate. by destruct isCorrect. Qed.

(** One update keeps the three estimates in their ranges, rounding included. *)
Lemma applyBKTUpdate_in_range now mastery isCorrect difficulty timeTaken :
  RowInRange mastery ->
  0 <= forgetting_rate mastery ->
  NotBefore (last_attempt_at mastery) now ->
  StateInRange
    (MasteryService.applyBKTUpdate now mastery isCorrect difficulty timeTaken).
Proof.
  intros [] Hf Ht. apply getTimeSinceLastAttempt_nonneg in Ht.
  unfold MasteryService.applyBKTUpdate.
  set (elapsed := MasteryService.getTimeSinceLastAttempt _ _) in *.
  clearbody elapsed.
  set (ta := MasteryService.timeAdjustment _). clearbody ta.
  assert (Hloss : 0 <= forgetting_rate mastery * (elapsed / (24 * 60 * 60 * 1000))).
  { apply Qmult_le_0_compat; [done|]. unfold Qdiv.
    change (/ (24 * 60 * 60 * 1000)) with (1 # 86400000). lra. }
  set (loss := forgetting_rate mastery * (elapsed / _)) in *. clearbody loss.
  assert (Herr : 0 <= forgetting_rate mastery * mastery_score mastery * 2).
  { assert (0 <= forgetting_rate mastery * mastery_score mastery); [|lra].
    apply Qmult_le_0_compat; lra. }
  destruct isCorrect; apply rounded_in_range; split; minmax; lra.
Qed.

(** On a correct answer the learning gain is at least 0.02125 of what is
    left to learn. *)
Lemma learning_gain_lower learning_rate difficulty ta mastery_score :
  0.05 <= learning_rate -> 0 <= difficulty -> 0.5 <= ta -> mastery_score <= 1 ->
  0.02125 * (1 - mastery_score)
  <= learning_rate * (1 + (difficulty - 0.5) * 0.3) * ta * (1.0 - mastery_score).
Proof.
  intros Hl Hd Ht Hm.
  assert (H1 : 0.0425 <= learning_rate * (1 + (difficulty - 0.5) * 0.3)) by nra.
  assert (H2 : 0.02125 <= learning_rate * (1 + (difficulty - 0.5) * 0.3) * ta)
    by nra.
  nra.
Qed.

(** One correct answer with no time elapsed: the estimates stay in range,
    the confidence interval shrinks unless it is at its floor, and the
    mastery score grows unless it is at its ceiling. *)
Lemma correct_answer_step now mastery difficulty timeTaken :
  RowInRange mastery ->
  ZeroElapsed (last_attempt_at mastery) now ->
  0 <= difficulty <= 1 ->
  let state :=
    MasteryService.applyBKTUpdate now mastery true difficulty timeTaken in
  StateInRange state
  /\ (0.05 < confidence_interval mastery ->
      MasteryState.confidence_interval state < confidence_interval mastery)
  /\ (confidence_interval mastery == 0.05 ->
      MasteryState.confidence_interval state == 0.05)
  /\ (mastery_score mastery < 0.99 ->
      mastery_score mastery < MasteryState.mastery_score state)
  /\ (mastery_score mastery == 0.99 ->
      MasteryState.mastery_score state == 0.99).
Proof.
  intros [] Hz [Hd0 Hd1]. apply getTimeSinceLastAttempt_zero in Hz.
  unfold MasteryService.applyBKTUpdate.
  set (elapsed := MasteryService.getTimeSinceLastAttempt _ _) in *.
  clearbody elapsed.
  pose proof (timeAdjustment_bounds timeTaken) as [Hta _].
  set (ta := MasteryService.timeAdjustment _) in *. clearbody ta.
  pose proof (learning_gain_lower (learning_rate mastery) difficulty ta
                (mastery_score mastery)) as Hgain.
  set (gain := learning_rate mastery * _ * ta * _) in *.
  assert (Hg : 0.02125 * (1 - mastery_score mastery) <= gain)
    by (apply Hgain; lra).
  clearbody gain. clear Hgain.
  assert (Hloss : forgetting_rate mastery * (elapsed / (24 * 60 * 60 * 1000)) == 0).
  { rewrite Hz. unfold Qdiv. lra. }
  set (loss := forgetting_rate mastery * _) in *. clearbody loss.
  cbn -[round4 Qmax Qmin Qplus Qmult Qminus].
  set (ms := Math.max 0.01 (Math.min 0.99 (mastery_score mastery + gain) - loss)).
  set (ci := Math.max 0.05 (confidence_interval mastery * 0.95)).
  set (lr := Math.max 0.05 (learning_rate mastery * 0.98)).
  pose proof (round4_lower ms) as Hms_lo.
  pose proof (round4_upper ci) as Hci_up.
  split; [|split; [|split; [|split]]].
  - apply rounded_in_range. split; unfold ms, ci, lr; minmax; lra.
  - intros H.
    assert (ci <= confidence_interval mastery * 0.95 \/ ci == 0.05) as [Hc|Hc]
      by (unfold ci; minmax; lra).
    + lra.
    + rewrite (round4_fixed 500 ci) by (rewrite Hc; reflexivity). lra.
  - intros H. assert (Hc : ci == 0.05) by (unfold ci; minmax; lra).
    rewrite (round4_fixed 500 ci) by (rewrite Hc; reflexivity). exact Hc.
  - intros H.
    assert (mastery_score mastery + 0.0002 <= ms \/ ms == 0.99) as [Hc|Hc]
      by (unfold ms; minmax; lra).
    + lra.
    + rewrite (round4_fixed 9900 ms) by (rewrite Hc; reflexivity). lra.
  - intros H. assert (Hc : ms == 0.99) by (unfold ms; minmax; lra).
    rewrite (round4_fixed 9900 ms) by (rewrite Hc; reflexivity). exact Hc.
Qed.

(** ** MasteryService.updateMastery *)

(** [updateMastery] never throws: it stores [updatedRow] and returns the
    state [applyBKTUpdate] computes from the current row. *)
Lemma updateMastery_total db now userId topicId isCorrect difficulty timeTaken :
  let mastery := currentRow db userId topicId in
  let updatedMastery :=
    MasteryService.applyBKTUpdate now mastery isCorrect difficulty timeTaken in
  MasteryService.updateMastery db now userId topicId isCorrect difficulty
    timeTaken
  = Ok (with_user_topic_mastery db
          (<[(userId, topicId) :=
               MasteryService.updatedRow now mastery updatedMastery isCorrect
                 timeTaken]>
             (user_topic_mastery db)),
        updatedMastery).
Proof.
  unfold currentRow, MasteryService.updateMastery,
    MasteryService.initializeMastery.
  destruct (user_topic_mastery db !! (userId, topicId)) as [mastery|] eqn:E; cbn.
  - by rewrite E.
  - rewrite lookup_insert_eq. unfold with_user_topic_mastery; cbn.
    by rewrite insert_insert_eq.
Qed.

Lemma initialMastery_in_range : RowInRange MasteryService.initialMastery.
Proof. split; cbn; lra. Qed.

Lemma currentRow_in_range db userId topicId :
  StoredInRange db userId topicId -> RowInRange (currentRow db userId topicId).
Proof.
  unfold StoredInRange, currentRow. intros H.
  destruct (user_topic_mastery db !! (userId, topicId)) as [mastery|]; cbn.
  - by apply H.
  - apply initialMastery_in_range.
Qed.

Lemma currentRow_forgetting_rate db userId topicId :
  ForgettingRateNonNegative db userId topicId ->
  0 <= forgetting_rate (currentRow db userId topicId).
Proof.
  unfold ForgettingRateNonNegative, currentRow. intros H.
  destruct (user_topic_mastery db !! (userId, topicId)) as [mastery|]; cbn.
  - by apply H.
  - lra.
Qed.

Lemma currentRow_last_attempt db userId topicId :
  last_attempt_at (currentRow db userId topicId) = lastAttempt db userId topicId.
Proof.
  unfold currentRow, lastAttempt.
  by destruct (user_topic_mastery db !! (userId, topicId)).
Qed.

Lemma currentRow_achieved db userId topicId :
  mastery_achieved_at (currentRow db userId topicId)
  = masteryAchievedAt db userId topicId.
Proof.
  unfold currentRow, masteryAchievedAt.
  by destruct (user_topic_mastery db !! (userId, topicId)).
Qed.

(** The table after one update, read back. *)
Lemma lookup_updated db tbl userId topicId row :
  tbl = <[(userId, topicId) := row]> (user_topic_mastery db) ->
  user_topic_mastery (with_user_topic_mastery db tbl) !! (userId, topicId)
  = Some row.
Proof. intros ->. cbn. apply lookup_insert_eq. Qed.

(** ** Runs of mastery updates *)

Lemma updateMasteryAll_cons db userId topicId a answers :
  updateMasteryAll db userId topicId (a :: answers)
  = updateMasteryAll
      (with_user_topic_mastery db
         (<[(userId, topicId) :=
              MasteryService.updatedRow (answer_now a)
                (currentRow db userId topicId)
                (MasteryService.applyBKTUpdate (answer_now a)
                   (currentRow db userId topicId) (answer_isCorrect a)
                   (answer_difficulty a) (answer_timeTaken a))
                (answer_isCorrect a) (answer_timeTaken a)]>
            (user_topic_mastery db)))
      userId topicId answers.
Proof. cbn [updateMasteryAll]. by rewrite updateMastery_total. Qed.

(** A run never throws. *)
Lemma updateMasteryAll_total db userId topicId answers :
  exists db', updateMasteryAll db userId topicId answers = Ok db'.
Proof.
  revert db. induction answers as [|a answers IH]; intros db.
  - by exists db.
  - rewrite updateMasteryAll_cons. apply IH.
Qed.

(** After a run of at least one answer the row exists. *)
Lemma updateMasteryAll_stored db db' userId topicId answers :
  updateMasteryAll db userId topicId answers = Ok db' ->
  answers <> [] ->
  is_Some (user_topic_mastery db' !! (userId, topicId)).
Proof.
  revert db. induction answers as [|a answers IH]; intros db Hrun Hne; [done|].
  rewrite updateMasteryAll_cons in Hrun.
  destruct answers as [|a' answers'].
  - injection Hrun as <-. erewrite lookup_updated; done.
  - by eapply IH.
Qed.

Lemma updateMasteryAll_in_range db userId topicId answers :
  StoredInRange db userId topicId ->
  ForgettingRateNonNegative db userId topicId ->
  Chronological (lastAttempt db userId topicId) answers ->
  exists db',
    updateMasteryAll db userId topicId answers = Ok db'
    /\ StoredInRange db' userId topicId
    /\ ForgettingRateNonNegative db' userId topicId.
Proof.
  revert db. induction answers as [|a answers IH]; intros db Hdb Hf Hchron.
  - by exists db.
  - destruct Hchron as [Hnow Hchron]. rewrite updateMasteryAll_cons.
    pose proof (currentRow_in_range _ _ _ Hdb) as Hrow.
    pose proof (currentRow_forgetting_rate _ _ _ Hf) as Hrate.
    apply IH.
    + intros mastery Hm. erewrite lookup_updated in Hm by done.
      injection Hm as <-.
      apply applyBKTUpdate_in_range; [done..|].
      by rewrite currentRow_last_attempt.
    + intros mastery Hm. erewrite lookup_updated in Hm by done.
      injection Hm as <-. cbn. by rewrite applyBKTUpdate_forgetting_rate.
    + unfold lastAttempt. erewrite lookup_updated by done. exact Hchron.
Qed.

(** C3.  From a stored state in its documented ranges (a row not yet
    created counts, the defaults are in range) and with a forgetting rate
    that is not negative, after any finite sequence of updates processed in
    chronological order (the elapsed times are not negative), whatever the
    outcomes, difficulties and times taken, the run returns and the stored
    masteryScore is in [0.01, 0.99], learningRate in [0.05, 0.3] and
    confidenceInterval in [0.05, 0.5], after the rounding to four decimals.
    Every prefix of the sequence is such a sequence, so the bounds hold
    after every update. *)
Theorem mastery_estimates_stay_in_range db userId topicId answers :
  StoredInRange db userId topicId ->
  ForgettingRateNonNegative db userId topicId ->
  Chronological (lastAttempt db userId topicId) answers ->
  exists db',
    updateMasteryAll db userId topicId answers = Ok db'
    /\ StoredInRange db' userId topicId
    /\ (answers <> [] ->
        exists mastery,
          user_topic_mastery db' !! (userId, topicId) = Some mastery
          /\ RowInRange mastery).
Proof.
  intros Hdb Hf Hchron.
  destruct (updateMasteryAll_in_range _ _ _ _ Hdb Hf Hchron)
    as (db' & Hrun & Hrange & _).
  exists db'. split; [done|]. split; [done|]. intros Hne.
  destruct (updateMasteryAll_stored _ _ _ _ _ Hrun Hne) as [mastery Hm].
  exists mastery. split; [done|]. by apply Hrange.
Qed.

Lemma mastery_estimates_stay_in_range_witness :
  StoredInRange practised_db alice budgeting
  /\ ForgettingRateNonNegative practised_db alice budgeting
  /\ Chronological (lastAttempt practised_db alice budgeting)
       [answer 2000 true 0.5 30; answer 90000000 false 0.9 50]
  /\ exists db',
       updateMasteryAll practised_db alice budgeting
         [answer 2000 true 0.5 30; answer 90000000 false 0.9 50] = Ok db'
       /\ StoredInRange db' alice budgeting
       /\ ([answer 2000 true 0.5 30; answer 90000000 false 0.9 50] <> [] ->
           exists mastery,
             user_topic_mastery db' !! (alice, budgeting) = Some mastery
             /\ RowInRange mastery).
Proof.
  assert (Hdb : StoredInRange practised_db alice budgeting).
  { intros mastery Hm. vm_compute in Hm. injection Hm as <-.
    split; cbn; lra. }
  assert (Hf : ForgettingRateNonNegative practised_db alice budgeting).
  { intros mastery Hm. vm_compute in Hm. injection Hm as <-. cbn. lra. }
  assert (Hchron : Chronological (lastAttempt practised_db alice budgeting)
            [answer 2000 true 0.5 30; answer 90000000 false 0.9 50]).
  { vm_compute. repeat split; discriminate. }
  split; [exact Hdb|]. split; [exact Hf|]. split; [exact Hchron|].
  exact (mastery_estimates_stay_in_range practised_db alice budgeting _
           Hdb Hf Hchron).
Defined.

(** C8.  Any streak of N >= 1 correct answers ([answers ++ [a]], with
    difficulties in [0, 1], any time taken and no time elapsed between the
    attempts) from a state in its documented ranges: the run returns, and
    its last update, which takes the row [before] to the row [after],
    strictly decreases the confidence interval unless it is at the floor
    0.05 (where it stays) and strictly increases the mastery score unless
    it is at the ceiling 0.99 (where it stays); the values compared are the
    ones rounded to four decimals.  Every prefix of a streak is a streak,
    so this holds for each of the N updates. *)
Theorem success_streak_monotone db userId topicId answers a :
  StoredInRange db userId topicId ->
  SuccessStreak (lastAttempt db userId topicId) (answers ++ [a]) ->
  exists db1 db2 after,
    updateMasteryAll db userId topicId answers = Ok db1
    /\ updateMasteryAll db userId topicId (answers ++ [a]) = Ok db2
    /\ user_topic_mastery db2 !! (userId, topicId) = Some after
    /\ let before := currentRow db1 userId topicId in
       (0.05 < confidence_interval before ->
        confidence_interval after < confidence_interval before)
       /\ (confidence_interval before == 0.05 ->
           confidence_interval after == 0.05)
       /\ (mastery_score before < 0.99 ->
           mastery_score before < mastery_score after)
       /\ (mastery_score before == 0.99 -> mastery_score after == 0.99).
Proof.
  revert db. induction answers as [|a0 answers IH]; intros db Hdb Hstreak.
  - destruct Hstreak as (Hc & Hd & Hz & _).
    exists db. eexists. eexists. split; [done|].
    cbn [app]. rewrite updateMasteryAll_cons. cbn [updateMasteryAll].
    split; [done|]. split; [by erewrite lookup_updated|].
    rewrite Hc. cbn.
    apply correct_answer_step; [by apply currentRow_in_range| |done].
    by rewrite currentRow_last_attempt.
  - destruct Hstreak as (Hc & Hd & Hz & Hstreak).
    rewrite <- app_comm_cons, !updateMasteryAll_cons. apply IH.
    + intros mastery Hm. erewrite lookup_updated in Hm by done.
      injection Hm as <-. rewrite Hc.
      apply correct_answer_step; [by apply currentRow_in_range| |done].
      by rewrite currentRow_last_attempt.
    + unfold lastAttempt. erewrite lookup_updated by done. exact Hstreak.
Qed.

Lemma success_streak_monotone_witness :
  StoredInRange practised_db alice budgeting
  /\ SuccessStreak (lastAttempt practised_db alice budgeting)
       ([answer 1000 true 0.5 30; answer 1000 true 0.2 70]
        ++ [answer 1000 true 0.9 10])
  /\ exists db1 db2 after,
       updateMasteryAll practised_db alice budgeting
         [answer 1000 true 0.5 30; answer 1000 true 0.2 70] = Ok db1
       /\ updateMasteryAll practised_db alice budgeting
            ([answer 1000 true 0.5 30; answer 1000 true 0.2 70]
             ++ [answer 1000 true 0.9 10]) = Ok db2
       /\ user_topic_mastery db2 !! (alice, budgeting) = Some after
       /\ let before := currentRow db1 alice budgeting in
          (0.05 < confidence_interval before ->
           confidence_interval after < confidence_interval before)
          /\ (confidence_interval before == 0.05 ->
              confidence_interval after == 0.05)
          /\ (mastery_score before < 0.99 ->
              mastery_score before < mastery_score after)
          /\ (mastery_score before == 0.99 -> mastery_score after == 0.99).
Proof.
  assert (Hdb : StoredInRange practised_db alice budgeting).
  { intros mastery Hm. vm_compute in Hm. injection Hm as <-.
    split; cbn; lra. }
  assert (Hstreak : SuccessStreak (lastAttempt practised_db alice budgeting)
            ([answer 1000 true 0.5 30; answer 1000 true 0.2 70]
             ++ [answer 1000 true 0.9 10])).
  { cbn. repeat split; lra. }
  split; [exact Hdb|]. split; [exact Hstreak|].
  exact (success_streak_monotone practised_db alice budgeting _ _ Hdb Hstreak).
Defined.

(** ** masteryAchievedAt *)

(** What one update does to [mastery_achieved_at]. *)
Lemma updateMastery_achieved db now userId topicId isCorrect difficulty timeTaken :
  exists db' state,
    MasteryService.updateMastery db now userId topicId isCorrect difficulty
      timeTaken = Ok (db', state)
    /\ (exists row,
          user_topic_mastery db' !! (userId, topicId) = Some row
          /\ mastery_score row = MasteryState.mastery_score state)
    /\ masteryAchievedAt db' userId topicId
       = match masteryAchievedAt db userId topicId with
         | Some t => Some t
         | None =>
             if MasteryState.mastery_score state >=? 0.8 then Some now
             else None
         end.
Proof.
  rewrite updateMastery_total. eexists. eexists. split; [done|].
  split; [eexists; split; [by erewrite lookup_updated|done]|].
  unfold masteryAchievedAt at 1. erewrite lookup_updated by done. cbn.
  rewrite currentRow_achieved.
  destruct (masteryAchievedAt db userId topicId) as [t|]; cbn.
  - by rewrite andb_false_r.
  - by rewrite andb_true_r.
Qed.

(** Once set, the instant survives any run of updates. *)
Lemma updateMasteryAll_achieved_kept db db' userId topicId answers t :
  updateMasteryAll db userId topicId answers = Ok db' ->
  masteryAchievedAt db userId topicId = Some t ->
  masteryAchievedAt db' userId topicId = Some t.
Proof.
  revert db. induction answers as [|a answers IH]; intros db Hrun Ht.
  - by injection Hrun as <-.
  - cbn [updateMasteryAll] in Hrun.
    destruct (updateMastery_achieved db (answer_now a) userId topicId
                (answer_isCorrect a) (answer_difficulty a) (answer_timeTaken a))
      as (db1 & state & Hup & _ & Hach).
    rewrite Hup in Hrun. cbn in Hrun. apply (IH db1 Hrun).
    by rewrite Hach, Ht.
Qed.

(** While it is unset, the score stored by the last update is below 0.8. *)
Lemma updateMasteryAll_unset_below db db' userId topicId answers :
  updateMasteryAll db userId topicId answers = Ok db' ->
  answers <> [] ->
  masteryAchievedAt db' userId topicId = None ->
  exists row,
    user_topic_mastery db' !! (userId, topicId) = Some row
    /\ mastery_score row < 0.8.
Proof.
  revert db. induction answers as [|a answers IH]; intros db Hrun Hne Hnone;
    [done|].
  cbn [updateMasteryAll] in Hrun.
  destruct (updateMastery_achieved db (answer_now a) userId topicId
              (answer_isCorrect a) (answer_difficulty a) (answer_timeTaken a))
    as (db1 & state & Hup & (row & Hrow & Hscore) & Hach).
  rewrite Hup in Hrun. cbn in Hrun.
  destruct answers as [|a' answers'].
  - injection Hrun as <-. exists row. split; [done|].
    rewrite Hnone in Hach. rewrite Hscore.
    destruct (masteryAchievedAt db userId topicId); [done|].
    destruct (Qle_bool_reflect 0.8 (MasteryState.mastery_score state)); [done|].
    lra.
  - by apply (IH db1).
Qed.

(** C5.  For any run of updates followed by one more update, taking the
    database from [db1] to [db2]: the run and the update return; an instant
    already in [mastery_achieved_at], at the start of the run or before the
    last update, is still there afterwards, unchanged, whatever the new
    score; and when the column was unset before the update it becomes the
    instant of the update exactly when the updated score is at least 0.8,
    and stays unset otherwise.  While the column is unset every update so
    far has stored a score below 0.8, so the update that sets it is the
    first to reach 0.8; it is set at most once. *)
Theorem masteryAchievedAt_set_once db userId topicId answers now isCorrect
    difficulty timeTaken :
  exists db1 db2 state,
    updateMasteryAll db userId topicId answers = Ok db1
    /\ MasteryService.updateMastery db1 now userId topicId isCorrect difficulty
         timeTaken = Ok (db2, state)
    /\ (forall t, masteryAchievedAt db userId topicId = Some t ->
          masteryAchievedAt db2 userId topicId = Some t)
    /\ (forall t, masteryAchievedAt db1 userId topicId = Some t ->
          masteryAchievedAt db2 userId topicId = Some t)
    /\ (masteryAchievedAt db1 userId topicId = None ->
          masteryAchievedAt db2 userId topicId
          = if MasteryState.mastery_score state >=? 0.8 then Some now
            else None)
    /\ (masteryAchievedAt db1 userId topicId = None -> answers <> [] ->
          exists row,
            user_topic_mastery db1 !! (userId, topicId) = Some row
            /\ mastery_score row < 0.8).
Proof.
  destruct (updateMasteryAll_total db userId topicId answers) as [db1 Hrun].
  destruct (updateMastery_achieved db1 now userId topicId isCorrect difficulty
              timeTaken) as (db2 & state & Hup & _ & Hach).
  exists db1, db2, state. split; [done|]. split; [done|].
  split; [|split; [|split]].
  - intros t Ht. rewrite Hach.
    by rewrite (updateMasteryAll_achieved_kept _ _ _ _ _ _ Hrun Ht).
  - intros t Ht. by rewrite Hach, Ht.
  - intros Hnone. by rewrite Hach, Hnone.
  - intros Hnone Hne. by eapply updateMasteryAll_unset_below.
Qed.

(** A learner reaches 0.8 at instant 2000, then fails an answer ten days
    later and falls to 0.3044: the instant recorded stays. *)
Example achieved_survives_a_drop :
  exists db1 db2 row1 row2,
    updateMasteryAll nearly_there_db alice budgeting [answer 2000 true 1 20]
    = Ok db1
    /\ user_topic_mastery db1 !! (alice, budgeting) = Some row1
    /\ mastery_score row1 == 0.8938
    /\ mastery_achieved_at row1 = Some 2000%Z
    /\ updateMasteryAll db1 alice budgeting [answer 864002000 false 0.5 40]
       = Ok db2
    /\ user_topic_mastery db2 !! (alice, budgeting) = Some row2
    /\ mastery_score row2 == 0.3044
    /\ mastery_achieved_at row2 = Some 2000%Z.
Proof.
  do 4 eexists.
  split; [by vm_compute|]. split; [by vm_compute|]. split; [by vm_compute|].
  split; [reflexivity|].
  split; [by vm_compute|]. split; [by vm_compute|]. split; [by vm_compute|].
  reflexivity.
Qed.

(** ** The first answer *)

(** C6.  From the default state (the row is absent, or holds the defaults
    with no last attempt), one update with a correct answer of difficulty
    0.5 taking 30 seconds returns, and the mastery score it returns and
    stores is 0.1 + 0.15 * 1.0 * 1.0 * (1 - 0.1) = 0.235, at any instant:
    no time-based decay applies. *)
Theorem first_correct_answer_scores_0235 db now userId topicId :
  currentRow db userId topicId = MasteryService.initialMastery ->
  exists db' state row,
    MasteryService.updateMastery db now userId topicId true 0.5 30
    = Ok (db', state)
    /\ MasteryState.mastery_score state == 0.1 + 0.15 * 1.0 * 1.0 * (1 - 0.1)
    /\ MasteryState.mastery_score state == 0.235
    /\ user_topic_mastery db' !! (userId, topicId) = Some row
    /\ mastery_score row == 0.235.
Proof.
  intros Hinit. rewrite updateMastery_total, Hinit.
  eexists. eexists. eexists. split; [done|].
  split; [by vm_compute|]. split; [by vm_compute|].
  split; [by erewrite lookup_updated|]. by vm_compute.
Qed.

Lemma first_correct_answer_scores_0235_witness :
  currentRow empty_db alice budgeting = MasteryService.initialMastery
  /\ exists db' state row,
       MasteryService.updateMastery empty_db 1000 alice budgeting true 0.5 30
       = Ok (db', state)
       /\ MasteryState.mastery_score state == 0.1 + 0.15 * 1.0 * 1.0 * (1 - 0.1)
       /\ MasteryState.mastery_score state == 0.235
       /\ user_topic_mastery db' !! (alice, budgeting) = Some row
       /\ mastery_score row == 0.235.
Proof.
  split; [reflexivity|].
  exact (first_correct_answer_scores_0235 empty_db 1000 alice budgeting eq_refl).
Defined.

(** ** BanditService.updateModel *)

Lemma decay_invariant decayFactor p :
  ArmInvariant (BanditService.decay decayFactor p).
Proof. unfold ArmInvariant, BanditService.decay. cbn. split; minmax; lra. Qed.

(** Whatever the parameters were, each arm ends at or above the floor. *)
Lemma updatedArmParameters_invariant armParams isCorrect difficulty :
  BanditInvariant
    (BanditService.updatedArmParameters armParams isCorrect difficulty).
Proof.
  unfold BanditInvariant, BanditService.updatedArmParameters. cbn.
  split; [|split]; apply decay_invariant.
Qed.

(** With a model on record, [updateModel] returns and stores a model whose
    arms are at or above the floor. *)
Lemma updateModel_stored db now userId isCorrect difficulty context model :
  bandit_models db !! userId = Some model ->
  exists db' model',
    BanditService.updateModel db now userId isCorrect difficulty context = Ok db'
    /\ bandit_models db' !! userId = Some model'
    /\ BanditInvariant (arm_parameters model').
Proof.
  intros Hm. unfold BanditService.updateModel. rewrite Hm.
  eexists. eexists. split; [reflexivity|]. cbn.
  split; [apply lookup_insert_eq|]. apply updatedArmParameters_invariant.
Qed.

Lemma updateModel_total db now userId isCorrect difficulty context :
  exists db',
    BanditService.updateModel db now userId isCorrect difficulty context = Ok db'.
Proof.
  unfold BanditService.updateModel.
  destruct (bandit_models db !! userId); eexists; done.
Qed.

(** C4.  When every arm of the user's model has alpha >= 1 and beta >= 1,
    any finite sequence of [updateModel] calls, whatever the outcomes,
    difficulties and contexts, returns and leaves a model in which every
    arm still has alpha >= 1 and beta >= 1. *)
Theorem bandit_floor_preserved db userId model answers :
  bandit_models db !! userId = Some model ->
  BanditInvariant (arm_parameters model) ->
  exists db' model',
    updateModelAll db userId answers = Ok db'
    /\ bandit_models db' !! userId = Some model'
    /\ BanditInvariant (arm_parameters model').
Proof.
  revert db model.
  induction answers as [|[a context] answers IH]; intros db model Hm Hinv.
  - by exists db, model.
  - cbn [updateModelAll].
    destruct (updateModel_stored db (answer_now a) userId (answer_isCorrect a)
                (answer_difficulty a) context model Hm)
      as (db1 & model1 & Hup & Hm1 & Hinv1).
    rewrite Hup. cbn. by apply (IH db1 model1).
Qed.

Lemma bandit_floor_preserved_witness :
  bandit_models practised_db !! alice = Some freshModel
  /\ BanditInvariant (arm_parameters freshModel)
  /\ exists db' model',
       updateModelAll practised_db alice
         [(answer 2000 true 0.3 30, neutralContext);
          (answer 3000 false 0.9 50, strugglingContext)] = Ok db'
       /\ bandit_models db' !! alice = Some model'
       /\ BanditInvariant (arm_parameters model').
Proof.
  assert (Hinv : BanditInvariant (arm_parameters freshModel))
    by (repeat split; cbn; lra).
  split; [reflexivity|]. split; [exact Hinv|].
  exact (bandit_floor_preserved practised_db alice freshModel _ eq_refl Hinv).
Defined.

(** C9.  Without a model for the user, [updateModel] returns, it does not
    throw, and the database it leaves is the one it found: no arm
    parameters, no [total_interactions], no [last_updated] are written. *)
Theorem updateModel_without_model_is_noop db now userId isCorrect difficulty
    context :
  bandit_models db !! userId = None ->
  BanditService.updateModel db now userId isCorrect difficulty context = Ok db.
Proof. intros H. unfold BanditService.updateModel. by rewrite H. Qed.

Lemma updateModel_without_model_is_noop_witness :
  bandit_models empty_db !! alice = None
  /\ BanditService.updateModel empty_db 2000 alice true 0.3 neutralContext
     = Ok empty_db.
Proof.
  split; [reflexivity|].
  exact (updateModel_without_model_is_noop empty_db 2000 alice true 0.3
           neutralContext eq_refl).
Defined.

(** ** BanditService.recommendQuestion: the sampler's arguments *)

(** How far each rule set can pull an arm's alpha down. *)
Lemma calculateContextualAdjustments_lower context :
  let adjustments := BanditService.calculateContextualAdjustments context in
  -1.5 <= easy adjustments /\ -1.0 <= medium adjustments
  /\ -3.3 <= hard adjustments.
Proof.
  unfold BanditService.calculateContextualAdjustments, BanditService.nudge.
  repeat match goal with
         | |- context [if ?c then _ else _] => destruct c
         end;
    cbn -[Qplus Qle]; (split; [|split]); lra.
Qed.

(** The calls [recommendQuestion] makes: one per arm, in the order easy,
    medium, hard, with the arguments [sampleBetaArguments] lists. *)
Lemma sampleBetaCalls_arguments db now userId context :
  let args :=
    BanditService.sampleBetaArguments (currentArmParameters db userId)
      (BanditService.calculateContextualAdjustments context) in
  sampleBetaCalls db now userId context
  = Ok [easy args; medium args; hard args].
Proof.
  unfold sampleBetaCalls, BanditService.recommendQuestion,
    currentArmParameters, BanditService.initializeBanditModel.
  destruct (bandit_models db !! userId) as [model|]; reflexivity.
Qed.

(** C2, as the code has it.  When the parameters [recommendQuestion]
    samples from satisfy the invariant, it makes three [sampleBeta] calls;
    the second argument of each is at least 1, hence positive; the first
    one, alpha + adjustment, is at least alpha - 1.5 for the easy arm,
    alpha - 1.0 for the medium arm and alpha - 3.3 for the hard arm, so all
    three are positive once the alphas exceed 1.5, 1.0 and 3.3. *)
Theorem sampler_arguments_bounds db now userId context :
  BanditInvariant (currentArmParameters db userId) ->
  exists call_easy call_medium call_hard,
    sampleBetaCalls db now userId context
    = Ok [call_easy; call_medium; call_hard]
    /\ (1 <= snd call_easy /\ 1 <= snd call_medium /\ 1 <= snd call_hard)
    /\ (alpha (easy (currentArmParameters db userId)) - 1.5 <= fst call_easy
        /\ alpha (medium (currentArmParameters db userId)) - 1.0
           <= fst call_medium
        /\ alpha (hard (currentArmParameters db userId)) - 3.3
           <= fst call_hard)
    /\ (1.5 < alpha (easy (currentArmParameters db userId)) ->
        1.0 < alpha (medium (currentArmParameters db userId)) ->
        3.3 < alpha (hard (currentArmParameters db userId)) ->
        0 < fst call_easy /\ 0 < fst call_medium /\ 0 < fst call_hard).
Proof.
  intros ([He1 He2] & [Hm1 Hm2] & [Hh1 Hh2]).
  do 3 eexists. split; [apply sampleBetaCalls_arguments|].
  pose proof (calculateContextualAdjustments_lower context) as (Ae & Am & Ah).
  unfold BanditService.sampleBetaArguments.
  cbn -[Qplus Qle Qlt Qminus] in *.
  set (adjustments := BanditService.calculateContextualAdjustments context) in *.
  clearbody adjustments.
  repeat split; lra.
Qed.

Lemma sampler_arguments_bounds_witness :
  BanditInvariant (currentArmParameters seasoned_db alice)
  /\ exists call_easy call_medium call_hard,
       sampleBetaCalls seasoned_db 5000 alice strugglingContext
       = Ok [call_easy; call_medium; call_hard]
       /\ (1 <= snd call_easy /\ 1 <= snd call_medium /\ 1 <= snd call_hard)
       /\ (alpha (easy (currentArmParameters seasoned_db alice)) - 1.5
           <= fst call_easy
           /\ alpha (medium (currentArmParameters seasoned_db alice)) - 1.0
              <= fst call_medium
           /\ alpha (hard (currentArmParameters seasoned_db alice)) - 3.3
              <= fst call_hard)
       /\ (1.5 < alpha (easy (currentArmParameters seasoned_db alice)) ->
           1.0 < alpha (medium (currentArmParameters seasoned_db alice)) ->
           3.3 < alpha (hard (currentArmParameters seasoned_db alice)) ->
           0 < fst call_easy /\ 0 < fst call_medium /\ 0 < fst call_hard).
Proof.
  assert (H : BanditInvariant (currentArmParameters seasoned_db alice))
    by (vm_compute; repeat split; discriminate).
  split; [exact H|].
  exact (sampler_arguments_bounds seasoned_db 5000 alice strugglingContext H).
Defined.

(** C2, as stated, fails.  The model [recommendQuestion] creates for a new
    user satisfies the invariant, and for a struggling learner the call
    for the hard arm has first argument
    1 - 1.0 - 0.8 - 0.5 - 0.7 - 0.3 = -2.3. *)
Lemma sampler_arguments_not_positive :
  BanditInvariant (currentArmParameters empty_db alice)
  /\ (exists call_easy call_medium call_hard,
        sampleBetaCalls empty_db 5000 alice strugglingContext
        = Ok [call_easy; call_medium; call_hard]
        /\ fst call_hard == -2.3)
  /\ ~ SamplerArgumentsPositive empty_db 5000 alice strugglingContext.
Proof.
  split; [vm_compute; repeat split; discriminate|]. split.
  - do 3 eexists. split; [apply sampleBetaCalls_arguments|]. by vm_compute.
  - intros (calls & Hcalls & Hpos).
    rewrite sampleBetaCalls_arguments in Hcalls. injection Hcalls as <-.
    apply Forall_cons_1 in Hpos as [_ Hpos].
    apply Forall_cons_1 in Hpos as [_ Hpos].
    apply Forall_cons_1 in Hpos as [[Hneg _] _].
    vm_compute in Hneg. discriminate.
Qed.

(** ** MasteryService.getMasteryInsights *)

Lemma getMasteryLevel_spec score :
  MasteryService.getMasteryLevel score = Spec.level score.
Proof.
  unfold MasteryService.getMasteryLevel, Spec.level.
  compare_cases; first [reflexivity | lra].
Qed.

Lemma clamp_spec x lo hi :
  lo <= hi -> Math.max lo (Math.min hi x) == Spec.clamp x lo hi.
Proof. intros H. unfold Spec.clamp. compare_cases; minmax; lra. Qed.

(** C7.  For a stored row, the insights give predictedSuccessRate =
    min(0.95, masteryScore + (1 - confidenceInterval) * 0.1),
    recommendedDifficulty = clamp(masteryScore + 0.1 -
    confidenceInterval * 0.2, 0.1, 0.9), and the level label of the
    thresholds Novice (< 0.2), Beginning (< 0.4), Developing (< 0.6),
    Proficient (< 0.8), Expert (>= 0.8). *)
Theorem insights_follow_the_formulas db userId topicId mastery :
  user_topic_mastery db !! (userId, topicId) = Some mastery ->
  exists insights,
    MasteryService.getMasteryInsights db userId topicId = Some insights
    /\ MasteryService.predicted_success_rate insights
       == Spec.predictedSuccessRate (mastery_score mastery)
            (confidence_interval mastery)
    /\ MasteryService.recommended_difficulty insights
       == Spec.recommendedDifficulty (mastery_score mastery)
            (confidence_interval mastery)
    /\ MasteryService.mastery_level insights
       = Spec.level (mastery_score mastery).
Proof.
  intros Hm. unfold MasteryService.getMasteryInsights. rewrite Hm.
  eexists. split; [reflexivity|]. cbn. split; [reflexivity|]. split.
  - apply clamp_spec. lra.
  - apply getMasteryLevel_spec.
Qed.

Lemma insights_follow_the_formulas_witness :
  user_topic_mastery practised_db !! (alice, budgeting) = Some practised
  /\ exists insights,
       MasteryService.getMasteryInsights practised_db alice budgeting
       = Some insights
       /\ MasteryService.predicted_success_rate insights
          == Spec.predictedSuccessRate (mastery_score practised)
               (confidence_interval practised)
       /\ MasteryService.recommended_difficulty insights
          == Spec.recommendedDifficulty (mastery_score practised)
               (confidence_interval practised)
       /\ MasteryService.mastery_level insights
          = Spec.level (mastery_score practised).
Proof.
  split; [reflexivity|].
  exact (insights_follow_the_formulas practised_db alice budgeting practised
           eq_refl).
Defined.

Lemma js_div_finite a b : ~ b == 0 -> js_div a b = Finite (a / b).
Proof. intros H. unfold js_div. by compare_cases. Qed.

Lemma inject_Z_nonzero k : (0 < k)%Z -> ~ inject_Z k == 0.
Proof.
  intros Hk H. unfold Qeq in H. cbn in H. lia.
Qed.

(** The quotient of the strengths and improvement rules is always finite. *)
Lemma ruleAccuracy_finite mastery :
  MasteryService.ruleAccuracy mastery
  = Finite (inject_Z (correct_answers mastery)
            / inject_Z (Z.max 1 (attempts_count mastery))).
Proof. apply js_div_finite, inject_Z_nonzero. lia. Qed.

(** The two rules on the accuracy, as conditions on their quotient. *)
Lemma high_accuracy_listed mastery :
  "High accuracy in responses" ∈ MasteryService.identifyStrengths mastery
  <-> js_geb (MasteryService.ruleAccuracy mastery) 0.8 = true.
Proof.
  unfold MasteryService.identifyStrengths.
  destruct (mastery_score mastery >=? 0.7),
    (js_geb (MasteryService.ruleAccuracy mastery) 0.8),
    (learning_rate mastery <=? 0.1); list_membership.
Qed.

Lemma focus_on_accuracy_listed mastery :
  "Focus on accuracy improvement"
    ∈ MasteryService.identifyImprovementAreas mastery
  <-> js_ltb (MasteryService.ruleAccuracy mastery) 0.6 = true.
Proof.
  unfold MasteryService.identifyImprovementAreas.
  destruct (mastery_score mastery <? 0.5),
    (js_ltb (MasteryService.ruleAccuracy mastery) 0.6),
    (confidence_interval mastery >? 0.3); list_membership.
Qed.

Lemma Qlt_bool_lt a b : (a <? b) = true <-> a < b.
Proof.
  unfold Qlt_bool. rewrite negb_true_iff. split.
  - intros H. apply Qnot_le_lt. intros Hle. apply Qle_bool_iff in Hle.
    congruence.
  - intros H. destruct (Qle_bool b a) eqn:E; [|reflexivity].
    apply Qle_bool_iff in E. lra.
Qed.

(** With a divisor of 1 the quotient is the number of correct answers. *)
Lemma whole_quotient_ge (c : Z) :
  0.8 <= inject_Z c / inject_Z 1 <-> (1 <= c)%Z.
Proof.
  unfold Qdiv. change (/ inject_Z 1) with 1. rewrite Qmult_1_r. split.
  - intros H. destruct (Z_le_gt_dec 1 c) as [|Hc]; [done|].
    assert (inject_Z c <= inject_Z 0) by (rewrite <- Zle_Qle; lia).
    change (inject_Z 0) with 0 in *. lra.
  - intros H. assert (inject_Z 1 <= inject_Z c) by (by rewrite <- Zle_Qle).
    change (inject_Z 1) with 1 in *. lra.
Qed.

Lemma whole_quotient_lt (c : Z) :
  inject_Z c / inject_Z 1 < 0.6 <-> (c <= 0)%Z.
Proof.
  unfold Qdiv. change (/ inject_Z 1) with 1. rewrite Qmult_1_r. split.
  - intros H. destruct (Z_le_gt_dec c 0) as [|Hc]; [done|].
    assert (inject_Z 1 <= inject_Z c) by (rewrite <- Zle_Qle; lia).
    change (inject_Z 1) with 1 in *. lra.
  - intros H. assert (inject_Z c <= inject_Z 0) by (by rewrite <- Zle_Qle).
    change (inject_Z 0) with 0 in *. lra.
Qed.

(** C10.  For a stored row, no division of the insights has a zero
    divisor.  The accuracy and the average time are finite numbers, and 0
    when attempts_count is 0.  The rules of the strengths and of the
    improvement areas divide by max(1, attempts_count), which is never
    zero: 'High accuracy in responses' is listed exactly when
    correct_answers / max(1, attempts_count) is at least 0.8, and 'Focus
    on accuracy improvement' exactly when that quotient is below 0.6.  So
    with attempts_count = 0 the divisor is 1: the first is listed exactly
    when correct_answers is at least 1 and the second exactly when it is
    at most 0; a row without attempts and without correct answers gets the
    second, where a quotient 0 / 0 would satisfy neither rule. *)
Theorem insights_divisions_guarded db userId topicId mastery :
  user_topic_mastery db !! (userId, topicId) = Some mastery ->
  exists insights,
    MasteryService.getMasteryInsights db userId topicId = Some insights
    /\ (exists accuracy avgTime,
          MasteryService.accuracy insights = Finite accuracy
          /\ MasteryService.avg_time_per_question insights = Finite avgTime)
    /\ MasteryService.ruleAccuracy mastery
       = Finite (inject_Z (correct_answers mastery)
                 / inject_Z (Z.max 1 (attempts_count mastery)))
    /\ ("High accuracy in responses" ∈ MasteryService.strengths insights
        <-> 0.8 <= inject_Z (correct_answers mastery)
                   / inject_Z (Z.max 1 (attempts_count mastery)))
    /\ ("Focus on accuracy improvement"
          ∈ MasteryService.improvement_areas insights
        <-> inject_Z (correct_answers mastery)
            / inject_Z (Z.max 1 (attempts_count mastery)) < 0.6)
    /\ (attempts_count mastery = 0%Z ->
        MasteryService.accuracy insights = Finite 0
        /\ MasteryService.avg_time_per_question insights = Finite 0
        /\ Z.max 1 (attempts_count mastery) = 1%Z
        /\ ("High accuracy in responses" ∈ MasteryService.strengths insights
            <-> (1 <= correct_answers mastery)%Z)
        /\ ("Focus on accuracy improvement"
              ∈ MasteryService.improvement_areas insights
            <-> (correct_answers mastery <= 0)%Z)).
Proof.
  intros Hm. unfold MasteryService.getMasteryInsights. rewrite Hm.
  pose proof (ruleAccuracy_finite mastery) as Hrule.
  assert (Hhigh :
    "High accuracy in responses" ∈ MasteryService.identifyStrengths mastery
    <-> 0.8 <= inject_Z (correct_answers mastery)
               / inject_Z (Z.max 1 (attempts_count mastery))).
  { rewrite high_accuracy_listed, Hrule. cbn [js_geb]. apply Qle_bool_iff. }
  assert (Hfocus :
    "Focus on accuracy improvement"
      ∈ MasteryService.identifyImprovementAreas mastery
    <-> inject_Z (correct_answers mastery)
        / inject_Z (Z.max 1 (attempts_count mastery)) < 0.6).
  { rewrite focus_on_accuracy_listed, Hrule. cbn [js_ltb]. apply Qlt_bool_lt. }
  eexists. split; [reflexivity|].
  cbn [MasteryService.insightsOf MasteryService.accuracy
       MasteryService.avg_time_per_question MasteryService.strengths
       MasteryService.improvement_areas].
  split.
  { destruct (Z.gtb_spec (attempts_count mastery) 0) as [Hpos|Hle].
    - rewrite !js_div_finite by (apply inject_Z_nonzero; lia). eauto.
    - eauto. }
  split; [exact Hrule|]. split; [exact Hhigh|]. split; [exact Hfocus|].
  intros H0. rewrite H0 in Hhigh, Hfocus |- *.
  change (Z.max 1 0) with 1%Z in *.
  split; [reflexivity|]. split; [reflexivity|]. split; [reflexivity|].
  split.
  - rewrite Hhigh. apply whole_quotient_ge.
  - rewrite Hfocus. apply whole_quotient_lt.
Qed.

Lemma insights_divisions_guarded_witness :
  user_topic_mastery enrolled_db !! (alice, budgeting)
  = Some MasteryService.initialMastery
  /\ exists insights,
       MasteryService.getMasteryInsights enrolled_db alice budgeting
       = Some insights
       /\ MasteryService.accuracy insights = Finite 0
       /\ MasteryService.avg_time_per_question insights = Finite 0
       /\ ~ ("High accuracy in responses" ∈ MasteryService.strengths insights)
       /\ "Focus on accuracy improvement"
            ∈ MasteryService.improvement_areas insights.
Proof.
  split; [reflexivity|].
  destruct (insights_divisions_guarded enrolled_db alice budgeting
              MasteryService.initialMastery eq_refl)
    as (insights & Hcall & _ & _ & _ & _ & Hzero).
  destruct (Hzero eq_refl) as (Hacc & Havg & _ & Hhigh & Hfocus).
  exists insights. split; [exact Hcall|]. split; [exact Hacc|].
  split; [exact Havg|]. split.
  - rewrite Hhigh. vm_compute. by intros H.
  - apply Hfocus. vm_compute. discriminate.
Defined.

(** ** AdaptiveService.processFeedback *)

Lemma updatedRow_attempts now mastery state isCorrect timeTaken :
  attempts_count (MasteryService.updatedRow now mastery state isCorrect timeTaken)
  = (attempts_count mastery + 1)%Z.
Proof. reflexivity. Qed.

Lemma updateMastery_attempts db db' state now userId topicId isCorrect
    difficulty timeTaken :
  MasteryService.updateMastery db now userId topicId isCorrect difficulty
    timeTaken = Ok (db', state) ->
  attempts_count (currentRow db' userId topicId)
  = (attempts_count (currentRow db userId topicId) + 1)%Z
  /\ bandit_models db' = bandit_models db.
Proof.
  rewrite updateMastery_total. intros H. injection H as <- <-.
  split; [|reflexivity].
  unfold currentRow at 1. erewrite lookup_updated by done. reflexivity.
Qed.

Lemma bandit_updateModel_mastery db db' now userId isCorrect difficulty context :
  BanditService.updateModel db now userId isCorrect difficulty context = Ok db' ->
  user_topic_mastery db' = user_topic_mastery db.
Proof.
  unfold BanditService.updateModel.
  destruct (bandit_models db !! userId); intros H; by injection H as <-.
Qed.

(** [(timeTaken || 30) || 30] is [timeTaken || 30]. *)
Lemma or_default_idempotent t :
  AdaptiveService.or_default (AdaptiveService.or_default t 30) 30
  = AdaptiveService.or_default t 30.
Proof.
  unfold AdaptiveService.or_default.
  destruct (Qeq_bool t 0) eqn:E; [reflexivity|]. by rewrite E.
Qed.

(** What one call of [processFeedback] does to the two tables: one bandit
    update, then [updateMastery] twice, the second time on the row the
    first one stored; the answer is counted two times. *)
Lemma processFeedback_steps db hour now1 now2 userId topicId feedbackData :
  let isCorrect := FeedbackData.isCorrect feedbackData in
  let difficulty := FeedbackData.difficulty feedbackData in
  let timeTaken := FeedbackData.timeTaken feedbackData in
  let context :=
    AdaptiveService.withTimeTaken
      (AdaptiveService.buildUserContext db hour userId topicId)
      (AdaptiveService.or_default timeTaken 30) in
  exists db_bandit db_once state_once db_twice state_twice feedback,
    BanditService.updateModel db now1 userId isCorrect difficulty context
    = Ok db_bandit
    /\ MasteryService.updateMastery db_bandit now1 userId topicId isCorrect
         difficulty (AdaptiveService.or_default timeTaken 30)
       = Ok (db_once, state_once)
    /\ MasteryService.updateMastery db_once now2 userId topicId isCorrect
         difficulty timeTaken
       = Ok (db_twice, state_twice)
    /\ AdaptiveService.processFeedback db hour now1 now2 userId topicId
         feedbackData = Ok (db_twice, feedback)
    /\ AdaptiveService.mastery_update feedback = state_twice
    /\ bandit_models db_twice = bandit_models db_bandit
    /\ attempts_count (currentRow db_twice userId topicId)
       = (attempts_count (currentRow db userId topicId) + 2)%Z.
Proof.
  intros isCorrect difficulty timeTaken context.
  destruct (updateModel_total db now1 userId isCorrect difficulty context)
    as [db_bandit Hb].
  pose proof (updateMastery_total db_bandit now1 userId topicId isCorrect
                difficulty (AdaptiveService.or_default timeTaken 30)) as H1.
  cbv zeta in H1.
  set (db_once := with_user_topic_mastery db_bandit _) in H1.
  set (state_once := MasteryService.applyBKTUpdate _ _ _ _ _) in H1.
  pose proof (updateMastery_total db_once now2 userId topicId isCorrect
                difficulty timeTaken) as H2.
  cbv zeta in H2.
  set (db_twice := with_user_topic_mastery db_once _) in H2.
  set (state_twice := MasteryService.applyBKTUpdate _ _ _ _ _) in H2.
  exists db_bandit, db_once, state_once, db_twice, state_twice.
  eexists. split; [exact Hb|]. split; [exact H1|]. split; [exact H2|].
  split.
  - unfold AdaptiveService.processFeedback, AdaptiveService.updateModel.
    fold isCorrect difficulty timeTaken. cbn zeta. fold context.
    rewrite Hb. cbn. rewrite or_default_idempotent, H1. cbn.
    rewrite H2. cbn. reflexivity.
  - split; [reflexivity|].
    destruct (updateMastery_attempts _ _ _ _ _ _ _ _ _ H2) as [-> E2].
    destruct (updateMastery_attempts _ _ _ _ _ _ _ _ _ H1) as [-> E1].
    split; [congruence|].
    unfold currentRow. rewrite (bandit_updateModel_mastery _ _ _ _ _ _ _ Hb).
    lia.
Qed.

(** The quiz service's path applies each update once. *)
Lemma updateModel_updates_mastery_once db now userId topicId isCorrect
    difficulty context :
  exists db_bandit db' state,
    BanditService.updateModel db now userId isCorrect difficulty context
    = Ok db_bandit
    /\ MasteryService.updateMastery db_bandit now userId topicId isCorrect
         difficulty
         (match UserContext.timeTaken context with
          | Some t => AdaptiveService.or_default t 30
          | None => 30
          end) = Ok (db', state)
    /\ AdaptiveService.updateModel db now userId topicId isCorrect difficulty
         context = Ok db'
    /\ attempts_count (currentRow db' userId topicId)
       = (attempts_count (currentRow db userId topicId) + 1)%Z.
Proof.
  destruct (updateModel_total db now userId isCorrect difficulty context)
    as [db_bandit Hb].
  pose proof (updateMastery_total db_bandit now userId topicId isCorrect
                difficulty
                (match UserContext.timeTaken context with
                 | Some t => AdaptiveService.or_default t 30
                 | None => 30
                 end)) as H1.
  cbv zeta in H1.
  eexists db_bandit, _, _. split; [exact Hb|]. split; [exact H1|].
  split.
  - unfold AdaptiveService.updateModel. rewrite Hb. cbn. by rewrite H1.
  - destruct (updateMastery_attempts _ _ _ _ _ _ _ _ _ H1) as [-> _].
    unfold currentRow. by rewrite (bandit_updateModel_mastery _ _ _ _ _ _ _ Hb).
Qed.

(** C1, at a concrete input.  A learner new to the topic submits one correct
    answer (difficulty 0.5, 30 seconds).  The bandit model is updated once.
    One application of [updateMastery] would store attempts_count = 1 and
    mastery_score = 0.235; [processFeedback] stores attempts_count = 2,
    correct_answers = 2 and mastery_score = 0.3475, the result of applying
    the update twice.  The path of the quiz service,
    [AdaptiveService.updateModel], applies it once. *)
Theorem processFeedback_counts_one_answer_twice :
  exists db_once state_once db' feedback row_once row model,
    MasteryService.updateMastery newcomer_db 1000 alice budgeting true 0.5 30
    = Ok (db_once, state_once)
    /\ user_topic_mastery db_once !! (alice, budgeting) = Some row_once
    /\ attempts_count row_once = 1%Z
    /\ mastery_score row_once == 0.235
    /\ AdaptiveService.processFeedback newcomer_db 10 1000 1000 alice budgeting
         oneAnswer = Ok (db', feedback)
    /\ user_topic_mastery db' !! (alice, budgeting) = Some row
    /\ attempts_count row = 2%Z
    /\ correct_answers row = 2%Z
    /\ mastery_score row == 0.3475
    /\ bandit_models db' !! alice = Some model
    /\ total_interactions model = 1%Z.
Proof.
  do 7 eexists.
  split; [by vm_compute|]. split; [by vm_compute|].
  split; [reflexivity|]. split; [by vm_compute|].
  split; [by vm_compute|]. split; [by vm_compute|].
  split; [reflexivity|]. split; [reflexivity|]. split; [by vm_compute|].
  split; [by vm_compute|]. reflexivity.
Qed.

(** * Further properties *)

(** ** MasteryService: the other effects of an update *)

Lemma round4_mono x y : x <= y -> round4 x <= round4 y.
Proof.
  intros H. rewrite !round4_scaled.
  assert (Hr : Math.round (x * 10000) <= Math.round (y * 10000)).
  { unfold Math.round. rewrite <- Zle_Qle. apply Qfloor_resp_le. lra. }
  lra.
Qed.

Lemma round4_four_decimals x : FourDecimals (round4 x).
Proof.
  unfold FourDecimals.
  apply (round4_fixed (Qfloor (x * 10000 + 0.5))). apply round4_scaled.
Qed.

(** X1.  An incorrect answer, on a state in its ranges with a forgetting
    rate that is not negative and no negative elapsed time: the update
    returns; the score it stores is at most the previous score rounded to
    four decimals; the confidence interval strictly widens unless it is at
    its ceiling 0.5, where it stays. *)
Theorem incorrect_answer_lowers_confidence db now userId topicId difficulty
    timeTaken :
  StoredInRange db userId topicId ->
  ForgettingRateNonNegative db userId topicId ->
  NotBefore (lastAttempt db userId topicId) now ->
  exists db' state after,
    MasteryService.updateMastery db now userId topicId false difficulty
      timeTaken = Ok (db', state)
    /\ user_topic_mastery db' !! (userId, topicId) = Some after
    /\ let before := currentRow db userId topicId in
       mastery_score after <= round4 (mastery_score before)
       /\ (confidence_interval before < 0.5 ->
           confidence_interval before < confidence_interval after)
       /\ (confidence_interval before == 0.5 ->
           confidence_interval after == 0.5).
Proof.
  intros Hdb Hf Hnow. rewrite updateMastery_total.
  eexists. eexists. eexists. split; [reflexivity|].
  split; [by erewrite lookup_updated|].
  pose proof (currentRow_in_range _ _ _ Hdb) as [].
  pose proof (currentRow_forgetting_rate _ _ _ Hf) as Hrate.
  rewrite <- currentRow_last_attempt in Hnow.
  apply getTimeSinceLastAttempt_nonneg in Hnow.
  set (before := currentRow db userId topicId) in *. clearbody before.
  cbn -[round4 Qmax Qmin Qplus Qmult Qminus Qdiv].
  set (elapsed := MasteryService.getTimeSinceLastAttempt _ _) in *.
  clearbody elapsed.
  assert (Hloss : 0 <= forgetting_rate before * (elapsed / (24 * 60 * 60 * 1000))).
  { apply Qmult_le_0_compat; [done|]. unfold Qdiv.
    change (/ (24 * 60 * 60 * 1000)) with (1 # 86400000). lra. }
  set (loss := forgetting_rate before * (elapsed / _)) in *. clearbody loss.
  assert (Herr : 0 <= forgetting_rate before * mastery_score before * 2).
  { assert (0 <= forgetting_rate before * mastery_score before); [|lra].
    apply Qmult_le_0_compat; lra. }
  set (err := forgetting_rate before * mastery_score before * 2) in *.
  clearbody err.
  set (ci := Math.min 0.5 (confidence_interval before * 1.1)).
  pose proof (round4_lower ci) as Hci.
  split; [|split].
  - apply round4_mono. minmax; lra.
  - intros H.
    assert (confidence_interval before * 1.1 <= ci \/ ci == 0.5) as [Hc|Hc]
      by (unfold ci; minmax; lra).
    + lra.
    + rewrite (round4_fixed 5000 ci) by (rewrite Hc; reflexivity). lra.
  - intros H. assert (Hc : ci == 0.5) by (unfold ci; minmax; lra).
    rewrite (round4_fixed 5000 ci) by (rewrite Hc; reflexivity). exact Hc.
Qed.

Lemma incorrect_answer_lowers_confidence_witness :
  StoredInRange practised_db alice budgeting
  /\ ForgettingRateNonNegative practised_db alice budgeting
  /\ NotBefore (lastAttempt practised_db alice budgeting) 5000
  /\ exists db' state after,
       MasteryService.updateMastery practised_db 5000 alice budgeting false
         0.6 45 = Ok (db', state)
       /\ user_topic_mastery db' !! (alice, budgeting) = Some after
       /\ let before := currentRow practised_db alice budgeting in
          mastery_score after <= round4 (mastery_score before)
          /\ (confidence_interval before < 0.5 ->
              confidence_interval before < confidence_interval after)
          /\ (confidence_interval before == 0.5 ->
              confidence_interval after == 0.5).
Proof.
  assert (Hdb : StoredInRange practised_db alice budgeting).
  { intros mastery Hm. vm_compute in Hm. injection Hm as <-.
    split; cbn; lra. }
  assert (Hf : ForgettingRateNonNegative practised_db alice budgeting).
  { intros mastery Hm. vm_compute in Hm. injection Hm as <-. cbn. lra. }
  assert (Hnow : NotBefore (lastAttempt practised_db alice budgeting) 5000).
  { vm_compute. discriminate. }
  split; [exact Hdb|]. split; [exact Hf|]. split; [exact Hnow|].
  exact (incorrect_answer_lowers_confidence practised_db 5000 alice budgeting
           0.6 45 Hdb Hf Hnow).
Defined.

(** X2.  The learning rate adapts to the outcome alone, whatever the
    difficulty, the time taken and the time elapsed: from a state in its
    ranges a correct answer strictly lowers it unless it is at its floor
    0.05, an incorrect one strictly raises it unless it is at its ceiling
    0.3, and at the floor or ceiling it stays. *)
Theorem learning_rate_adapts db now userId topicId isCorrect difficulty
    timeTaken :
  StoredInRange db userId topicId ->
  exists db' state after,
    MasteryService.updateMastery db now userId topicId isCorrect difficulty
      timeTaken = Ok (db', state)
    /\ user_topic_mastery db' !! (userId, topicId) = Some after
    /\ let before := currentRow db userId topicId in
       if isCorrect then
         (0.05 < learning_rate before ->
          learning_rate after < learning_rate before)
         /\ (learning_rate before == 0.05 -> learning_rate after == 0.05)
       else
         (learning_rate before < 0.3 ->
          learning_rate before < learning_rate after)
         /\ (learning_rate before == 0.3 -> learning_rate after == 0.3).
Proof.
  intros Hdb. rewrite updateMastery_total.
  eexists. eexists. eexists. split; [reflexivity|].
  split; [by erewrite lookup_updated|].
  pose proof (currentRow_in_range _ _ _ Hdb) as [].
  set (before := currentRow db userId topicId) in *. clearbody before.
  destruct isCorrect; cbn -[round4 Qmax Qmin Qplus Qmult Qminus Qdiv].
  - set (lr := Math.max 0.05 (learning_rate before * 0.98)).
    pose proof (round4_upper lr) as Hlr. split.
    + intros H.
      assert (lr <= learning_rate before * 0.98 \/ lr == 0.05) as [Hc|Hc]
        by (unfold lr; minmax; lra).
      * lra.
      * rewrite (round4_fixed 500 lr) by (rewrite Hc; reflexivity). lra.
    + intros H. assert (Hc : lr == 0.05) by (unfold lr; minmax; lra).
      rewrite (round4_fixed 500 lr) by (rewrite Hc; reflexivity). exact Hc.
  - set (lr := Math.min 0.3 (learning_rate before * 1.02)).
    pose proof (round4_lower lr) as Hlr. split.
    + intros H.
      assert (learning_rate before * 1.02 <= lr \/ lr == 0.3) as [Hc|Hc]
        by (unfold lr; minmax; lra).
      * lra.
      * rewrite (round4_fixed 3000 lr) by (rewrite Hc; reflexivity). lra.
    + intros H. assert (Hc : lr == 0.3) by (unfold lr; minmax; lra).
      rewrite (round4_fixed 3000 lr) by (rewrite Hc; reflexivity). exact Hc.
Qed.

Lemma learning_rate_adapts_witness :
  StoredInRange practised_db alice budgeting
  /\ exists db' state after,
       MasteryService.updateMastery practised_db 5000 alice budgeting true
         0.6 45 = Ok (db', state)
       /\ user_topic_mastery db' !! (alice, budgeting) = Some after
       /\ let before := currentRow practised_db alice budgeting in
          (0.05 < learning_rate before ->
           learning_rate after < learning_rate before)
          /\ (learning_rate before == 0.05 -> learning_rate after == 0.05).
Proof.
  assert (Hdb : StoredInRange practised_db alice budgeting).
  { intros mastery Hm. vm_compute in Hm. injection Hm as <-.
    split; cbn; lra. }
  split; [exact Hdb|].
  exact (learning_rate_adapts practised_db 5000 alice budgeting true 0.6 45 Hdb).
Defined.

(** X3.  What one update writes and what it leaves alone.  It returns; the
    row of the user and topic gets one more attempt, one more correct
    answer exactly when the answer is correct, the time taken added, [now]
    as the last attempt, the forgetting rate it had, and the three
    estimates of the returned state; every other row of the table and the
    three other tables are as before. *)
Theorem updateMastery_bookkeeping db now userId topicId isCorrect difficulty
    timeTaken :
  exists db' state after,
    MasteryService.updateMastery db now userId topicId isCorrect difficulty
      timeTaken = Ok (db', state)
    /\ user_topic_mastery db' !! (userId, topicId) = Some after
    /\ (let before := currentRow db userId topicId in
        attempts_count after = (attempts_count before + 1)%Z
        /\ correct_answers after
           = (correct_answers before + (if isCorrect then 1 else 0))%Z
        /\ time_spent_seconds after = time_spent_seconds before + timeTaken
        /\ last_attempt_at after = Some now
        /\ forgetting_rate after = forgetting_rate before)
    /\ (mastery_score after = MasteryState.mastery_score state
        /\ learning_rate after = MasteryState.learning_rate state
        /\ confidence_interval after = MasteryState.confidence_interval state)
    /\ (forall key, key <> (userId, topicId) ->
        user_topic_mastery db' !! key = user_topic_mastery db !! key)
    /\ bandit_models db' = bandit_models db
    /\ question_attempts db' = question_attempts db
    /\ user_profiles db' = user_profiles db.
Proof.
  rewrite updateMastery_total.
  eexists. eexists. eexists. split; [reflexivity|].
  split; [by erewrite lookup_updated|].
  split; [|split; [done|split; [|done]]].
  - cbn. repeat split. apply applyBKTUpdate_forgetting_rate.
  - intros key Hkey. cbn. by rewrite lookup_insert_ne.
Qed.

(** The stored estimates have at most four decimals. *)
Lemma applyBKTUpdate_four_decimals now mastery isCorrect difficulty timeTaken :
  let state :=
    MasteryService.applyBKTUpdate now mastery isCorrect difficulty timeTaken in
  FourDecimals (MasteryState.mastery_score state)
  /\ FourDecimals (MasteryState.learning_rate state)
  /\ FourDecimals (MasteryState.confidence_interval state).
Proof.
  unfold MasteryService.applyBKTUpdate.
  destruct isCorrect; cbn -[round4]; repeat split; apply round4_four_decimals.
Qed.

(** X4.  After any run of at least one update the stored mastery score,
    learning rate and confidence interval have at most four decimals (as
    the DECIMAL(5,4) columns require): rounding them again changes
    nothing. *)
Theorem stored_estimates_have_four_decimals db userId topicId answers :
  answers <> [] ->
  exists db' mastery,
    updateMasteryAll db userId topicId answers = Ok db'
    /\ user_topic_mastery db' !! (userId, topicId) = Some mastery
    /\ FourDecimals (mastery_score mastery)
    /\ FourDecimals (learning_rate mastery)
    /\ FourDecimals (confidence_interval mastery).
Proof.
  revert db. induction answers as [|a answers IH]; intros db Hne; [done|].
  rewrite updateMasteryAll_cons.
  destruct answers as [|a' answers'].
  - eexists. eexists. split; [reflexivity|].
    split; [by erewrite lookup_updated|].
    apply applyBKTUpdate_four_decimals.
  - by apply IH.
Qed.

Lemma stored_estimates_have_four_decimals_witness :
  [answer 2000 true 0.5 30; answer 90000000 false 0.9 50] <> []
  /\ exists db' mastery,
       updateMasteryAll practised_db alice budgeting
         [answer 2000 true 0.5 30; answer 90000000 false 0.9 50] = Ok db'
       /\ user_topic_mastery db' !! (alice, budgeting) = Some mastery
       /\ FourDecimals (mastery_score mastery)
       /\ FourDecimals (learning_rate mastery)
       /\ FourDecimals (confidence_interval mastery).
Proof.
  assert (H : [answer 2000 true 0.5 30; answer 90000000 false 0.9 50] <> [])
    by discriminate.
  split; [exact H|].
  exact (stored_estimates_have_four_decimals practised_db alice budgeting _ H).
Defined.

(** ** MasteryService: the counters and the accuracy *)

Lemma updateMasteryAll_counters db db' userId topicId answers :
  updateMasteryAll db userId topicId answers = Ok db' ->
  CountersConsistent (currentRow db userId topicId) ->
  CountersConsistent (currentRow db' userId topicId)
  /\ attempts_count (currentRow db' userId topicId)
     = (attempts_count (currentRow db userId topicId)
        + Z.of_nat (length answers))%Z.
Proof.
  revert db. induction answers as [|a answers IH]; intros db Hrun Hc.
  - injection Hrun as <-. split; [done|]. cbn. lia.
  - rewrite updateMasteryAll_cons in Hrun.
    destruct (IH _ Hrun) as [Hc' Hn].
    + unfold currentRow at 1. erewrite lookup_updated by done.
      unfold CountersConsistent in *. cbn.
      destruct (answer_isCorrect a); lia.
    + split; [exact Hc'|]. rewrite Hn.
      unfold currentRow at 1. erewrite lookup_updated by done.
      cbn. lia.
Qed.

(** X5.  When the counters of the stored row are consistent (no more
    correct answers than attempts, neither negative; a row not yet created
    counts), they are so after any run of updates, the number of attempts
    has grown by the number of answers, and the accuracy the insights then
    report is a number between 0 and 1. *)
Theorem accuracy_stays_a_proportion db userId topicId answers :
  CountersConsistent (currentRow db userId topicId) ->
  answers <> [] ->
  exists db' mastery insights accuracy,
    updateMasteryAll db userId topicId answers = Ok db'
    /\ user_topic_mastery db' !! (userId, topicId) = Some mastery
    /\ CountersConsistent mastery
    /\ attempts_count mastery
       = (attempts_count (currentRow db userId topicId)
          + Z.of_nat (length answers))%Z
    /\ MasteryService.getMasteryInsights db' userId topicId = Some insights
    /\ MasteryService.accuracy insights = Finite accuracy
    /\ 0 <= accuracy <= 1.
Proof.
  intros Hc Hne.
  destruct (updateMasteryAll_total db userId topicId answers) as [db' Hrun].
  destruct (updateMasteryAll_stored _ _ _ _ _ Hrun Hne) as [mastery Hm].
  destruct (updateMasteryAll_counters _ _ _ _ _ Hrun Hc) as [Hc' Hn].
  assert (Hcur : currentRow db' userId topicId = mastery)
    by (unfold currentRow; by rewrite Hm).
  rewrite Hcur in Hc', Hn.
  exists db', mastery. eexists. eexists.
  split; [done|]. split; [done|]. split; [done|]. split; [done|].
  unfold MasteryService.getMasteryInsights. rewrite Hm.
  split; [reflexivity|]. cbn.
  assert (Hpos : (0 < attempts_count mastery)%Z).
  { rewrite Hn. unfold CountersConsistent in Hc.
    destruct answers; [done|]. cbn [length]. lia. }
  destruct (Z.gtb_spec (attempts_count mastery) 0) as [_|Hle]; [|lia].
  rewrite js_div_finite by (by apply inject_Z_nonzero).
  split; [reflexivity|].
  unfold CountersConsistent in Hc'.
  assert (H0 : 0 <= inject_Z (correct_answers mastery))
    by (change 0 with (inject_Z 0); rewrite <- Zle_Qle; lia).
  assert (H1 : inject_Z (correct_answers mastery)
               <= inject_Z (attempts_count mastery))
    by (rewrite <- Zle_Qle; lia).
  assert (H2 : 0 < inject_Z (attempts_count mastery))
    by (change 0 with (inject_Z 0); rewrite <- Zlt_Qlt; lia).
  split.
  - apply Qle_shift_div_l; [done|]. lra.
  - apply Qle_shift_div_r; [done|]. lra.
Qed.

Lemma accuracy_stays_a_proportion_witness :
  CountersConsistent (currentRow practised_db alice budgeting)
  /\ [answer 2000 true 0.5 30; answer 90000000 false 0.9 50] <> []
  /\ exists db' mastery insights accuracy,
       updateMasteryAll practised_db alice budgeting
         [answer 2000 true 0.5 30; answer 90000000 false 0.9 50] = Ok db'
       /\ user_topic_mastery db' !! (alice, budgeting) = Some mastery
       /\ CountersConsistent mastery
       /\ attempts_count mastery
          = (attempts_count (currentRow practised_db alice budgeting)
             + Z.of_nat
                 (length
                    [answer 2000 true 0.5 30; answer 90000000 false 0.9 50]))%Z
       /\ MasteryService.getMasteryInsights db' alice budgeting = Some insights
       /\ MasteryService.accuracy insights = Finite accuracy
       /\ 0 <= accuracy <= 1.
Proof.
  assert (Hc : CountersConsistent (currentRow practised_db alice budgeting))
    by (vm_compute; split; discriminate).
  assert (H : [answer 2000 true 0.5 30; answer 90000000 false 0.9 50] <> [])
    by discriminate.
  split; [exact Hc|]. split; [exact H|].
  exact (accuracy_stays_a_proportion practised_db alice budgeting _ Hc H).
Defined.

(** ** MasteryService: the advice of the insights *)

Lemma strong_understanding_listed mastery :
  "Strong understanding of core concepts"
    ∈ MasteryService.identifyStrengths mastery
  <-> (mastery_score mastery >=? 0.7) = true.
Proof.
  unfold MasteryService.identifyStrengths.
  destruct (mastery_score mastery >=? 0.7),
    (js_geb (MasteryService.ruleAccuracy mastery) 0.8),
    (learning_rate mastery <=? 0.1); list_membership.
Qed.

Lemma more_practice_listed mastery :
  "Needs more practice with fundamental concepts"
    ∈ MasteryService.identifyImprovementAreas mastery
  <-> (mastery_score mastery <? 0.5) = true.
Proof.
  unfold MasteryService.identifyImprovementAreas.
  destruct (mastery_score mastery <? 0.5),
    (js_ltb (MasteryService.ruleAccuracy mastery) 0.6),
    (confidence_interval mastery >? 0.3); list_membership.
Qed.

(** X6.  The insights never give contradictory advice.  Whatever the row,
    the strength 'Strong understanding of core concepts' and the
    improvement area 'Needs more practice with fundamental concepts' are
    not listed together, nor are 'High accuracy in responses' and 'Focus on
    accuracy improvement'; an Expert always has the first strength, and a
    Novice or Beginning learner always has the first improvement area. *)
Theorem insights_advice_consistent mastery :
  let insights := MasteryService.insightsOf mastery in
  ~ ("Strong understanding of core concepts"
       ∈ MasteryService.strengths insights
     /\ "Needs more practice with fundamental concepts"
          ∈ MasteryService.improvement_areas insights)
  /\ ~ ("High accuracy in responses" ∈ MasteryService.strengths insights
        /\ "Focus on accuracy improvement"
             ∈ MasteryService.improvement_areas insights)
  /\ (MasteryService.mastery_level insights = "Expert" ->
      "Strong understanding of core concepts"
        ∈ MasteryService.strengths insights)
  /\ (MasteryService.mastery_level insights = "Novice"
      \/ MasteryService.mastery_level insights = "Beginning" ->
      "Needs more practice with fundamental concepts"
        ∈ MasteryService.improvement_areas insights).
Proof.
  cbn -[MasteryService.identifyStrengths MasteryService.identifyImprovementAreas
        MasteryService.getMasteryLevel].
  rewrite strong_understanding_listed, more_practice_listed,
    high_accuracy_listed, focus_on_accuracy_listed.
  rewrite ruleAccuracy_finite. cbn [js_geb js_ltb].
  set (accuracy := inject_Z _ / inject_Z _). clearbody accuracy.
  unfold MasteryService.getMasteryLevel.
  split; [|split; [|split]].
  - compare_cases; intros [? ?]; first [discriminate | lra].
  - compare_cases; intros [? ?]; first [discriminate | lra].
  - compare_cases; intros ?; first [reflexivity | discriminate | lra].
  - compare_cases; intros [?|?]; first [reflexivity | discriminate | lra].
Qed.

(** ** MasteryService.updateMasteryWithTransfer *)

(** X7.  Without a row for the source topic the transfer throws 'Source
    topic mastery not found', whatever the target topic holds. *)
Theorem transfer_needs_source db userId topicId sourceTopicId transferStrength :
  user_topic_mastery db !! (userId, sourceTopicId) = None ->
  MasteryService.updateMasteryWithTransfer db userId topicId sourceTopicId
    transferStrength = Throw "Source topic mastery not found".
Proof.
  intros H. unfold MasteryService.updateMasteryWithTransfer. by rewrite H.
Qed.

Lemma transfer_needs_source_witness :
  user_topic_mastery practised_db !! (alice, saving) = None
  /\ MasteryService.updateMasteryWithTransfer practised_db alice budgeting
       saving 1 = Throw "Source topic mastery not found".
Proof.
  split; [reflexivity|].
  exact (transfer_needs_source practised_db alice budgeting saving 1 eq_refl).
Defined.

(** X8.  With a row for the source topic the transfer returns.  The score
    it returns and stores for the target topic is
    min(0.99, current + source * strength * 0.3), the current score being
    the default 0.1 when the target row had to be created; so it is never
    above 0.99, and with a strength and a source score that are not
    negative it is not below a current score that was at most 0.99.  Every
    other column of the target row is as it was: the transfer counts no
    attempt and never sets [mastery_achieved_at], even when it takes the
    score to 0.8 or more.  The rows of other users and topics, and the
    other tables, are untouched. *)
Theorem transfer_boosts_score_only db userId topicId sourceTopicId
    transferStrength source :
  user_topic_mastery db !! (userId, sourceTopicId) = Some source ->
  exists db' state after,
    MasteryService.updateMasteryWithTransfer db userId topicId sourceTopicId
      transferStrength = Ok (db', state)
    /\ user_topic_mastery db' !! (userId, topicId) = Some after
    /\ let before := currentRow db userId topicId in
       mastery_score after
       = Math.min 0.99
           (mastery_score before
            + mastery_score source * transferStrength * 0.3)
       /\ MasteryState.mastery_score state = mastery_score after
       /\ mastery_score after <= 0.99
       /\ (0 <= transferStrength -> 0 <= mastery_score source ->
           mastery_score before <= 0.99 ->
           mastery_score before <= mastery_score after)
       /\ after = MasteryService.withMasteryScore (mastery_score after) before
       /\ mastery_achieved_at after = mastery_achieved_at before
       /\ attempts_count after = attempts_count before
       /\ (forall key, key <> (userId, topicId) ->
           user_topic_mastery db' !! key = user_topic_mastery db !! key)
       /\ bandit_models db' = bandit_models db.
Proof.
  intros Hsrc. unfold MasteryService.updateMasteryWithTransfer, currentRow,
    MasteryService.initializeMastery.
  rewrite Hsrc.
  destruct (user_topic_mastery db !! (userId, topicId)) as [current|] eqn:E;
    cbn -[Qmin Qplus Qmult].
  - eexists. eexists. eexists. split; [reflexivity|]. cbn -[Qmin Qplus Qmult].
    rewrite lookup_alter_eq, E. cbn -[Qmin Qplus Qmult].
    split; [reflexivity|]. unfold MasteryService.withMasteryScore.
    cbn -[Qmin Qplus Qmult Qle]. repeat split.
    + minmax; lra.
    + intros Hs Hm Hc.
      assert (0 <= mastery_score source * transferStrength)
        by (apply Qmult_le_0_compat; lra).
      minmax; lra.
    + intros key Hkey. by rewrite lookup_alter_ne.
  - eexists. eexists. eexists. split; [reflexivity|]. cbn -[Qmin Qplus Qmult].
    rewrite lookup_alter_eq, lookup_insert_eq. cbn -[Qmin Qplus Qmult].
    split; [reflexivity|]. unfold MasteryService.withMasteryScore.
    cbn -[Qmin Qplus Qmult Qle]. repeat split.
    + minmax; lra.
    + intros Hs Hm Hc.
      assert (0 <= mastery_score source * transferStrength)
        by (apply Qmult_le_0_compat; lra).
      minmax; lra.
    + intros key Hkey. rewrite lookup_alter_ne by done.
      by rewrite lookup_insert_ne.
Qed.

Lemma transfer_boosts_score_only_witness :
  user_topic_mastery two_topics_db !! (alice, saving) = Some accomplished
  /\ exists db' state after,
       MasteryService.updateMasteryWithTransfer two_topics_db alice budgeting
         saving 1.2 = Ok (db', state)
       /\ user_topic_mastery db' !! (alice, budgeting) = Some after
       /\ let before := currentRow two_topics_db alice budgeting in
          mastery_score after
          = Math.min 0.99
              (mastery_score before + mastery_score accomplished * 1.2 * 0.3)
          /\ MasteryState.mastery_score state = mastery_score after
          /\ mastery_score after <= 0.99
          /\ (0 <= 1.2 -> 0 <= mastery_score accomplished ->
              mastery_score before <= 0.99 ->
              mastery_score before <= mastery_score after)
          /\ after
             = MasteryService.withMasteryScore (mastery_score after) before
          /\ mastery_achieved_at after = mastery_achieved_at before
          /\ attempts_count after = attempts_count before
          /\ (forall key, key <> (alice, budgeting) ->
              user_topic_mastery db' !! key
              = user_topic_mastery two_topics_db !! key)
          /\ bandit_models db' = bandit_models two_topics_db.
Proof.
  split; [reflexivity|].
  exact (transfer_boosts_score_only two_topics_db alice budgeting saving 1.2
           accomplished eq_refl).
Defined.

(** A transfer takes the score from 0.5 to 0.842 and leaves
    [mastery_achieved_at] unset; the next update sets it. *)
Example transfer_reaches_mastery_unrecorded :
  exists db1 state1 row1 db2 state2 row2,
    MasteryService.updateMasteryWithTransfer two_topics_db alice budgeting
      saving 1.2 = Ok (db1, state1)
    /\ user_topic_mastery db1 !! (alice, budgeting) = Some row1
    /\ mastery_score row1 == 0.842
    /\ mastery_achieved_at row1 = None
    /\ MasteryService.updateMastery db1 5000 alice budgeting true 0.5 30
       = Ok (db2, state2)
    /\ user_topic_mastery db2 !! (alice, budgeting) = Some row2
    /\ mastery_achieved_at row2 = Some 5000%Z.
Proof.
  do 6 eexists.
  split; [by vm_compute|]. split; [by vm_compute|]. split; [by vm_compute|].
  split; [reflexivity|]. split; [by vm_compute|]. split; [by vm_compute|].
  reflexivity.
Qed.

(** ** MasteryService.getEnhancedMasteryState *)



(** ** BanditService.recommendQuestion *)

(** The arm [recommendQuestion] selects, and the difficulty it returns. *)
Lemma recommendQuestion_selects_arm (Entropy : Type)
    (sampleBeta : Q -> Q -> Entropy -> Q * Entropy)
    (random : Entropy -> Q * Entropy) db now userId context g :
  (forall g, 0 <= fst (random g) < 1) ->
  exists db' difficulty g' arm,
    BanditService.recommendQuestion Entropy sampleBeta random db now userId
      context g = Ok (db', difficulty, g')
    /\ BanditService.getArm arm BanditService.difficultyMap - 0.1 <= difficulty
    /\ difficulty < BanditService.getArm arm BanditService.difficultyMap + 0.1
    /\ 0.2 <= difficulty < 1
    /\ BanditService.getDifficultyArm difficulty = arm.
Proof.
  intros Hrandom. unfold BanditService.recommendQuestion,
    BanditService.initializeBanditModel.
  assert (Hstep : forall (armParams : Arms ArmParameters) (db0 : Database),
    exists db' difficulty g' arm,
      (let contextualAdjustments :=
         BanditService.calculateContextualAdjustments context in
       let args :=
         BanditService.sampleBetaArguments armParams contextualAdjustments in
       let '(sample_easy, g0) :=
         sampleBeta (fst (easy args)) (snd (easy args)) g in
       let '(sample_medium, g1) :=
         sampleBeta (fst (medium args)) (snd (medium args)) g0 in
       let '(sample_hard, g2) :=
         sampleBeta (fst (hard args)) (snd (hard args)) g1 in
       let samples :=
         {| easy := sample_easy; medium := sample_medium; hard := sample_hard |} in
       let pick (a b : Arm) :=
         if BanditService.getArm a samples >? BanditService.getArm b samples
         then a else b in
       let selectedArm := pick (pick ArmEasy ArmMedium) ArmHard in
       let baseDifficulty :=
         BanditService.getArm selectedArm BanditService.difficultyMap in
       let '(u, g3) := random g2 in
       let explorationNoise := (u - 0.5) * 0.2 in
       Ok (db0,
           Math.max 0.1 (Math.min 1.0 (baseDifficulty + explorationNoise)),
           g3)) = Ok (db', difficulty, g')
      /\ BanditService.getArm arm BanditService.difficultyMap - 0.1 <= difficulty
      /\ difficulty < BanditService.getArm arm BanditService.difficultyMap + 0.1
      /\ 0.2 <= difficulty < 1
      /\ BanditService.getDifficultyArm difficulty = arm).
  { intros armParams db0. cbv zeta.
    destruct (sampleBeta _ _ g) as [sample_easy g0].
    destruct (sampleBeta _ _ g0) as [sample_medium g1].
    destruct (sampleBeta _ _ g1) as [sample_hard g2].
    pose proof (Hrandom g2) as Hu. destruct (random g2) as [u g3].
    cbn [fst] in Hu.
    set (arm := if BanditService.getArm
                     (if BanditService.getArm ArmEasy _ >? _ then _ else _) _
                   >? _ then _ else _).
    clearbody arm.
    eexists db0, _, g3, arm. split; [reflexivity|].
    unfold BanditService.getDifficultyArm.
    destruct arm; cbn -[Qmax Qmin Qplus Qminus Qmult Qle Qlt Qle_bool];
      (repeat split; [minmax; lra..|]);
      compare_cases; first [reflexivity | exfalso; minmax; lra]. }
  destruct (bandit_models db !! userId) as [m|].
  - exact (Hstep (arm_parameters m) db).
  - exact (Hstep BanditService.initialArmParams _).
Qed.

(** X10.  Whatever the sampler has answered, when [Math.random] answers
    in [0, 1) a difficulty that [recommendQuestion] returns is between 0.1
    and 1 and closer than 0.11 to the nominal difficulty of one of the
    arms (0.3, 0.6, 0.9): the noise is at most 0.1, and the margin leaves
    room for the rounding of the sum in binary64.  [getDifficultyArm] maps
    the difficulty back to that arm, so the update of an answer to the
    recommended question goes to the arm that was selected. *)
Theorem recommendation_maps_back_to_its_arm (Entropy : Type)
    (sampleBeta : Q -> Q -> Entropy -> Q * Entropy)
    (random : Entropy -> Q * Entropy) db now userId context g db' difficulty
    g' :
  (forall g, 0 <= fst (random g) < 1) ->
  BanditService.recommendQuestion Entropy sampleBeta random db now userId
    context g = Ok (db', difficulty, g') ->
  0.1 <= difficulty <= 1
  /\ exists arm,
       BanditService.getArm arm BanditService.difficultyMap - 0.11
       < difficulty
       /\ difficulty
          < BanditService.getArm arm BanditService.difficultyMap + 0.11
       /\ BanditService.getDifficultyArm difficulty = arm.
Proof.
  intros Hrandom Hcall.
  destruct (recommendQuestion_selects_arm Entropy sampleBeta random db now
              userId context g Hrandom)
    as (db2 & difficulty2 & g2 & arm & Hcall2 & Hlo & Hhi & Hrange & Harm).
  rewrite Hcall in Hcall2. injection Hcall2 as <- <- <-.
  split; [lra|]. exists arm. split; [lra|]. split; [lra|exact Harm].
Qed.

Lemma recommendation_maps_back_to_its_arm_witness :
  (forall g : list (Q * Q), 0 <= fst (recordingRandom g) < 1)
  /\ exists db' difficulty g',
       BanditService.recommendQuestion (list (Q * Q)) recordingSampleBeta
         recordingRandom seasoned_db 5000 alice strugglingContext []
       = Ok (db', difficulty, g')
       /\ 0.1 <= difficulty <= 1
       /\ exists arm,
            BanditService.getArm arm BanditService.difficultyMap - 0.11
            < difficulty
            /\ difficulty
               < BanditService.getArm arm BanditService.difficultyMap + 0.11
            /\ BanditService.getDifficultyArm difficulty = arm.
Proof.
  assert (H : forall g : list (Q * Q), 0 <= fst (recordingRandom g) < 1)
    by (intros g; cbn; lra).
  split; [exact H|].
  eexists _, _, _. split; [vm_compute; reflexivity|].
  eapply (recommendation_maps_back_to_its_arm (list (Q * Q))
            recordingSampleBeta recordingRandom seasoned_db 5000 alice
            strugglingContext []); [exact H|].
  vm_compute. reflexivity.
Defined.

(** What [recommendQuestion] writes. *)
Lemma recommendQuestion_frame (Entropy : Type)
    (sampleBeta : Q -> Q -> Entropy -> Q * Entropy)
    (random : Entropy -> Q * Entropy) db now userId context g :
  exists db' difficulty g',
    BanditService.recommendQuestion Entropy sampleBeta random db now userId
      context g = Ok (db', difficulty, g')
    /\ (is_Some (bandit_models db !! userId) -> db' = db)
    /\ (bandit_models db !! userId = None ->
        bandit_models db' !! userId
        = Some {| arm_parameters := BanditService.initialArmParams;
                  context_features := None;
                  total_interactions := 0;
                  last_updated := now |}
        /\ BanditInvariant BanditService.initialArmParams)
    /\ (forall other, other <> userId ->
        bandit_models db' !! other = bandit_models db !! other)
    /\ user_topic_mastery db' = user_topic_mastery db
    /\ question_attempts db' = question_attempts db
    /\ user_profiles db' = user_profiles db.
Proof.
  unfold BanditService.recommendQuestion, BanditService.initializeBanditModel.
  destruct (bandit_models db !! userId) as [model|] eqn:E; cbn.
  - destruct (sampleBeta _ _ g) as [sample_easy g0].
    destruct (sampleBeta _ _ g0) as [sample_medium g1].
    destruct (sampleBeta _ _ g1) as [sample_hard g2].
    destruct (random g2) as [u g3].
    do 3 eexists. split; [reflexivity|].
    split; [done|]. split; [done|]. done.
  - destruct (sampleBeta _ _ g) as [sample_easy g0].
    destruct (sampleBeta _ _ g0) as [sample_medium g1].
    destruct (sampleBeta _ _ g1) as [sample_hard g2].
    destruct (random g2) as [u g3].
    do 3 eexists. split; [reflexivity|]. cbn.
    split; [by intros [? ?]|].
    split.
    { intros _. split; [apply lookup_insert_eq|].
      repeat split; cbn; lra. }
    split; [|done].
    intros other Hother. by rewrite lookup_insert_ne.
Qed.

(** X11.  A call of [recommendQuestion] that returns has only read a
    model that exists: the database it leaves is the one it was given.
    For a user without a model it has stored the initial one (priors
    (2, 1), (1.5, 1.5), (1, 2), no interaction, last updated now), which
    satisfies the invariant, and changed nothing else.  In both cases the
    mastery table, the other tables and the models of the other users are
    as before. *)
Theorem recommendQuestion_reads_or_creates (Entropy : Type)
    (sampleBeta : Q -> Q -> Entropy -> Q * Entropy)
    (random : Entropy -> Q * Entropy) db now userId context g db' difficulty
    g' :
  BanditService.recommendQuestion Entropy sampleBeta random db now userId
    context g = Ok (db', difficulty, g') ->
  (is_Some (bandit_models db !! userId) -> db' = db)
  /\ (bandit_models db !! userId = None ->
      bandit_models db' !! userId
      = Some {| arm_parameters := BanditService.initialArmParams;
                context_features := None;
                total_interactions := 0;
                last_updated := now |}
      /\ BanditInvariant BanditService.initialArmParams)
  /\ (forall other, other <> userId ->
      bandit_models db' !! other = bandit_models db !! other)
  /\ user_topic_mastery db' = user_topic_mastery db
  /\ question_attempts db' = question_attempts db
  /\ user_profiles db' = user_profiles db.
Proof.
  intros Hcall.
  destruct (recommendQuestion_frame Entropy sampleBeta random db now userId
              context g)
    as (db2 & difficulty2 & g2 & Hcall2 & H).
  rewrite Hcall in Hcall2. injection Hcall2 as <- <- <-. exact H.
Qed.

Lemma recommendQuestion_reads_or_creates_witness :
  exists db' difficulty g',
    BanditService.recommendQuestion (list (Q * Q)) recordingSampleBeta
      recordingRandom nearly_there_db 5000 alice strugglingContext []
    = Ok (db', difficulty, g')
    /\ bandit_models db' !! alice
       = Some {| arm_parameters := BanditService.initialArmParams;
                 context_features := None;
                 total_interactions := 0;
                 last_updated := 5000 |}
    /\ user_topic_mastery db' = user_topic_mastery nearly_there_db.
Proof.
  eexists _, _, _. split; [vm_compute; reflexivity|].
  eassert (H : _).
  { eapply (recommendQuestion_reads_or_creates (list (Q * Q))
              recordingSampleBeta recordingRandom nearly_there_db 5000 alice
              strugglingContext []).
    vm_compute. reflexivity. }
  destruct H as (_ & Hnew & _ & Hmastery & _).
  split; [exact (proj1 (Hnew eq_refl))|exact Hmastery].
Defined.

(** ** BanditService.updateModel *)

Lemma bandit_updateModel_frame db db' now userId isCorrect difficulty context :
  BanditService.updateModel db now userId isCorrect difficulty context = Ok db' ->
  (forall other, other <> userId ->
   bandit_models db' !! other = bandit_models db !! other)
  /\ user_topic_mastery db' = user_topic_mastery db
  /\ question_attempts db' = question_attempts db
  /\ user_profiles db' = user_profiles db.
Proof.
  unfold BanditService.updateModel.
  destruct (bandit_models db !! userId); intros H; injection H as <-;
    [|done].
  cbn. split; [|done]. intros other Hother. by rewrite lookup_insert_ne.
Qed.

(** X12.  A run of [updateModel] calls on a user's model returns; it adds
    the number of answers to [total_interactions]; the models of the other
    users, the mastery table and the other tables are as before. *)
Theorem updateModelAll_counts_interactions db userId model answers :
  bandit_models db !! userId = Some model ->
  exists db' model',
    updateModelAll db userId answers = Ok db'
    /\ bandit_models db' !! userId = Some model'
    /\ total_interactions model'
       = (total_interactions model + Z.of_nat (length answers))%Z
    /\ (forall other, other <> userId ->
        bandit_models db' !! other = bandit_models db !! other)
    /\ user_topic_mastery db' = user_topic_mastery db
    /\ question_attempts db' = question_attempts db
    /\ user_profiles db' = user_profiles db.
Proof.
  revert db model.
  induction answers as [|[a context] answers IH]; intros db model Hm.
  - exists db, model. split; [done|]. split; [done|]. split; [cbn; lia|done].
  - cbn [updateModelAll].
    destruct (BanditService.updateModel db (answer_now a) userId
                (answer_isCorrect a) (answer_difficulty a) context)
      as [db1|] eqn:Hup;
      [|unfold BanditService.updateModel in Hup; by rewrite Hm in Hup].
    destruct (bandit_updateModel_frame _ _ _ _ _ _ _ Hup)
      as (Hothers & Hmastery & Hattempts & Hprofiles).
    unfold BanditService.updateModel in Hup. rewrite Hm in Hup.
    injection Hup as Hup.
    assert (Hm1 : bandit_models db1 !! userId
                  = Some {| arm_parameters :=
                              BanditService.updatedArmParameters
                                (arm_parameters model) (answer_isCorrect a)
                                (answer_difficulty a);
                            context_features := Some context;
                            total_interactions :=
                              (total_interactions model + 1)%Z;
                            last_updated := answer_now a |}).
    { rewrite <- Hup. cbn. apply lookup_insert_eq. }
    destruct (IH db1 _ Hm1)
      as (db' & model' & Hrun & Hm' & Hn & Ho & H1 & H2 & H3).
    exists db', model'. cbn. split; [exact Hrun|]. split; [exact Hm'|].
    split; [rewrite Hn; cbn; lia|].
    split; [intros other Hne; rewrite Ho by done; by apply Hothers|].
    split; [congruence|]. split; congruence.
Qed.

Lemma updateModelAll_counts_interactions_witness :
  bandit_models seasoned_db !! alice = Some seasonedModel
  /\ exists db' model',
       updateModelAll seasoned_db alice
         [(answer 2000 true 0.3 30, neutralContext);
          (answer 3000 false 0.9 50, strugglingContext)] = Ok db'
       /\ bandit_models db' !! alice = Some model'
       /\ total_interactions model'
          = (total_interactions seasonedModel
             + Z.of_nat
                 (length
                    [(answer 2000 true 0.3 30, neutralContext);
                     (answer 3000 false 0.9 50, strugglingContext)]))%Z
       /\ (forall other, other <> alice ->
           bandit_models db' !! other = bandit_models seasoned_db !! other)
       /\ user_topic_mastery db' = user_topic_mastery seasoned_db
       /\ question_attempts db' = question_attempts seasoned_db
       /\ user_profiles db' = user_profiles seasoned_db.
Proof.
  split; [reflexivity|].
  exact (updateModelAll_counts_interactions seasoned_db alice seasonedModel _
           eq_refl).
Defined.

Lemma decay_capped p :
  alpha p <= 200 -> beta p <= 200 -> ArmCapped (BanditService.decay 0.995 p).
Proof. unfold ArmCapped, BanditService.decay. cbn. split; minmax; lra. Qed.

Lemma updatedArmParameters_capped armParams isCorrect difficulty :
  BanditCapped armParams ->
  BanditCapped
    (BanditService.updatedArmParameters armParams isCorrect difficulty).
Proof.
  intros ([] & [] & []).
  unfold BanditCapped, BanditService.updatedArmParameters.
  destruct isCorrect, (BanditService.getDifficultyArm difficulty); cbn;
    (split; [|split]); apply decay_capped; cbn; lra.
Qed.

(** X13.  The decay caps the pseudo-counts: when no alpha or beta of the
    user's model exceeds 199, none does after any run of updates.  With the
    floor of the invariant, every parameter stays between 1 and 199. *)
Theorem bandit_parameters_capped db userId model answers :
  bandit_models db !! userId = Some model ->
  BanditCapped (arm_parameters model) ->
  exists db' model',
    updateModelAll db userId answers = Ok db'
    /\ bandit_models db' !! userId = Some model'
    /\ BanditCapped (arm_parameters model').
Proof.
  revert db model.
  induction answers as [|[a context] answers IH]; intros db model Hm Hcap.
  - by exists db, model.
  - cbn [updateModelAll]. unfold BanditService.updateModel. rewrite Hm. cbn.
    eapply IH.
    + cbn. apply lookup_insert_eq.
    + cbn. by apply updatedArmParameters_capped.
Qed.

Lemma bandit_parameters_capped_witness :
  bandit_models seasoned_db !! alice = Some seasonedModel
  /\ BanditCapped (arm_parameters seasonedModel)
  /\ exists db' model',
       updateModelAll seasoned_db alice
         [(answer 2000 true 0.3 30, neutralContext);
          (answer 3000 false 0.9 50, strugglingContext)] = Ok db'
       /\ bandit_models db' !! alice = Some model'
       /\ BanditCapped (arm_parameters model').
Proof.
  assert (H : BanditCapped (arm_parameters seasonedModel))
    by (repeat split; cbn; lra).
  split; [reflexivity|]. split; [exact H|].
  exact (bandit_parameters_capped seasoned_db alice seasonedModel _ eq_refl H).
Defined.

Lemma decay_after_success p :
  ArmInvariant p -> alpha p <= 199 ->
  ShareAtMost p
    (BanditService.decay 0.995 {| alpha := alpha p + 1; beta := beta p |}).
Proof.
  intros [Ha Hb] Hcap. unfold ShareAtMost, BanditService.decay.
  cbn -[Qmax Qplus Qmult Qle]. unfold Math.max.
  destruct (Q.max_spec 1 ((alpha p + 1) * 0.995)) as [[? Ea]|[? Ea]];
    destruct (Q.max_spec 1 (beta p * 0.995)) as [[? Eb]|[? Eb]];
    rewrite Ea, Eb; nra.
Qed.

Lemma decay_after_failure p :
  ArmInvariant p -> beta p <= 199 ->
  ShareAtMost
    (BanditService.decay 0.995 {| alpha := alpha p; beta := beta p + 1 |}) p.
Proof.
  intros [Ha Hb] Hcap. unfold ShareAtMost, BanditService.decay.
  cbn -[Qmax Qplus Qmult Qle]. unfold Math.max.
  destruct (Q.max_spec 1 (alpha p * 0.995)) as [[? Ea]|[? Ea]];
    destruct (Q.max_spec 1 ((beta p + 1) * 0.995)) as [[? Eb]|[? Eb]];
    rewrite Ea, Eb; nra.
Qed.

Lemma decay_only_lowers p :
  ArmInvariant p ->
  alpha (BanditService.decay 0.995 p) <= alpha p
  /\ beta (BanditService.decay 0.995 p) <= beta p.
Proof. intros [Ha Hb]. unfold BanditService.decay. cbn. split; minmax; lra. Qed.

(** X14.  One update moves the evidence the right way.  On a model with
    every parameter between 1 and 199, for the arm the difficulty maps to,
    the share of successes alpha / (alpha + beta) is not lower after a
    correct answer and not higher after an incorrect one; no parameter of
    the two other arms grows. *)
Theorem update_moves_share_the_right_way armParams isCorrect difficulty :
  BanditInvariant armParams ->
  BanditCapped armParams ->
  let arm := BanditService.getDifficultyArm difficulty in
  let updated :=
    BanditService.updatedArmParameters armParams isCorrect difficulty in
  (if isCorrect
   then ShareAtMost (BanditService.getArm arm armParams)
          (BanditService.getArm arm updated)
   else ShareAtMost (BanditService.getArm arm updated)
          (BanditService.getArm arm armParams))
  /\ (forall other, other <> arm ->
      alpha (BanditService.getArm other updated)
      <= alpha (BanditService.getArm other armParams)
      /\ beta (BanditService.getArm other updated)
         <= beta (BanditService.getArm other armParams)).
Proof.
  intros (Ie & Im & Ih) ([] & [] & []).
  unfold BanditService.updatedArmParameters.
  destruct (BanditService.getDifficultyArm difficulty), isCorrect;
    cbn -[BanditService.decay];
    (split;
     [ first [by apply decay_after_success | by apply decay_after_failure]
     | intros [] Hother; try done; cbn -[BanditService.decay];
       by apply decay_only_lowers ]).
Qed.

Lemma update_moves_share_the_right_way_witness :
  BanditInvariant (arm_parameters seasonedModel)
  /\ BanditCapped (arm_parameters seasonedModel)
  /\ let arm := BanditService.getDifficultyArm 0.85 in
     let updated :=
       BanditService.updatedArmParameters (arm_parameters seasonedModel) true
         0.85 in
     ShareAtMost (BanditService.getArm arm (arm_parameters seasonedModel))
       (BanditService.getArm arm updated)
     /\ (forall other, other <> arm ->
         alpha (BanditService.getArm other updated)
         <= alpha (BanditService.getArm other (arm_parameters seasonedModel))
         /\ beta (BanditService.getArm other updated)
            <= beta (BanditService.getArm other
                       (arm_parameters seasonedModel))).
Proof.
  assert (Hi : BanditInvariant (arm_parameters seasonedModel))
    by (repeat split; cbn; lra).
  assert (Hc : BanditCapped (arm_parameters seasonedModel))
    by (repeat split; cbn; lra).
  split; [exact Hi|]. split; [exact Hc|].
  exact (update_moves_share_the_right_way (arm_parameters seasonedModel) true
           0.85 Hi Hc).
Defined.

(** ** BanditService.calculateContextualAdjustments *)

Lemma contextual_adjustments_bounds context :
  let adjustments := BanditService.calculateContextualAdjustments context in
  -1.5 <= easy adjustments <= 3.3
  /\ -1.0 <= medium adjustments <= 0.8
  /\ -3.3 <= hard adjustments <= 1.7.
Proof.
  unfold BanditService.calculateContextualAdjustments, BanditService.nudge.
  repeat match goal with
         | |- context [if ?c then _ else _] => destruct c
         end;
    vm_compute; repeat split; discriminate.
Qed.

Lemma Qlt_bool_true a b : (a <? b) = true -> a < b.
Proof.
  unfold Qlt_bool. intros H. apply Qnot_le_lt. intros Hle.
  apply Qle_bool_iff in Hle. rewrite Hle in H. discriminate.
Qed.

Lemma contextual_adjustments_mirror context :
  let adjustments := BanditService.calculateContextualAdjustments context in
  hard adjustments
  == - easy adjustments
     + (if UserContext.recent_accuracy context >? 0.8 then 0.2 else 0).
Proof.
  unfold BanditService.calculateContextualAdjustments, BanditService.nudge.
  destruct (UserContext.recent_accuracy context <? 0.5) eqn:E1;
    destruct (UserContext.recent_accuracy context >? 0.8) eqn:E2;
    [ apply Qlt_bool_true in E1, E2; lra | | | ];
    repeat match goal with
           | |- context [if ?c then _ else _] => destruct c
           end;
    by vm_compute.
Qed.

Lemma contextual_adjustments_neutral context :
  0.3 <= UserContext.topic_mastery context <= 0.7 ->
  0.5 <= UserContext.recent_accuracy context <= 0.8 ->
  UserContext.avg_time_per_question context <= 45 ->
  0.4 <= UserContext.engagement_level context ->
  (UserContext.time_of_day context < 15)%Z ->
  BanditService.calculateContextualAdjustments context
  = {| easy := 0; medium := 0; hard := 0 |}.
Proof.
  intros Hm Ha Ht He Hh.
  unfold BanditService.calculateContextualAdjustments.
  assert (E1 : (UserContext.topic_mastery context <? 0.3) = false)
    by (compare_cases; first [reflexivity | lra]).
  assert (E2 : (UserContext.topic_mastery context >? 0.7) = false)
    by (compare_cases; first [reflexivity | lra]).
  assert (E3 : (UserContext.recent_accuracy context <? 0.5) = false)
    by (compare_cases; first [reflexivity | lra]).
  assert (E4 : (UserContext.recent_accuracy context >? 0.8) = false)
    by (compare_cases; first [reflexivity | lra]).
  assert (E5 : (UserContext.avg_time_per_question context >? 45) = false)
    by (compare_cases; first [reflexivity | lra]).
  assert (E6 : (UserContext.engagement_level context <? 0.4) = false)
    by (compare_cases; first [reflexivity | lra]).
  assert (E7 : (UserContext.time_of_day context >=? 15)%Z = false)
    by (rewrite Z.geb_leb; apply Z.leb_gt; lia).
  by rewrite E1, E2, E3, E4, E5, E6, E7.
Qed.

(** X15.  The contextual adjustments are bounded: easy in [-1.5, 3.3],
    medium in [-1.0, 0.8], hard in [-3.3, 1.7].  Every rule pulls the hard
    arm down by what it adds to the easy arm, except the one for a recent
    accuracy above 0.8, which adds 0.2 more to hard than it takes from
    easy: the sum of the two adjustments is 0.2 in that case and 0
    otherwise, stated here within 0.001 since the code accumulates the
    terms in binary64.  In a context where no rule fires (mastery in
    [0.3, 0.7], accuracy in [0.5, 0.8], average time at most 45,
    engagement at least 0.4, before 15 h) all three are 0. *)
Theorem contextual_adjustments_balance context :
  let adjustments := BanditService.calculateContextualAdjustments context in
  let bonus :=
    if UserContext.recent_accuracy context >? 0.8 then 0.2 else 0 in
  (-1.5 <= easy adjustments <= 3.3
   /\ -1.0 <= medium adjustments <= 0.8
   /\ -3.3 <= hard adjustments <= 1.7)
  /\ - (1 # 1000) <= easy adjustments + hard adjustments - bonus <= 1 # 1000
  /\ (0.3 <= UserContext.topic_mastery context <= 0.7 ->
      0.5 <= UserContext.recent_accuracy context <= 0.8 ->
      UserContext.avg_time_per_question context <= 45 ->
      0.4 <= UserContext.engagement_level context ->
      (UserContext.time_of_day context < 15)%Z ->
      adjustments = {| easy := 0; medium := 0; hard := 0 |}).
Proof.
  intros adjustments bonus.
  split; [apply contextual_adjustments_bounds|].
  split; [|apply contextual_adjustments_neutral].
  pose proof (contextual_adjustments_mirror context) as H. cbv zeta in H.
  fold adjustments bonus in H. lra.
Qed.

(** ** AdaptiveService.buildUserContext *)

Lemma fold_left_Qplus_nonneg l a :
  Forall (fun x => 0 <= x) l -> a <= fold_left Qplus l a.
Proof.
  intros H. revert a. induction H as [|x l Hx _ IH]; intros a; cbn.
  - lra.
  - specialize (IH (a + x)). lra.
Qed.

Lemma sumQ_nonneg {A : Type} (f : A -> Q) l :
  Forall (fun a => 0 <= f a) l -> 0 <= AdaptiveService.sumQ (map f l).
Proof.
  intros H. apply fold_left_Qplus_nonneg.
  induction H; cbn; by constructor.
Qed.

(** The proportion of the rows of a list that is not empty which pass a
    test is between 0 and 1. *)
Lemma proportion_range {A : Type} (P : A -> Prop) `{!forall a, Decision (P a)}
    (l : list A) :
  l <> [] ->
  0 <= inject_Z (Z.of_nat (length (filter P l)))
       / inject_Z (Z.of_nat (length l)) <= 1.
Proof.
  intros Hl.
  assert (Hn : 0 < inject_Z (Z.of_nat (length l))).
  { change 0 with (inject_Z 0). rewrite <- Zlt_Qlt.
    destruct l; [done|cbn; lia]. }
  pose proof (length_filter P l) as Hk.
  split.
  - apply Qle_shift_div_l; [done|]. rewrite Qmult_0_l.
    change 0 with (inject_Z 0). rewrite <- Zle_Qle. lia.
  - apply Qle_shift_div_r; [done|]. rewrite Qmult_1_l.
    rewrite <- Zle_Qle. lia.
Qed.

Lemma mean_nonneg {A : Type} (f : A -> Q) (l : list A) :
  l <> [] ->
  Forall (fun a => 0 <= f a) l ->
  0 <= AdaptiveService.sumQ (map f l) / inject_Z (Z.of_nat (length l)).
Proof.
  intros Hl H.
  apply Qle_shift_div_l.
  - change 0 with (inject_Z 0). rewrite <- Zlt_Qlt.
    destruct l; [done|cbn; lia].
  - rewrite Qmult_0_l. by apply sumQ_nonneg.
Qed.

(** X16.  When no recorded answer took a negative time and the streak of
    the profile is not negative, the context [buildUserContext] builds has
    a recent accuracy between 0 and 1, an average time that is not
    negative and an engagement level between 0 and 7/6: the engagement
    level can exceed 1, since the time factor reaches 1.5 for instant
    answers; it is at most 1 as soon as the average time is 20 seconds or
    more. *)
Theorem buildUserContext_ranges db hour userId topicId :
  TimesNonNegative db userId ->
  StreakNonNegative db userId ->
  let context := AdaptiveService.buildUserContext db hour userId topicId in
  0 <= UserContext.recent_accuracy context <= 1
  /\ 0 <= UserContext.avg_time_per_question context
  /\ (0 <= UserContext.streak_days context)%Z
  /\ 0 <= UserContext.engagement_level context <= 7 # 6
  /\ (20 <= UserContext.avg_time_per_question context ->
      UserContext.engagement_level context <= 1).
Proof.
  intros Ht Hs. unfold AdaptiveService.buildUserContext.
  cbn -[Qdiv Qplus Qminus Qle Math.max Math.min take filter].
  set (l := take 10 (default [] (question_attempts db !! userId))).
  assert (Hl : Forall (fun a => 0 <= time_taken_seconds a) l).
  { by apply Forall_take. }
  clearbody l.
  set (streak := match user_profiles db !! userId with
                 | Some p => current_streak p
                 | None => 0%Z
                 end).
  assert (Hstreak : (0 <= streak)%Z).
  { unfold streak. destruct (user_profiles db !! userId) as [p|] eqn:E;
      [by apply Hs|lia]. }
  clearbody streak.
  assert (Hq : 0 <= inject_Z streak).
  { change 0 with (inject_Z 0). by rewrite <- Zle_Qle. }
  set (s := inject_Z streak) in *. clearbody s.
  set (accuracy := match l with [] => 0.5 | _ => _ end).
  set (avg := match l with [] => 30 | _ => _ end).
  assert (Hacc : 0 <= accuracy <= 1).
  { unfold accuracy. destruct l as [|a l']; [lra|].
    by apply (proportion_range (fun a => is_correct a = true)). }
  assert (Havg : 0 <= avg).
  { unfold avg. destruct l as [|a l']; [lra|].
    by apply (mean_nonneg time_taken_seconds). }
  clearbody accuracy avg.
  unfold Qdiv.
  change (/ 7) with (1 # 7). change (/ 40) with (1 # 40).
  change (/ 3) with (1 # 3).
  repeat split; try done; try lra; try (minmax; lra).
Qed.

Lemma buildUserContext_ranges_witness :
  TimesNonNegative quick_db alice
  /\ StreakNonNegative quick_db alice
  /\ 0 <= UserContext.engagement_level
            (AdaptiveService.buildUserContext quick_db 16 alice budgeting)
     <= 7 # 6.
Proof.
  assert (Ht : TimesNonNegative quick_db alice).
  { unfold TimesNonNegative. vm_compute. repeat constructor; discriminate. }
  assert (Hs : StreakNonNegative quick_db alice).
  { intros p. vm_compute. intros H. injection H as <-. discriminate. }
  split; [exact Ht|]. split; [exact Hs|].
  exact (proj1 (proj2 (proj2 (proj2
    (buildUserContext_ranges quick_db 16 alice budgeting Ht Hs))))).
Defined.

(** The engagement level of [alice] in [quick_db] is 1.15. *)
Example engagement_above_one :
  UserContext.engagement_level
    (AdaptiveService.buildUserContext quick_db 16 alice budgeting) == 1.15.
Proof. by vm_compute. Qed.
(** ** AdaptiveService.calculateOptimalSessionLength *)

(** X17.  The session length is a multiple of 5 between 5 and 30 minutes.
    It is 5 exactly for a learner with an engagement level below 0.4 and a
    recent accuracy of at most 0.8, at 20 o'clock or later or at
    7 o'clock or earlier; it is 30 only for an engagement level above
    0.8. *)
Theorem session_length_range context :
  let minutes := AdaptiveService.calculateOptimalSessionLength context in
  (5 <= minutes <= 30)%Z
  /\ (5 | minutes)%Z
  /\ (minutes = 5%Z <->
      UserContext.engagement_level context < 0.4
      /\ UserContext.recent_accuracy context <= 0.8
      /\ (20 <= UserContext.time_of_day context
          \/ UserContext.time_of_day context <= 7)%Z)
  /\ (minutes = 30%Z -> 0.8 < UserContext.engagement_level context).
Proof.
  unfold AdaptiveService.calculateOptimalSessionLength.
  set (engagement := UserContext.engagement_level context). clearbody engagement.
  set (accuracy := UserContext.recent_accuracy context). clearbody accuracy.
  set (hour := UserContext.time_of_day context). clearbody hour.
  rewrite !Z.geb_leb.
  destruct (Z.leb_spec 15 hour), (Z.leb_spec hour 18), (Z.leb_spec 20 hour),
    (Z.leb_spec hour 7); try lia;
  compare_cases; cbn;
  (split; [lia|]);
  (split; [match goal with |- (5 | ?m)%Z => by exists (m / 5)%Z end|]);
  (split; [split; [intros ?; try lia; repeat split; try lra; lia
                  |intros (? & ? & ?); try lia; try lra]
          |intros ?; try lia; lra]).
Qed.
(** ** AdaptiveService.getQuestionRecommendation *)

(** X18.  When [Math.random] answers in [0, 1), a recommendation that
    [getQuestionRecommendation] returns has a difficulty between 0.1 and
    1; its insights are the ones of the row stored for the topic, and are
    missing exactly when there is no such row; its session length is
    between 5 and 30 minutes.  The call has left the mastery table, the
    attempts and the profiles as they were, and the models of the other
    users too. *)
Theorem getQuestionRecommendation_outcome (Entropy : Type)
    (sampleBeta : Q -> Q -> Entropy -> Q * Entropy)
    (random : Entropy -> Q * Entropy) db hour now userId topicId g db'
    recommendation g' :
  (forall g, 0 <= fst (random g) < 1) ->
  AdaptiveService.getQuestionRecommendation Entropy sampleBeta random db hour
    now userId topicId g = Ok (db', recommendation, g') ->
  0.1 <= AdaptiveService.recommended_difficulty recommendation <= 1
  /\ AdaptiveService.mastery_insights recommendation
     = MasteryService.getMasteryInsights db userId topicId
  /\ (AdaptiveService.mastery_insights recommendation = None
      <-> user_topic_mastery db !! (userId, topicId) = None)
  /\ (5 <= AdaptiveService.optimal_session_length
             (AdaptiveService.context_factors recommendation) <= 30)%Z
  /\ user_topic_mastery db' = user_topic_mastery db
  /\ question_attempts db' = question_attempts db
  /\ user_profiles db' = user_profiles db
  /\ (forall other, other <> userId ->
      bandit_models db' !! other = bandit_models db !! other).
Proof.
  intros Hrandom.
  unfold AdaptiveService.getQuestionRecommendation,
    AdaptiveService.recommendQuestion.
  set (context := AdaptiveService.buildUserContext db hour userId topicId).
  destruct (recommendQuestion_selects_arm Entropy sampleBeta random db now
              userId context g Hrandom)
    as (db1 & difficulty & g1 & arm & Hcall & _ & _ & Hrange & _).
  destruct (recommendQuestion_frame Entropy sampleBeta random db now userId
              context g)
    as (db2 & difficulty2 & g2 & Hcall2 & _ & _ & Hothers & Hm & Ha & Hp).
  rewrite Hcall in Hcall2. injection Hcall2 as <- <- <-.
  rewrite Hcall. cbn. intros Hresult. injection Hresult as <- <- <-. cbn.
  split; [lra|].
  unfold MasteryService.getMasteryInsights. rewrite Hm.
  split; [reflexivity|].
  split.
  { destruct (user_topic_mastery db !! (userId, topicId)); by split. }
  split.
  { unfold AdaptiveService.calculateOptimalSessionLength. lia. }
  done.
Qed.

Lemma getQuestionRecommendation_outcome_witness :
  (forall g : list (Q * Q), 0 <= fst (recordingRandom g) < 1)
  /\ exists db' recommendation g',
       AdaptiveService.getQuestionRecommendation (list (Q * Q))
         recordingSampleBeta recordingRandom quick_db 16 5000 alice budgeting []
       = Ok (db', recommendation, g')
       /\ 0.1 <= AdaptiveService.recommended_difficulty recommendation <= 1
       /\ user_topic_mastery db' = user_topic_mastery quick_db.
Proof.
  assert (H : forall g : list (Q * Q), 0 <= fst (recordingRandom g) < 1).
  { intros g. cbn. lra. }
  split; [exact H|].
  eexists _, _, _. split; [vm_compute; reflexivity|].
  eassert (Hout : _).
  { eapply (getQuestionRecommendation_outcome (list (Q * Q))
              recordingSampleBeta recordingRandom quick_db 16 5000 alice
              budgeting []); [exact H|].
    vm_compute. reflexivity. }
  destruct Hout as (Hrange & _ & _ & _ & Hmastery & _).
  split; [exact Hrange|exact Hmastery].
Defined.

(** ** AdaptiveService.getNextSessionRecommendation *)

Lemma inject_Z_bounds k lo hi x :
  inject_Z k - 1 < x -> x <= inject_Z k ->
  inject_Z lo < x -> x <= inject_Z hi ->
  (lo < k <= hi)%Z.
Proof.
  intros H1 H2 H3 H4. split.
  - rewrite Zlt_Qlt. lra.
  - assert (H : inject_Z k < inject_Z (hi + 1)).
    { rewrite inject_Z_plus. change (inject_Z 1) with 1. lra. }
    rewrite <- Zlt_Qlt in H. lia.
Qed.

(** The quotient [masteryGap / averageLearningRate] rounded up, over the
    rationals. *)
Lemma estimateTimeToMastery_spec score :
  0 <= score <= 1 ->
  exists k : Z,
    AdaptiveService.estimateTimeToMastery score = inject_Z k
    /\ (0 <= k <= 16)%Z
    /\ (0.8 <= score <-> k = 0%Z)
    /\ (score < 0.8 ->
        (inject_Z k - 1) * 0.05 < 0.8 - score <= inject_Z k * 0.05).
Proof.
  intros Hs. unfold AdaptiveService.estimateTimeToMastery.
  compare_cases.
  - exists 0%Z. split; [reflexivity|]. split; [lia|].
    split; [split; [done|lra]|]. intros H'. lra.
  - exists (Qceiling ((0.8 - score) / 0.05)). split; [reflexivity|].
    unfold Qdiv. change (/ 0.05) with (100 # 5).
    pose proof (Qle_ceiling ((0.8 - score) * (100 # 5))) as Hle.
    pose proof (Qceiling_lt ((0.8 - score) * (100 # 5))) as Hlt.
    set (k := Qceiling _) in *. clearbody k.
    unfold Z.sub in Hlt. rewrite inject_Z_plus, inject_Z_opp in Hlt.
    change (inject_Z 1) with 1 in Hlt.
    assert (Hk : (0 < k <= 16)%Z).
    { apply (inject_Z_bounds k 0 16 ((0.8 - score) * (100 # 5)));
        [done|done|change (inject_Z 0) with 0; lra
        |change (inject_Z 16) with 16; lra]. }
    split; [lia|]. split; [split; [lra|lia]|]. intros _. lra.
Qed.

(** X19.  For a mastery score between 0 and 1, the recommendation for the
    next session is consistent: it advises to move to the next topic
    exactly when the score is at least 0.8, which is exactly when the
    estimated time to mastery is 0.  The estimate is a whole number of
    minutes between 0 and 16; below 0.8 it is within a minute of the time
    in which 0.05 a minute closes the gap to 0.8: the code rounds up a
    quotient computed in binary64, which can land just above a whole
    number and so cost one minute more than the exact quotient rounded
    up.  The advice never contradicts itself (not both to move on and to
    review the fundamentals, not both story mode and challenge mode),
    holds at most two actions, and the next difficulty target is between
    0.1 and 0.9. *)
Theorem next_session_consistent context masteryUpdate :
  let score := MasteryState.mastery_score masteryUpdate in
  let next :=
    AdaptiveService.getNextSessionRecommendation context masteryUpdate in
  0 <= score <= 1 ->
  (In "topic_mastered_move_to_next" (AdaptiveService.recommended_actions next)
   <-> 0.8 <= score)
  /\ (exists k : Z,
        AdaptiveService.estimated_time_to_mastery next = inject_Z k
        /\ (0 <= k <= 16)%Z
        /\ (0.8 <= score <-> k = 0%Z)
        /\ (score < 0.8 ->
            (inject_Z k - 2) * 0.05 < 0.8 - score
            /\ 0.8 - score < (inject_Z k + 1) * 0.05))
  /\ ~ (In "topic_mastered_move_to_next"
          (AdaptiveService.recommended_actions next)
        /\ In "review_fundamentals" (AdaptiveService.recommended_actions next))
  /\ ~ (In "try_story_mode_next_session"
          (AdaptiveService.recommended_actions next)
        /\ In "ready_for_challenge_mode"
             (AdaptiveService.recommended_actions next))
  /\ (length (AdaptiveService.recommended_actions next) <= 2)%nat
  /\ 0.1 <= AdaptiveService.next_difficulty_target next <= 0.9.
Proof.
  intros score next Hs.
  split; [|split].
  - unfold next, AdaptiveService.getNextSessionRecommendation. fold score.
    cbn [AdaptiveService.recommended_actions].
    compare_cases; cbn; split; intros H';
      first [lra | done | by left
            | repeat destruct H' as [H'|H']; try discriminate; done].
  - destruct (estimateTimeToMastery_spec score Hs)
      as (k & Ek & Hk & Hzero & Hnear).
    exists k. split; [exact Ek|]. split; [exact Hk|]. split; [exact Hzero|].
    intros Hlow. specialize (Hnear Hlow). lra.
  - unfold next, AdaptiveService.getNextSessionRecommendation. fold score.
    cbn [AdaptiveService.recommended_actions
         AdaptiveService.next_difficulty_target].
    split; [|split; [|split]].
    + compare_cases; cbn; intros [Ha Hb];
        repeat destruct Ha as [Ha|Ha]; try discriminate; try done;
        repeat destruct Hb as [Hb|Hb]; try discriminate; try done; lra.
    + compare_cases; cbn; intros [Ha Hb];
        repeat destruct Ha as [Ha|Ha]; try discriminate; try done;
        repeat destruct Hb as [Hb|Hb]; try discriminate; try done; lra.
    + compare_cases; cbn; lia.
    + unfold AdaptiveService.calculateNextDifficultyTarget. minmax; lra.
Qed.

Lemma next_session_consistent_witness :
  0 <= MasteryState.mastery_score
         (MasteryService.applyBKTUpdate 5000 practised false 0.5 20) <= 1
  /\ (In "topic_mastered_move_to_next"
         (AdaptiveService.recommended_actions
            (AdaptiveService.getNextSessionRecommendation
               (AdaptiveService.buildUserContext quick_db 16 alice budgeting)
               (MasteryService.applyBKTUpdate 5000 practised false 0.5 20)))
       <-> 0.8 <= MasteryState.mastery_score
                    (MasteryService.applyBKTUpdate 5000 practised false 0.5 20))
  /\ (exists k : Z,
        AdaptiveService.estimated_time_to_mastery
          (AdaptiveService.getNextSessionRecommendation
             (AdaptiveService.buildUserContext quick_db 16 alice budgeting)
             (MasteryService.applyBKTUpdate 5000 practised false 0.5 20))
        = inject_Z k
        /\ (0 <= k <= 16)%Z)
  /\ (length
        (AdaptiveService.recommended_actions
           (AdaptiveService.getNextSessionRecommendation
              (AdaptiveService.buildUserContext quick_db 16 alice budgeting)
              (MasteryService.applyBKTUpdate 5000 practised false 0.5 20)))
      <= 2)%nat.
Proof.
  assert (H : 0 <= MasteryState.mastery_score
                     (MasteryService.applyBKTUpdate 5000 practised false 0.5 20)
              <= 1).
  { vm_compute. split; discriminate. }
  split; [exact H|].
  destruct (next_session_consistent
              (AdaptiveService.buildUserContext quick_db 16 alice budgeting)
              (MasteryService.applyBKTUpdate 5000 practised false 0.5 20) H)
    as (Hmove & (k & Ek & Hk & _) & _ & _ & Hlen & _).
  split; [exact Hmove|]. split; [|exact Hlen].
  exists k. split; [exact Ek|exact Hk].
Defined.

(** ** AdaptiveService.processFeedback *)

(** What one [updateMastery] writes: the row of the topic, and nothing
    else. *)
Lemma updateMastery_frame db db' state now userId topicId isCorrect difficulty
    timeTaken :
  MasteryService.updateMastery db now userId topicId isCorrect difficulty
    timeTaken = Ok (db', state) ->
  user_topic_mastery db' !! (userId, topicId)
  = Some (MasteryService.updatedRow now (currentRow db userId topicId) state
            isCorrect timeTaken)
  /\ (forall key, key <> (userId, topicId) ->
      user_topic_mastery db' !! key = user_topic_mastery db !! key)
  /\ bandit_models db' = bandit_models db
  /\ question_attempts db' = question_attempts db
  /\ user_profiles db' = user_profiles db.
Proof.
  rewrite updateMastery_total. intros H. injection H as <- <-. cbn.
  split; [apply lookup_insert_eq|].
  split; [|done]. intros key Hkey. by rewrite lookup_insert_ne.
Qed.

(** X20.  [processFeedback] returns for every database and every feedback.
    The row it leaves for the topic holds the estimates it reports in
    [mastery_update]; its counters have moved by two answers: two
    attempts, two correct answers if the answer was correct, and the time
    taken twice (once with 30 seconds in place of zero); it was last
    written at the later of the two instants.  The rows of the other
    topics and users, the attempts and the profiles are as before, and so
    are the bandit models of the other users. *)
Theorem processFeedback_writes db hour now1 now2 userId topicId feedbackData :
  let before := currentRow db userId topicId in
  let isCorrect := FeedbackData.isCorrect feedbackData in
  let timeTaken := FeedbackData.timeTaken feedbackData in
  exists db' feedback row,
    AdaptiveService.processFeedback db hour now1 now2 userId topicId
      feedbackData = Ok (db', feedback)
    /\ user_topic_mastery db' !! (userId, topicId) = Some row
    /\ mastery_score row
       = MasteryState.mastery_score (AdaptiveService.mastery_update feedback)
    /\ learning_rate row
       = MasteryState.learning_rate (AdaptiveService.mastery_update feedback)
    /\ confidence_interval row
       = MasteryState.confidence_interval
           (AdaptiveService.mastery_update feedback)
    /\ attempts_count row = (attempts_count before + 2)%Z
    /\ correct_answers row
       = (correct_answers before + (if isCorrect then 2 else 0))%Z
    /\ time_spent_seconds row
       == time_spent_seconds before
          + AdaptiveService.or_default timeTaken 30 + timeTaken
    /\ last_attempt_at row = Some now2
    /\ (forall key, key <> (userId, topicId) ->
        user_topic_mastery db' !! key = user_topic_mastery db !! key)
    /\ (forall other, other <> userId ->
        bandit_models db' !! other = bandit_models db !! other)
    /\ question_attempts db' = question_attempts db
    /\ user_profiles db' = user_profiles db.
Proof.
  intros before isCorrect timeTaken.
  destruct (processFeedback_steps db hour now1 now2 userId topicId feedbackData)
    as (db_bandit & db_once & state_once & db_twice & state_twice & feedback
        & Hb & H1 & H2 & Hcall & Hreport & _ & _).
  fold isCorrect timeTaken in Hb, H1, H2.
  destruct (bandit_updateModel_frame _ _ _ _ _ _ _ Hb)
    as (Hb_others & Hb_mastery & Hb_attempts & Hb_profiles).
  destruct (updateMastery_frame _ _ _ _ _ _ _ _ _ H1)
    as (Hrow1 & Hkeys1 & Hmodels1 & Hattempts1 & Hprofiles1).
  destruct (updateMastery_frame _ _ _ _ _ _ _ _ _ H2)
    as (Hrow2 & Hkeys2 & Hmodels2 & Hattempts2 & Hprofiles2).
  assert (Hcur1 : currentRow db_bandit userId topicId = before).
  { unfold before, currentRow. by rewrite Hb_mastery. }
  assert (Hcur2 : currentRow db_once userId topicId
                  = MasteryService.updatedRow now1 before state_once isCorrect
                      (AdaptiveService.or_default timeTaken 30)).
  { unfold currentRow at 1. rewrite Hrow1, Hcur1. reflexivity. }
  rewrite Hcur2 in Hrow2.
  exists db_twice, feedback. eexists.
  split; [exact Hcall|]. split; [exact Hrow2|]. rewrite Hreport. cbn.
  split; [reflexivity|]. split; [reflexivity|]. split; [reflexivity|].
  split; [lia|].
  split; [destruct isCorrect; lia|].
  split; [reflexivity|]. split; [reflexivity|].
  split.
  { intros key Hkey. rewrite Hkeys2, Hkeys1 by done. by rewrite Hb_mastery. }
  split.
  { intros other Hother. rewrite Hmodels2, Hmodels1. by apply Hb_others. }
  split; congruence.
Qed.

(** ** QuizService: experience points *)

(** [Math.round] of a number between two integers is between them. *)
Lemma round_floor_bounds lo hi x :
  inject_Z lo <= x -> x <= inject_Z hi ->
  (lo <= Qfloor (Math.round x) <= hi)%Z.
Proof.
  intros Hlo Hhi. unfold Math.round. rewrite Qfloor_Z. split.
  - rewrite <- (Qfloor_Z lo). apply Qfloor_resp_le. lra.
  - pose proof (Qfloor_le (x + 0.5)) as H.
    assert (H' : inject_Z (Qfloor (x + 0.5)) < inject_Z (hi + 1)).
    { rewrite inject_Z_plus. change (inject_Z 1) with 1. lra. }
    rewrite <- Zlt_Qlt in H'. lia.
Qed.

Lemma round_floor_mono x y :
  x <= y -> (Qfloor (Math.round x) <= Qfloor (Math.round y))%Z.
Proof.
  intros H. unfold Math.round. rewrite !Qfloor_Z. apply Qfloor_resp_le. lra.
Qed.

Lemma calculateBaseXP_bounds (isCorrect : bool) difficulty :
  0 <= difficulty <= 1 ->
  if isCorrect
  then (50 <= QuizService.calculateBaseXP isCorrect difficulty <= 100)%Z
  else QuizService.calculateBaseXP isCorrect difficulty = 10%Z.
Proof.
  intros H. destruct isCorrect; [|reflexivity].
  unfold QuizService.calculateBaseXP. cbn [negb].
  apply round_floor_bounds.
  - change (inject_Z 50) with 50. lra.
  - change (inject_Z 100) with 100. lra.
Qed.

(** X21.  For a question of difficulty between 0 and 1, a correct answer
    earns between 40 and 150 experience points and an incorrect one
    between 8 and 15, whatever the time taken and the use of a hint: any
    correct answer earns more than any incorrect one.  A hint never raises
    the points of an answer. *)
Theorem xp_earned_bounds difficulty timeTaken hintUsed :
  0 <= difficulty <= 1 ->
  (40 <= QuizService.xpEarned true difficulty timeTaken hintUsed <= 150)%Z
  /\ (8 <= QuizService.xpEarned false difficulty timeTaken hintUsed <= 15)%Z
  /\ (forall isCorrect,
        QuizService.xpEarned isCorrect difficulty timeTaken true
        <= QuizService.xpEarned isCorrect difficulty timeTaken false)%Z.
Proof.
  intros Hd.
  assert (Hbase : forall (isCorrect : bool) lo hi,
    (if isCorrect then (lo <= 40 /\ 150 <= hi)%Z
     else (lo <= 8 /\ 15 <= hi)%Z) ->
    (lo <= QuizService.xpEarned isCorrect difficulty timeTaken hintUsed <= hi)%Z).
  { intros isCorrect lo hi Hb.
    pose proof (calculateBaseXP_bounds isCorrect difficulty Hd) as H.
    unfold QuizService.xpEarned.
    set (base := QuizService.calculateBaseXP isCorrect difficulty) in *.
    clearbody base.
    assert (Hq : if isCorrect then 50 <= inject_Z base <= 100
                 else inject_Z base == 10).
    { destruct isCorrect.
      - change 50 with (inject_Z 50). change 100 with (inject_Z 100).
        rewrite <- !Zle_Qle. lia.
      - by rewrite H. }
    set (b := inject_Z base) in *. clearbody b.
    assert (Hlo : inject_Z lo <= if isCorrect then 40 else 8).
    { destruct isCorrect;
        [change 40 with (inject_Z 40)|change 8 with (inject_Z 8)];
        rewrite <- Zle_Qle; lia. }
    assert (Hhi : (if isCorrect then 150 else 15) <= inject_Z hi).
    { destruct isCorrect;
        [change 150 with (inject_Z 150)|change 15 with (inject_Z 15)];
        rewrite <- Zle_Qle; lia. }
    apply round_floor_bounds;
      unfold QuizService.calculateTimeBonus;
      destruct isCorrect, hintUsed; compare_cases; lra. }
  split; [by apply (Hbase true)|]. split; [by apply (Hbase false)|].
  intros isCorrect.
  pose proof (calculateBaseXP_bounds isCorrect difficulty Hd) as H.
  unfold QuizService.xpEarned.
  set (base := QuizService.calculateBaseXP isCorrect difficulty) in *.
  clearbody base.
  assert (Hq : 0 <= inject_Z base).
  { change 0 with (inject_Z 0). rewrite <- Zle_Qle. destruct isCorrect; lia. }
  set (b := inject_Z base) in *. clearbody b.
  apply round_floor_mono.
  unfold QuizService.calculateTimeBonus. compare_cases; nra.
Qed.

Lemma xp_earned_bounds_witness :
  0 <= 0.6 <= 1
  /\ (40 <= QuizService.xpEarned true 0.6 12 true <= 150)%Z.
Proof.
  assert (H : 0 <= 0.6 <= 1) by lra.
  split; [exact H|]. exact (proj1 (xp_earned_bounds 0.6 12 true H)).
Defined.

(** ** ProgressService: levels *)

Lemma calculateLevel_spec xp n :
  (0 <= xp)%Z ->
  ProgressService.calculateLevel xp = Some n
  <-> (1 <= n /\ 100 * ((n - 1) * (n - 1)) <= xp < 100 * (n * n))%Z.
Proof.
  intros Hxp. unfold ProgressService.calculateLevel.
  destruct (Z.ltb_spec xp 0) as [?|_]; [lia|].
  pose proof (Z.div_mod xp 100 ltac:(lia)) as Hdiv.
  pose proof (Z.mod_pos_bound xp 100 ltac:(lia)) as Hmod.
  set (q := (xp / 100)%Z) in *. clearbody q.
  assert (Hq : (0 <= q)%Z) by lia.
  pose proof (Z.sqrt_spec q Hq) as Hs. cbv zeta in Hs.
  pose proof (Z.sqrt_nonneg q) as Hs0.
  split.
  - intros H. injection H as <-.
    set (s := Z.sqrt q) in *. clearbody s. nia.
  - intros (Hn & Hlo & Hhi). f_equal.
    assert (E : Z.sqrt q = (n - 1)%Z); [|lia].
    apply Z.sqrt_unique. nia.
Qed.

Lemma calculateLevel_defined xp :
  (0 <= xp)%Z -> exists n, ProgressService.calculateLevel xp = Some n.
Proof.
  intros H. unfold ProgressService.calculateLevel.
  destruct (Z.ltb_spec xp 0); [lia|]. by eexists.
Qed.

Lemma calculateLevel_mono xp xp' n n' :
  (0 <= xp <= xp')%Z ->
  ProgressService.calculateLevel xp = Some n ->
  ProgressService.calculateLevel xp' = Some n' ->
  (n <= n')%Z.
Proof.
  intros Hle E E'.
  apply calculateLevel_spec in E as (Hn & Hlo & Hhi); [|lia].
  apply calculateLevel_spec in E' as (Hn' & Hlo' & Hhi'); [|lia]. nia.
Qed.

(** X22.  The level of a total of experience points that is not negative
    is the [n >= 1] with [100 (n - 1)^2 <= total < 100 n^2]: level 1 up to
    99 points, level 2 from 100, level 3 from 400.  The level never goes
    down when the total grows.  A negative total has no level (the square
    root is NaN). *)
Theorem level_thresholds xp :
  ((0 <= xp)%Z ->
   exists n,
     ProgressService.calculateLevel xp = Some n
     /\ (1 <= n)%Z
     /\ (100 * ((n - 1) * (n - 1)) <= xp < 100 * (n * n))%Z
     /\ (forall xp' n', (xp <= xp')%Z ->
           ProgressService.calculateLevel xp' = Some n' -> (n <= n')%Z))
  /\ ((xp < 0)%Z <-> ProgressService.calculateLevel xp = None).
Proof.
  split.
  - intros Hxp. destruct (calculateLevel_defined xp Hxp) as [n E].
    exists n. split; [exact E|].
    pose proof (proj1 (calculateLevel_spec xp n Hxp) E) as (Hn & Hlo & Hhi).
    split; [done|]. split; [done|].
    intros xp' n' Hle E'. by apply (calculateLevel_mono xp xp').
  - unfold ProgressService.calculateLevel.
    destruct (Z.ltb_spec xp 0); split; try done; lia.
Qed.

Lemma level_thresholds_witness :
  (0 <= 250)%Z
  /\ exists n,
       ProgressService.calculateLevel 250 = Some n
       /\ (1 <= n)%Z
       /\ (100 * ((n - 1) * (n - 1)) <= 250 < 100 * (n * n))%Z
       /\ (forall xp' n', (250 <= xp')%Z ->
             ProgressService.calculateLevel xp' = Some n' -> (n <= n')%Z).
Proof.
  assert (H : (0 <= 250)%Z) by lia.
  split; [exact H|]. exact (proj1 (level_thresholds 250) H).
Defined.

(** ** ProgressService.addXp *)

(** X23.  [addXp] on a profile whose stored level is the level of its
    total, for an amount that is not negative: the call returns, the
    profile it leaves holds the sum and again the level of its total, the
    level has not gone down, and [leveled_up] is set exactly when it went
    up; the profiles of the other users are as before. *)
Theorem addXp_keeps_level profiles userId xpAmount profile :
  profiles !! userId = Some profile ->
  LevelConsistent profile ->
  (0 <= xpAmount)%Z ->
  exists profiles' update profile' level level',
    ProgressService.addXp profiles userId xpAmount = Ok (profiles', update)
    /\ profiles' !! userId = Some profile'
    /\ total_xp profile' = (total_xp profile + xpAmount)%Z
    /\ LevelConsistent profile'
    /\ current_level profile = Some level
    /\ current_level profile' = Some level'
    /\ (level <= level')%Z
    /\ (XpUpdate.leveled_up update = true <-> (level < level')%Z)
    /\ XpUpdate.new_xp update = total_xp profile'
    /\ XpUpdate.new_level update = Some level'
    /\ XpUpdate.xp_gained update = xpAmount
    /\ (forall other, other <> userId ->
        profiles' !! other = profiles !! other).
Proof.
  intros Hp [Hxp Hlevel] Hamount.
  destruct (calculateLevel_defined (total_xp profile) Hxp) as [level El].
  destruct (calculateLevel_defined (total_xp profile + xpAmount)%Z)
    as [level' El']; [lia|].
  unfold ProgressService.addXp. rewrite Hp, El'.
  eexists _, _, _, level, level'. split; [reflexivity|].
  split; [apply lookup_insert_eq|]. cbn.
  split; [reflexivity|].
  split; [split; [cbn; lia|cbn; by rewrite El']|].
  split; [congruence|]. split; [reflexivity|].
  assert (Hle : (level <= level')%Z).
  { apply (calculateLevel_mono (total_xp profile)
             (total_xp profile + xpAmount)%Z); [lia|done|done]. }
  split; [done|].
  split.
  { rewrite Hlevel, El. cbn. rewrite Z.gtb_ltb. apply Z.ltb_lt. }
  split; [reflexivity|]. split; [reflexivity|]. split; [reflexivity|].
  intros other Hother. by rewrite lookup_insert_ne.
Qed.

Lemma addXp_keeps_level_witness :
  xp_profiles class_ldb !! alice
  = Some {| total_xp := 380; current_level := Some 2%Z |}
  /\ LevelConsistent {| total_xp := 380; current_level := Some 2%Z |}
  /\ (0 <= 65)%Z
  /\ exists profiles' update profile' level level',
       ProgressService.addXp (xp_profiles class_ldb) alice 65
       = Ok (profiles', update)
       /\ profiles' !! alice = Some profile'
       /\ total_xp profile' = (380 + 65)%Z
       /\ LevelConsistent profile'
       /\ Some 2%Z = Some level
       /\ current_level profile' = Some level'
       /\ (level <= level')%Z
       /\ (XpUpdate.leveled_up update = true <-> (level < level')%Z)
       /\ XpUpdate.new_xp update = total_xp profile'
       /\ XpUpdate.new_level update = Some level'
       /\ XpUpdate.xp_gained update = 65%Z
       /\ (forall other, other <> alice ->
           profiles' !! other = xp_profiles class_ldb !! other).
Proof.
  assert (Hp : xp_profiles class_ldb !! alice
               = Some {| total_xp := 380; current_level := Some 2%Z |})
    by reflexivity.
  assert (Hl : LevelConsistent {| total_xp := 380; current_level := Some 2%Z |}).
  { split; [cbn; lia|reflexivity]. }
  assert (Ha : (0 <= 65)%Z) by lia.
  split; [exact Hp|]. split; [exact Hl|]. split; [exact Ha|].
  exact (addXp_keeps_level (xp_profiles class_ldb) alice 65 _ Hp Hl Ha).
Defined.

(** ** ProgressService.updateTopicMastery *)

Lemma calculateNewMastery_bounds currentMastery isCorrect learningRate
    forgettingRate :
  0.01 <= currentMastery <= 0.99 ->
  0 <= learningRate ->
  0 <= forgettingRate ->
  let newMasteryScore :=
    ProgressService.calculateNewMastery currentMastery isCorrect learningRate
      forgettingRate in
  0.01 <= newMasteryScore <= 0.99
  /\ (if isCorrect then currentMastery <= newMasteryScore
      else newMasteryScore <= currentMastery).
Proof.
  intros Hm Hl Hf. unfold ProgressService.calculateNewMastery.
  destruct isCorrect.
  - assert (0 <= learningRate * (1 - currentMastery))
      by (apply Qmult_le_0_compat; lra).
    set (gain := learningRate * (1 - currentMastery)) in *. clearbody gain.
    minmax; lra.
  - assert (0 <= forgettingRate * currentMastery)
      by (apply Qmult_le_0_compat; lra).
    set (loss := forgettingRate * currentMastery) in *. clearbody loss.
    minmax; lra.
Qed.

(** X24.  [updateTopicMastery] on a row in the documented ranges, with a
    forgetting rate that is not negative (or on no row: it then creates
    the same row as [initializeMastery]).  The score it returns is
    between 0.01 and 0.99, not below the stored one after a correct
    answer and not above it after an incorrect one; [is_mastered] is set
    exactly when the score is at least 0.8.  The row it leaves counts one
    attempt more, and one correct answer more if the answer was correct;
    its learning rate, forgetting rate and confidence interval are the
    stored ones: this service does not adapt them.  The other rows and
    tables are as before. *)
Theorem updateTopicMastery_outcome db now userId topicId isCorrect timeTaken :
  StoredInRange db userId topicId ->
  ForgettingRateNonNegative db userId topicId ->
  let before := currentRow db userId topicId in
  exists db' update row,
    ProgressService.updateTopicMastery db now userId topicId isCorrect
      timeTaken = (db', update)
    /\ ProgressService.newMastery = MasteryService.initialMastery
    /\ 0.01 <= TopicMasteryUpdate.mastery_score update <= 0.99
    /\ (if isCorrect
        then mastery_score before <= TopicMasteryUpdate.mastery_score update
        else TopicMasteryUpdate.mastery_score update <= mastery_score before)
    /\ (TopicMasteryUpdate.is_mastered update = true
        <-> 0.8 <= TopicMasteryUpdate.mastery_score update)
    /\ TopicMasteryUpdate.attempts_count update
       = (attempts_count before + 1)%Z
    /\ user_topic_mastery db' !! (userId, topicId) = Some row
    /\ attempts_count row = (attempts_count before + 1)%Z
    /\ correct_answers row
       = (correct_answers before + (if isCorrect then 1 else 0))%Z
    /\ learning_rate row = learning_rate before
    /\ forgetting_rate row = forgetting_rate before
    /\ confidence_interval row = confidence_interval before
    /\ last_attempt_at row = Some now
    /\ (forall key, key <> (userId, topicId) ->
        user_topic_mastery db' !! key = user_topic_mastery db !! key)
    /\ bandit_models db' = bandit_models db
    /\ question_attempts db' = question_attempts db
    /\ user_profiles db' = user_profiles db.
Proof.
  intros Hrange Hforget before.
  pose proof (currentRow_in_range db userId topicId Hrange) as [].
  pose proof (currentRow_forgetting_rate db userId topicId Hforget) as Hf.
  subst before.
  destruct (calculateNewMastery_bounds
              (mastery_score (currentRow db userId topicId)) isCorrect
              (learning_rate (currentRow db userId topicId))
              (forgetting_rate (currentRow db userId topicId)))
    as [Hnew Hdir]; [done|lra|done|].
  cbv zeta in Hnew, Hdir.
  unfold ProgressService.updateTopicMastery.
  assert (Hsame : forall (tbl : gmap (string * string) MasteryRow) f,
    (forall key, key <> (userId, topicId) ->
     alter f (userId, topicId) tbl !! key = tbl !! key)).
  { intros tbl f key Hkey. by rewrite lookup_alter_ne. }
  unfold currentRow in *.
  destruct (user_topic_mastery db !! (userId, topicId)) as [mastery|] eqn:E;
    cbn [from_option id] in *.
  - eexists _, _, _. split; [reflexivity|]. split; [reflexivity|].
    cbn -[ProgressService.calculateNewMastery Qle].
    split; [exact Hnew|]. split; [exact Hdir|].
    split; [apply Qle_bool_iff|]. split; [reflexivity|].
    split; [rewrite lookup_alter_eq, E; reflexivity|].
    cbn -[ProgressService.calculateNewMastery Qle].
    repeat (split; [reflexivity|]).
    split; [apply Hsame|]. done.
  - eexists _, _, _. split; [reflexivity|]. split; [reflexivity|].
    cbn -[ProgressService.calculateNewMastery Qle].
    split; [exact Hnew|]. split; [exact Hdir|].
    split; [apply Qle_bool_iff|]. split; [reflexivity|].
    split; [rewrite lookup_alter_eq, lookup_insert_eq; reflexivity|].
    cbn -[ProgressService.calculateNewMastery Qle].
    repeat (split; [reflexivity|]).
    split; [|done].
    intros key Hkey. rewrite lookup_alter_ne, lookup_insert_ne by done.
    reflexivity.
Qed.

Lemma updateTopicMastery_outcome_witness :
  StoredInRange practised_db alice budgeting
  /\ ForgettingRateNonNegative practised_db alice budgeting
  /\ exists db' update,
       ProgressService.updateTopicMastery practised_db 5000 alice budgeting
         true 20 = (db', update)
       /\ 0.01 <= TopicMasteryUpdate.mastery_score update <= 0.99.
Proof.
  assert (Hr : StoredInRange practised_db alice budgeting).
  { intros row H. vm_compute in H. injection H as <-.
    split; vm_compute; discriminate. }
  assert (Hf : ForgettingRateNonNegative practised_db alice budgeting).
  { intros row H. vm_compute in H. injection H as <-.
    vm_compute. discriminate. }
  split; [exact Hr|]. split; [exact Hf|].
  destruct (updateTopicMastery_outcome practised_db 5000 alice budgeting true
              20 Hr Hf)
    as (db' & update & row & Hcall & _ & Hscore & _).
  by exists db', update.
Defined.

(** ** QuizService.getNextQuestion *)

(** [rows[Math.floor(u * rows.length)]] is a row when [0 <= u < 1] and
    there are rows. *)
Lemma pick_some {A : Type} (u : Q) (rows : list A) :
  0 <= u < 1 -> rows <> [] ->
  exists row, pick u rows = Some row /\ row ∈ rows.
Proof.
  intros Hu Hrows. unfold pick.
  assert (Hn : 0 < inject_Z (Z.of_nat (length rows))).
  { change 0 with (inject_Z 0). rewrite <- Zlt_Qlt.
    destruct rows; [done|cbn; lia]. }
  set (n := inject_Z (Z.of_nat (length rows))) in *.
  assert (Hlo : (0 <= Qfloor (u * n))%Z).
  { change 0%Z with (Qfloor 0). apply Qfloor_resp_le. nra. }
  assert (Hhi : (Qfloor (u * n) < Z.of_nat (length rows))%Z).
  { rewrite Zlt_Qlt. fold n. pose proof (Qfloor_le (u * n)). nra. }
  destruct (Z.ltb_spec (Qfloor (u * n)) 0) as [?|_]; [lia|].
  destruct (lookup_lt_is_Some_2 rows (Z.to_nat (Qfloor (u * n)))) as [row E];
    [lia|].
  exists row. split; [exact E|]. by eapply list_elem_of_lookup_2.
Qed.

Lemma elem_of_take_list {A : Type} (n : nat) (l : list A) (x : A) :
  x ∈ take n l -> x ∈ l.
Proof.
  rewrite elem_of_take. intros (i & E & _). by eapply list_elem_of_lookup_2.
Qed.

Lemma take_succ_nil {A : Type} (n : nat) (l : list A) :
  take (S n) l = [] -> l = [].
Proof. by destruct l. Qed.

Lemma isCandidate_spec topicId q :
  QuizService.isCandidate topicId q = true
  <-> question_topic_id q = topicId /\ is_active q = true.
Proof.
  unfold QuizService.isCandidate.
  rewrite andb_true_iff, String.eqb_eq. reflexivity.
Qed.

(** X25.  [getNextQuestion], once the recommendation of the difficulty
    has returned and when [Math.random] answers in [0, 1).  If the topic
    has no active question it fails with 'No questions available for this
    topic'.  Otherwise it returns a question of the table which is active
    and of the topic.  If some active question of the topic has a
    difficulty within 0.09 of the recommended one, the question returned
    is closer than 0.11 to it: the filter keeps the questions within 0.1,
    between bounds the code computes in binary64, and the two margins
    leave room for their rounding.  The questions, the experience points
    and the mastery table are as before. *)
Theorem getNextQuestion_outcome (Entropy : Type)
    (sampleBeta : Q -> Q -> Entropy -> Q * Entropy)
    (random : Entropy -> Q * Entropy) ldb hour now userId topicId g db'
    difficulty g1 :
  (forall g, 0 <= fst (random g) < 1) ->
  AdaptiveService.recommendQuestion Entropy sampleBeta random (engine ldb) now
    userId (QuizService.buildUserContext (engine ldb) hour userId topicId) g
  = Ok (db', difficulty, g1) ->
  let candidates :=
    filter (fun q => QuizService.isCandidate topicId q = true)
      (questions ldb) in
  (candidates = [] ->
   QuizService.getNextQuestion Entropy sampleBeta random ldb hour now userId
     topicId g = Throw "No questions available for this topic")
  /\ (candidates <> [] ->
      exists question g',
        QuizService.getNextQuestion Entropy sampleBeta random ldb hour now
          userId topicId g
        = Ok ({| engine := db';
                 questions := questions ldb;
                 xp_profiles := xp_profiles ldb |}, Some question, g')
        /\ question ∈ questions ldb
        /\ question_topic_id question = topicId
        /\ is_active question = true
        /\ (Exists (fun q => QuizService.isCandidate topicId q = true
                             /\ difficulty - 0.09 <= difficulty_level q
                             /\ difficulty_level q <= difficulty + 0.09)
              (questions ldb) ->
            difficulty - 0.11 < difficulty_level question
            /\ difficulty_level question < difficulty + 0.11)
        /\ user_topic_mastery db' = user_topic_mastery (engine ldb)).
Proof.
  intros Hrandom Hcall candidates.
  unfold QuizService.getNextQuestion.
  destruct (recommendQuestion_frame Entropy sampleBeta random (engine ldb) now
              userId
              (QuizService.buildUserContext (engine ldb) hour userId topicId)
              g)
    as (db2 & difficulty2 & g2 & Hcall2 & _ & _ & _ & Hm & _).
  unfold AdaptiveService.recommendQuestion in Hcall.
  rewrite Hcall in Hcall2. injection Hcall2 as <- <- <-.
  unfold AdaptiveService.recommendQuestion. rewrite Hcall.
  cbn -[take filter]. fold candidates.
  set (near := filter _ (questions ldb)).
  assert (Hnear : forall q, q ∈ near <->
            (QuizService.isCandidate topicId q = true
             /\ QuizService.isNear difficulty q = true) /\ q ∈ questions ldb).
  { intros q. unfold near. rewrite list_elem_of_filter, andb_true_iff.
    reflexivity. }
  clearbody near.
  assert (Hcand : forall q, q ∈ candidates <->
            QuizService.isCandidate topicId q = true /\ q ∈ questions ldb).
  { intros q. unfold candidates. by rewrite list_elem_of_filter. }
  clearbody candidates.
  assert (Hwithin : forall q,
            QuizService.isNear difficulty q = true <->
            difficulty - 0.1 <= difficulty_level q
            /\ difficulty_level q <= difficulty + 0.1).
  { intros q. unfold QuizService.isNear.
    rewrite andb_true_iff, <- !Qle_bool_iff. reflexivity. }
  pose proof (Hrandom g1) as Hu. destruct (random g1) as [u g'].
  cbn [fst] in Hu.
  split.
  - intros ->.
    assert (near = []) as ->.
    { destruct near as [|q near']; [done|].
      assert (Hq : q ∈ q :: near') by left.
      apply Hnear in Hq as ((Hq & _) & Hin).
      assert (Hc : q ∈ @nil Question) by (by apply Hcand).
      by apply elem_of_nil in Hc. }
    reflexivity.
  - intros Hne.
    destruct (take 5 near) as [|q0 matching] eqn:Ematching.
    + apply take_succ_nil in Ematching as ->.
      destruct (take 5 candidates) as [|q1 fallback] eqn:Efallback.
      { apply take_succ_nil in Efallback. done. }
      destruct (pick_some u (q1 :: fallback) Hu) as (question & Epick & Hin);
        [done|].
      rewrite Epick. exists question, g'.
      rewrite <- Efallback in Hin. apply elem_of_take_list in Hin.
      apply Hcand in Hin as (Hc & Hin). apply isCandidate_spec in Hc as [? ?].
      split; [reflexivity|]. split; [exact Hin|]. split; [done|].
      split; [done|]. split; [|done].
      intros Hex. apply Exists_exists in Hex as (q & Hq & Hc & Hlo & Hhi).
      assert (Hq' : q ∈ @nil Question).
      { apply Hnear. split; [|exact Hq].
        split; [exact Hc|]. apply Hwithin. lra. }
      by apply elem_of_nil in Hq'.
    + destruct (pick_some u (q0 :: matching) Hu) as (question & Epick & Hin);
        [done|].
      rewrite Epick. exists question, g'.
      rewrite <- Ematching in Hin. apply elem_of_take_list in Hin.
      apply Hnear in Hin as ((Hc & Hn) & Hin).
      apply isCandidate_spec in Hc as [? ?]. apply Hwithin in Hn.
      split; [reflexivity|]. split; [exact Hin|]. split; [done|].
      split; [done|]. split; [|done]. intros _. lra.
Qed.

Lemma getNextQuestion_outcome_witness :
  (forall g : list (Q * Q), 0 <= fst (recordingRandom g) < 1)
  /\ exists db' difficulty g1 question g',
       AdaptiveService.recommendQuestion (list (Q * Q)) recordingSampleBeta
         recordingRandom (engine class_ldb) 5000 alice
         (QuizService.buildUserContext (engine class_ldb) 16 alice budgeting)
         []
       = Ok (db', difficulty, g1)
       /\ QuizService.getNextQuestion (list (Q * Q)) recordingSampleBeta
            recordingRandom class_ldb 16 5000 alice budgeting []
          = Ok ({| engine := db';
                   questions := questions class_ldb;
                   xp_profiles := xp_profiles class_ldb |}, Some question, g')
       /\ question ∈ questions class_ldb
       /\ is_active question = true.
Proof.
  assert (H : forall g : list (Q * Q), 0 <= fst (recordingRandom g) < 1).
  { intros g. cbn. lra. }
  split; [exact H|].
  eexists _, _, _.
  eassert (Hout : _).
  { eapply (getNextQuestion_outcome (list (Q * Q)) recordingSampleBeta
              recordingRandom class_ldb 16 5000 alice budgeting []);
      [exact H|].
    vm_compute. reflexivity. }
  destruct (proj2 Hout) as (question & g' & Hcall & Hin & _ & Hactive & _).
  { vm_compute. discriminate. }
  exists question, g'. split; [vm_compute; reflexivity|].
  split; [exact Hcall|]. split; [exact Hin|exact Hactive].
Defined.

(** ** QuizService.submitAnswer *)

(** The counters [updateTopicMastery] writes, whatever the row holds. *)
Lemma updateTopicMastery_writes db now userId topicId isCorrect timeTaken :
  exists db' update row,
    ProgressService.updateTopicMastery db now userId topicId isCorrect
      timeTaken = (db', update)
    /\ user_topic_mastery db' !! (userId, topicId) = Some row
    /\ attempts_count row
       = (attempts_count (currentRow db userId topicId) + 1)%Z
    /\ correct_answers row
       = (correct_answers (currentRow db userId topicId)
          + (if isCorrect then 1 else 0))%Z
    /\ bandit_models db' = bandit_models db
    /\ question_attempts db' = question_attempts db
    /\ user_profiles db' = user_profiles db.
Proof.
  unfold ProgressService.updateTopicMastery, currentRow.
  destruct (user_topic_mastery db !! (userId, topicId)) as [mastery|] eqn:E.
  - eexists _, _, _. split; [reflexivity|]. cbn.
    split; [rewrite lookup_alter_eq, E; reflexivity|]. done.
  - eexists _, _, _. split; [reflexivity|]. cbn.
    split; [rewrite lookup_alter_eq, lookup_insert_eq; reflexivity|]. done.
Qed.

(** The counters [AdaptiveService.updateModel] writes. *)
Lemma adaptive_updateModel_writes db now userId topicId isCorrect difficulty
    context :
  exists db' row,
    AdaptiveService.updateModel db now userId topicId isCorrect difficulty
      context = Ok db'
    /\ user_topic_mastery db' !! (userId, topicId) = Some row
    /\ attempts_count row
       = (attempts_count (currentRow db userId topicId) + 1)%Z
    /\ correct_answers row
       = (correct_answers (currentRow db userId topicId)
          + (if isCorrect then 1 else 0))%Z
    /\ question_attempts db' = question_attempts db
    /\ user_profiles db' = user_profiles db.
Proof.
  destruct (updateModel_updates_mastery_once db now userId topicId isCorrect
              difficulty context)
    as (db_bandit & db' & state & Hb & Hm & Hcall & _).
  destruct (bandit_updateModel_frame _ _ _ _ _ _ _ Hb)
    as (_ & Hb_mastery & Hb_attempts & Hb_profiles).
  destruct (updateMastery_frame _ _ _ _ _ _ _ _ _ Hm)
    as (Hrow & _ & _ & Hattempts & Hprofiles).
  assert (Hcur : currentRow db_bandit userId topicId
                 = currentRow db userId topicId).
  { unfold currentRow. by rewrite Hb_mastery. }
  rewrite Hcur in Hrow.
  eexists db', _. split; [exact Hcall|]. split; [exact Hrow|]. cbn.
  split; [reflexivity|]. split; [reflexivity|]. split; congruence.
Qed.

(** X26.  [submitAnswer] fails in two ways only: with 'Question not
    found' exactly when the identifier does not select exactly one
    question, and with 'User profile not found' exactly when it does and
    the user has no profile. *)
Theorem submitAnswer_errors ldb hour now1 now2 userId questionId answerData u :
  let found :=
    filter (fun q => question_id q = questionId) (questions ldb) in
  let outcome :=
    QuizService.submitAnswer ldb hour now1 now2 userId questionId answerData
      u in
  (outcome = Throw "Question not found" <-> length found <> 1%nat)
  /\ (outcome = Throw "User profile not found"
      <-> length found = 1%nat /\ xp_profiles ldb !! userId = None)
  /\ (forall message, outcome = Throw message ->
      message = "Question not found" \/ message = "User profile not found").
Proof.
  intros found outcome. unfold outcome, QuizService.submitAnswer.
  fold found.
  destruct found as [|question [|]]; cbn [single]; cbv zeta;
    [repeat split; first [done|by intros [? ?]|intros ? ?; left; congruence]
    |
    |repeat split; first [done|by intros [? ?]|intros ? ?; left; congruence]].
  match goal with
  | |- context [ProgressService.updateTopicMastery ?a ?b ?c ?d ?e ?f] =>
      destruct (updateTopicMastery_writes a b c d e f)
        as (db1 & update & row1 & E1 & _);
      rewrite E1
  end.
  unfold ProgressService.addXp.
  destruct (xp_profiles ldb !! userId) as [profile|];
    cbn -[AdaptiveService.updateModel QuizService.xpEarned
          QuizService.buildUserContext QuizService.generateExplanation
          QuizService.generateFeedback].
  - match goal with
    | |- context [AdaptiveService.updateModel ?a ?b ?c ?d ?e ?f ?g] =>
        destruct (adaptive_updateModel_writes a b c d e f g)
          as (db2 & row2 & E2 & _);
        rewrite E2
    end.
    cbn. repeat split; first [done|by intros [? ?]].
  - repeat split; first [done|intros ? ?; right; congruence].
Qed.




(** One correct answer to [needs_and_wants] through the quiz: the row of
    [alice] goes from 4 attempts and 3 correct answers to 6 and 5, and the
    120 points earned take the profile from 380 to 500 points. *)
Example quiz_counts_one_answer_twice :
  exists ldb' submission row profile',
    QuizService.submitAnswer class_ldb 16 5000 5001 alice "q1"
      {| AnswerData.answer := Some "B";
         AnswerData.timeTaken := Some 20;
         AnswerData.hintUsed := None |} 0.5
    = Ok (ldb', submission)
    /\ Submission.xp_earned submission = 120%Z
    /\ user_topic_mastery (engine ldb') !! (alice, budgeting) = Some row
    /\ attempts_count row = 6%Z
    /\ correct_answers row = 5%Z
    /\ xp_profiles ldb' !! alice = Some profile'
    /\ total_xp profile' = 500%Z.
Proof.
  do 4 eexists. split; [by vm_compute|].
  split; [reflexivity|]. split; [by vm_compute|].
  split; [reflexivity|]. split; [reflexivity|].
  split; [by vm_compute|]. reflexivity.
Qed.

(** ** QuizService.buildUserContext *)

(** X28.  The context the quiz service builds agrees with the one of the
    adaptive service on the mastery, the accuracy, the average time, the
    attempts, the streak and the confidence interval; only the engagement
    level is computed differently, from the accuracy and the time alone.
    When no recorded answer took a negative time, the accuracy is between
    0 and 1 and the engagement level between 0 and 5/4; it is at most 1
    as soon as the average time is 20 seconds or more. *)
Theorem quiz_context_ranges db hour userId topicId :
  TimesNonNegative db userId ->
  let context := QuizService.buildUserContext db hour userId topicId in
  let adaptive := AdaptiveService.buildUserContext db hour userId topicId in
  0 <= UserContext.recent_accuracy context <= 1
  /\ 0 <= UserContext.avg_time_per_question context
  /\ 0 <= UserContext.engagement_level context <= 5 # 4
  /\ (20 <= UserContext.avg_time_per_question context ->
      UserContext.engagement_level context <= 1)
  /\ UserContext.topic_mastery context = UserContext.topic_mastery adaptive
  /\ UserContext.recent_accuracy context
     = UserContext.recent_accuracy adaptive
  /\ UserContext.avg_time_per_question context
     = UserContext.avg_time_per_question adaptive
  /\ UserContext.total_attempts context = UserContext.total_attempts adaptive
  /\ UserContext.streak_days context = UserContext.streak_days adaptive
  /\ UserContext.confidence_interval context
     = UserContext.confidence_interval adaptive.
Proof.
  intros Ht context adaptive.
  assert (Hsame : UserContext.topic_mastery context
                  = UserContext.topic_mastery adaptive
    /\ UserContext.recent_accuracy context
       = UserContext.recent_accuracy adaptive
    /\ UserContext.avg_time_per_question context
       = UserContext.avg_time_per_question adaptive
    /\ UserContext.total_attempts context = UserContext.total_attempts adaptive
    /\ UserContext.streak_days context = UserContext.streak_days adaptive
    /\ UserContext.confidence_interval context
       = UserContext.confidence_interval adaptive).
  { repeat split. }
  cut (0 <= UserContext.recent_accuracy context <= 1
       /\ 0 <= UserContext.avg_time_per_question context
       /\ 0 <= UserContext.engagement_level context <= 5 # 4
       /\ (20 <= UserContext.avg_time_per_question context ->
           UserContext.engagement_level context <= 1)).
  { tauto. }
  clear Hsame adaptive. unfold context, QuizService.buildUserContext,
    QuizService.calculateEngagementLevel.
  cbn -[Qdiv Qplus Qminus Qle Math.max Math.min take filter].
  set (l := take 10 (default [] (question_attempts db !! userId))).
  assert (Hl : Forall (fun a => 0 <= time_taken_seconds a) l).
  { by apply Forall_take. }
  clearbody l.
  set (accuracy := match l with [] => 0.5 | _ => _ end).
  set (avg := match l with [] => 30 | _ => _ end).
  assert (Hacc : 0 <= accuracy <= 1).
  { unfold accuracy. destruct l as [|a l']; [lra|].
    by apply (proportion_range (fun a => is_correct a = true)). }
  assert (Havg : 0 <= avg).
  { unfold avg. destruct l as [|a l']; [lra|].
    by apply (mean_nonneg time_taken_seconds). }
  clearbody accuracy avg.
  unfold Qdiv. change (/ 40) with (1 # 40). change (/ 2) with (1 # 2).
  repeat split; try done; try lra; try (minmax; lra).
Qed.

Lemma quiz_context_ranges_witness :
  TimesNonNegative quick_db alice
  /\ 0 <= UserContext.engagement_level
            (QuizService.buildUserContext quick_db 16 alice budgeting)
     <= 5 # 4.
Proof.
  assert (Ht : TimesNonNegative quick_db alice).
  { unfold TimesNonNegative. vm_compute. repeat constructor; discriminate. }
  split; [exact Ht|].
  exact (proj1 (proj2 (proj2
    (quiz_context_ranges quick_db 16 alice budgeting Ht)))).
Defined.
